(** * qeijo: the PW deck codec, the log scanner and the coordinate writer

    A shallow embedding of [src/qeijo/pw.py] (classes [calc] and [out]) and
    the properties of its four text-processing routines: [read_input],
    [build_input], [__get_output_info__] and [__write_coords__].

    Conventions of the embedding.
    - Python [str] is [string], read as ASCII text; [int] is [Z]; [float] is
      the IEEE binary64 type [PrimFloat.float], with its own [*] and [/].
    - A raised exception is a [Raise e] result; [Ok v] is normal completion.
    - The conversions between text and floats ([float(s)], [str(x)] and the
      ["%.6f"] format) are library code of the Python runtime: they are the
      three operations of the class [FloatText], and the theorems hold for
      every implementation of it.
    - A [dict] is an association list in insertion order, as Python iterates
      it; an object's attributes are the fields of a record, and a method that
      assigns to [self] returns the updated record. *)

From Stdlib Require Import String Ascii List ZArith Bool Lia.
From Stdlib Require Import PrimFloat FloatOps SpecFloat.
From Stdlib Require Import DecimalString DecimalZ DecimalN DecimalPos DecimalFacts.
Import ListNotations.
Set Warnings "-inexact-float".
Local Open Scope list_scope.
Local Open Scope string_scope.

(** ** Python results and exceptions *)

Inductive exn : Type :=
| IndexError | KeyError | ValueError | TypeError | UnboundLocalError.

Inductive result (A : Type) : Type :=
| Ok (a : A)
| Raise (e : exn).
Arguments Ok {A} a.
Arguments Raise {A} e.

Definition bind {A B : Type} (r : result A) (k : A -> result B) : result B :=
  match r with
  | Ok a => k a
  | Raise e => Raise e
  end.

Notation "x <- r ;; k" := (bind r (fun x => k))
  (at level 61, r at next level, right associativity).

Definition is_ok {A : Type} (r : result A) : bool :=
  match r with Ok _ => true | Raise _ => false end.

(** ** Python string primitives *)

Definition LF : ascii := "010"%char.
Definition CR : ascii := "013"%char.
Definition NL : string := String LF "".

(** [str.isspace] on ASCII: TAB, LF, VT, FF, CR, FS, GS, RS, US and space. *)
Definition is_space (c : ascii) : bool :=
  let n := nat_of_ascii c in
  ((9 <=? n)%nat && (n <=? 13)%nat) || ((28 <=? n)%nat && (n <=? 32)%nat).

Definition is_digit (c : ascii) : bool :=
  let n := nat_of_ascii c in (48 <=? n)%nat && (n <=? 57)%nat.

Fixpoint string_forall (p : ascii -> bool) (s : string) : bool :=
  match s with
  | EmptyString => true
  | String c s' => p c && string_forall p s'
  end.

(** [s.split()]: the maximal runs of non-whitespace characters. [cur] is the
    run being read. *)
Fixpoint split_from (cur : string) (s : string) : list string :=
  match s with
  | EmptyString => match cur with EmptyString => [] | _ => [cur] end
  | String c s' =>
      if is_space c then
        match cur with
        | EmptyString => split_from "" s'
        | _ => cur :: split_from "" s'
        end
      else split_from (cur ++ String c "") s'
  end.

Definition split (s : string) : list string := split_from "" s.

Definition lower_char (c : ascii) : ascii :=
  let n := nat_of_ascii c in
  if (65 <=? n)%nat && (n <=? 90)%nat then ascii_of_nat (n + 32) else c.

(** [s.lower()] *)
Fixpoint lower (s : string) : string :=
  match s with
  | EmptyString => EmptyString
  | String c s' => String (lower_char c) (lower s')
  end.

(** [s.replace(",","")] *)
Fixpoint replace_comma (s : string) : string :=
  match s with
  | EmptyString => EmptyString
  | String c s' =>
      if (c =? ",")%char then replace_comma s' else String c (replace_comma s')
  end.

(** [s.rstrip()] *)
Fixpoint rstrip (s : string) : string :=
  match s with
  | EmptyString => EmptyString
  | String c s' =>
      match rstrip s' with
      | EmptyString => if is_space c then EmptyString else String c EmptyString
      | r => String c r
      end
  end.

(** Text-mode [open(...)] translates CR LF and a lone CR to LF. *)
Fixpoint universal_newlines (s : string) : string :=
  match s with
  | EmptyString => EmptyString
  | String c s' =>
      if (c =? CR)%char then
        match s' with
        | String c' _ =>
            if (c' =? LF)%char then universal_newlines s'
            else String LF (universal_newlines s')
        | EmptyString => String LF EmptyString
        end
      else String c (universal_newlines s')
  end.

(** [f.readlines()]: the lines of a text, each with its line feed. *)
Fixpoint readlines_from (cur : string) (s : string) : list string :=
  match s with
  | EmptyString => match cur with EmptyString => [] | _ => [cur] end
  | String c s' =>
      if (c =? LF)%char then (cur ++ NL) :: readlines_from "" s'
      else readlines_from (cur ++ String c "") s'
  end.

Definition readlines (s : string) : list string := readlines_from "" s.

(** ** Python integers as text *)

(** [str(n)] for an [int]. *)
Definition str_int (n : Z) : string := NilZero.string_of_int (Z.to_int n).

(** The digits of an integer literal: single underscores are allowed between
    digits only. [prev] tells whether the previous character was a digit. *)
Fixpoint int_body (prev : bool) (s : string) : option string :=
  match s with
  | EmptyString => if prev then Some EmptyString else None
  | String c s' =>
      if is_digit c then option_map (String c) (int_body true s')
      else if (c =? "_")%char && prev then int_body false s'
      else None
  end.

(** The characters that [int] skips around a number: TAB, LF, VT, FF, CR
    and space. The separators FS, GS, RS and US, which [str.split] and
    [str.rstrip] take for white space, are not among them. *)
Definition is_int_space (c : ascii) : bool :=
  let n := nat_of_ascii c in
  ((9 <=? n)%nat && (n <=? 13)%nat) || (n =? 32)%nat.

Fixpoint int_rstrip (s : string) : string :=
  match s with
  | EmptyString => EmptyString
  | String c s' =>
      match int_rstrip s' with
      | EmptyString =>
          if is_int_space c then EmptyString else String c EmptyString
      | r => String c r
      end
  end.

Fixpoint int_lstrip (s : string) : string :=
  match s with
  | EmptyString => EmptyString
  | String c s' => if is_int_space c then int_lstrip s' else s
  end.

Definition int_strip (s : string) : string := int_lstrip (int_rstrip s).

(** [int(s)] for a [str] in base 10; [None] is [ValueError]. *)
Definition py_int (s : string) : option Z :=
  match int_strip s with
  | EmptyString => None
  | String c r =>
      let '(neg, body) :=
        if (c =? "-")%char then (true, r)
        else if (c =? "+")%char then (false, r)
        else (false, String c r) in
      match int_body false body with
      | Some ds =>
          match NilEmpty.uint_of_string ds with
          | Some u => Some (if neg then (- Z.of_uint u)%Z else Z.of_uint u)
          | None => None
          end
      | None => None
      end
  end.

Definition int (s : string) : result Z :=
  match py_int s with Some n => Ok n | None => Raise ValueError end.

(** ** Lists and dictionaries *)

(** [l[i]] for [i >= 0]. *)
Definition item {A : Type} (l : list A) (i : nat) : result A :=
  match nth_error l i with Some a => Ok a | None => Raise IndexError end.

(** [for i in range(n)] threading the text built so far. *)
Fixpoint for_each (idx : list nat) (body : nat -> string -> result string)
    (s : string) : result string :=
  match idx with
  | [] => Ok s
  | i :: rest => s' <- body i s ;; for_each rest body s'
  end.

Definition for_range (n : nat) : (nat -> string -> result string) ->
    string -> result string :=
  for_each (seq 0 n).

Definition dict : Type := list (string * string).

Fixpoint dict_get (d : dict) (k : string) : option string :=
  match d with
  | [] => None
  | (k', v) :: d' => if (k =? k')%string then Some v else dict_get d' k
  end.

(** [d[k] = v]: an existing key keeps its place, a new one goes last. *)
Fixpoint dict_set (d : dict) (k v : string) : dict :=
  match d with
  | [] => [(k, v)]
  | (k', v') :: d' =>
      if (k =? k')%string then (k', v) :: d' else (k', v') :: dict_set d' k v
  end.

(** [d[k]] *)
Definition getitem (d : dict) (k : string) : result string :=
  match dict_get d k with Some v => Ok v | None => Raise KeyError end.

Definition dict_keys (d : dict) : list string := map fst d.

(** ** Floats as text *)

Class FloatText : Type := {
  (** [float(s)]; [None] is [ValueError] *)
  float_of_string : string -> option float;
  (** [str(x)], which is also [repr(x)] *)
  str_float : float -> string;
  (** ["%.6f" % x] *)
  fmt6 : float -> string
}.

Definition to_float {FT : FloatText} (s : string) : result float :=
  match float_of_string s with Some f => Ok f | None => Raise ValueError end.

(** [str(l)] for a list of floats. *)
Definition str_float_list {FT : FloatText} (l : list float) : string :=
  "[" ++ String.concat ", " (map str_float l) ++ "]".

(** [str(v)] for an attribute that is [None] or an [int]. *)
Definition str_opt_int (v : option Z) : string :=
  match v with Some n => str_int n | None => "None" end.

(** ** The [calc] object *)

Module Calc.

Record calc : Type := mk {
  control : dict;
  system : dict;
  electrons : dict;
  ions : dict;
  cell : dict;
  atomic_species : list string;
  atomic_mass : list string;
  pseudopotential : list string;
  atom_type : list string;
  x : list float;
  y : list float;
  z : list float;
  kx : list float;
  ky : list float;
  kz : list float;
  wk : list float;
  if_pos1 : list Z;
  if_pos2 : list Z;
  if_pos3 : list Z;
  v1 : list float;
  v2 : list float;
  v3 : list float;
  nk1 : option Z;
  nk2 : option Z;
  nk3 : option Z;
  sk1 : option Z;
  sk2 : option Z;
  sk3 : option Z;
  atomic_positions_units : string;
  cell_parameters_units : string;
  k_points_type : string
}.

Definition set_control (v : dict) (o : calc) : calc :=
  mk v (system o) (electrons o) (ions o) (cell o) (atomic_species o)
    (atomic_mass o) (pseudopotential o) (atom_type o) (x o) (y o) (z o) (kx o)
    (ky o) (kz o) (wk o) (if_pos1 o) (if_pos2 o) (if_pos3 o) (v1 o) (v2 o) (v3
    o) (nk1 o) (nk2 o) (nk3 o) (sk1 o) (sk2 o) (sk3 o) (atomic_positions_units
    o) (cell_parameters_units o) (k_points_type o).
Definition set_system (v : dict) (o : calc) : calc :=
  mk (control o) v (electrons o) (ions o) (cell o) (atomic_species o)
    (atomic_mass o) (pseudopotential o) (atom_type o) (x o) (y o) (z o) (kx o)
    (ky o) (kz o) (wk o) (if_pos1 o) (if_pos2 o) (if_pos3 o) (v1 o) (v2 o) (v3
    o) (nk1 o) (nk2 o) (nk3 o) (sk1 o) (sk2 o) (sk3 o) (atomic_positions_units
    o) (cell_parameters_units o) (k_points_type o).
Definition set_electrons (v : dict) (o : calc) : calc :=
  mk (control o) (system o) v (ions o) (cell o) (atomic_species o)
    (atomic_mass o) (pseudopotential o) (atom_type o) (x o) (y o) (z o) (kx o)
    (ky o) (kz o) (wk o) (if_pos1 o) (if_pos2 o) (if_pos3 o) (v1 o) (v2 o) (v3
    o) (nk1 o) (nk2 o) (nk3 o) (sk1 o) (sk2 o) (sk3 o) (atomic_positions_units
    o) (cell_parameters_units o) (k_points_type o).
Definition set_ions (v : dict) (o : calc) : calc :=
  mk (control o) (system o) (electrons o) v (cell o) (atomic_species o)
    (atomic_mass o) (pseudopotential o) (atom_type o) (x o) (y o) (z o) (kx o)
    (ky o) (kz o) (wk o) (if_pos1 o) (if_pos2 o) (if_pos3 o) (v1 o) (v2 o) (v3
    o) (nk1 o) (nk2 o) (nk3 o) (sk1 o) (sk2 o) (sk3 o) (atomic_positions_units
    o) (cell_parameters_units o) (k_points_type o).
Definition set_cell (v : dict) (o : calc) : calc :=
  mk (control o) (system o) (electrons o) (ions o) v (atomic_species o)
    (atomic_mass o) (pseudopotential o) (atom_type o) (x o) (y o) (z o) (kx o)
    (ky o) (kz o) (wk o) (if_pos1 o) (if_pos2 o) (if_pos3 o) (v1 o) (v2 o) (v3
    o) (nk1 o) (nk2 o) (nk3 o) (sk1 o) (sk2 o) (sk3 o) (atomic_positions_units
    o) (cell_parameters_units o) (k_points_type o).
Definition set_atomic_species (v : list string) (o : calc) : calc :=
  mk (control o) (system o) (electrons o) (ions o) (cell o) v (atomic_mass o)
    (pseudopotential o) (atom_type o) (x o) (y o) (z o) (kx o) (ky o) (kz o)
    (wk o) (if_pos1 o) (if_pos2 o) (if_pos3 o) (v1 o) (v2 o) (v3 o) (nk1 o)
    (nk2 o) (nk3 o) (sk1 o) (sk2 o) (sk3 o) (atomic_positions_units o)
    (cell_parameters_units o) (k_points_type o).
Definition set_atomic_mass (v : list string) (o : calc) : calc :=
  mk (control o) (system o) (electrons o) (ions o) (cell o) (atomic_species o)
    v (pseudopotential o) (atom_type o) (x o) (y o) (z o) (kx o) (ky o) (kz o)
    (wk o) (if_pos1 o) (if_pos2 o) (if_pos3 o) (v1 o) (v2 o) (v3 o) (nk1 o)
    (nk2 o) (nk3 o) (sk1 o) (sk2 o) (sk3 o) (atomic_positions_units o)
    (cell_parameters_units o) (k_points_type o).
Definition set_pseudopotential (v : list string) (o : calc) : calc :=
  mk (control o) (system o) (electrons o) (ions o) (cell o) (atomic_species o)
    (atomic_mass o) v (atom_type o) (x o) (y o) (z o) (kx o) (ky o) (kz o) (wk
    o) (if_pos1 o) (if_pos2 o) (if_pos3 o) (v1 o) (v2 o) (v3 o) (nk1 o) (nk2
    o) (nk3 o) (sk1 o) (sk2 o) (sk3 o) (atomic_positions_units o)
    (cell_parameters_units o) (k_points_type o).
Definition set_atom_type (v : list string) (o : calc) : calc :=
  mk (control o) (system o) (electrons o) (ions o) (cell o) (atomic_species o)
    (atomic_mass o) (pseudopotential o) v (x o) (y o) (z o) (kx o) (ky o) (kz
    o) (wk o) (if_pos1 o) (if_pos2 o) (if_pos3 o) (v1 o) (v2 o) (v3 o) (nk1 o)
    (nk2 o) (nk3 o) (sk1 o) (sk2 o) (sk3 o) (atomic_positions_units o)
    (cell_parameters_units o) (k_points_type o).
Definition set_x (v : list float) (o : calc) : calc :=
  mk (control o) (system o) (electrons o) (ions o) (cell o) (atomic_species o)
    (atomic_mass o) (pseudopotential o) (atom_type o) v (y o) (z o) (kx o) (ky
    o) (kz o) (wk o) (if_pos1 o) (if_pos2 o) (if_pos3 o) (v1 o) (v2 o) (v3 o)
    (nk1 o) (nk2 o) (nk3 o) (sk1 o) (sk2 o) (sk3 o) (atomic_positions_units o)
    (cell_parameters_units o) (k_points_type o).
Definition set_y (v : list float) (o : calc) : calc :=
  mk (control o) (system o) (electrons o) (ions o) (cell o) (atomic_species o)
    (atomic_mass o) (pseudopotential o) (atom_type o) (x o) v (z o) (kx o) (ky
    o) (kz o) (wk o) (if_pos1 o) (if_pos2 o) (if_pos3 o) (v1 o) (v2 o) (v3 o)
    (nk1 o) (nk2 o) (nk3 o) (sk1 o) (sk2 o) (sk3 o) (atomic_positions_units o)
    (cell_parameters_units o) (k_points_type o).
Definition set_z (v : list float) (o : calc) : calc :=
  mk (control o) (system o) (electrons o) (ions o) (cell o) (atomic_species o)
    (atomic_mass o) (pseudopotential o) (atom_type o) (x o) (y o) v (kx o) (ky
    o) (kz o) (wk o) (if_pos1 o) (if_pos2 o) (if_pos3 o) (v1 o) (v2 o) (v3 o)
    (nk1 o) (nk2 o) (nk3 o) (sk1 o) (sk2 o) (sk3 o) (atomic_positions_units o)
    (cell_parameters_units o) (k_points_type o).
Definition set_kx (v : list float) (o : calc) : calc :=
  mk (control o) (system o) (electrons o) (ions o) (cell o) (atomic_species o)
    (atomic_mass o) (pseudopotential o) (atom_type o) (x o) (y o) (z o) v (ky
    o) (kz o) (wk o) (if_pos1 o) (if_pos2 o) (if_pos3 o) (v1 o) (v2 o) (v3 o)
    (nk1 o) (nk2 o) (nk3 o) (sk1 o) (sk2 o) (sk3 o) (atomic_positions_units o)
    (cell_parameters_units o) (k_points_type o).
Definition set_ky (v : list float) (o : calc) : calc :=
  mk (control o) (system o) (electrons o) (ions o) (cell o) (atomic_species o)
    (atomic_mass o) (pseudopotential o) (atom_type o) (x o) (y o) (z o) (kx o)
    v (kz o) (wk o) (if_pos1 o) (if_pos2 o) (if_pos3 o) (v1 o) (v2 o) (v3 o)
    (nk1 o) (nk2 o) (nk3 o) (sk1 o) (sk2 o) (sk3 o) (atomic_positions_units o)
    (cell_parameters_units o) (k_points_type o).
Definition set_kz (v : list float) (o : calc) : calc :=
  mk (control o) (system o) (electrons o) (ions o) (cell o) (atomic_species o)
    (atomic_mass o) (pseudopotential o) (atom_type o) (x o) (y o) (z o) (kx o)
    (ky o) v (wk o) (if_pos1 o) (if_pos2 o) (if_pos3 o) (v1 o) (v2 o) (v3 o)
    (nk1 o) (nk2 o) (nk3 o) (sk1 o) (sk2 o) (sk3 o) (atomic_positions_units o)
    (cell_parameters_units o) (k_points_type o).
Definition set_wk (v : list float) (o : calc) : calc :=
  mk (control o) (system o) (electrons o) (ions o) (cell o) (atomic_species o)
    (atomic_mass o) (pseudopotential o) (atom_type o) (x o) (y o) (z o) (kx o)
    (ky o) (kz o) v (if_pos1 o) (if_pos2 o) (if_pos3 o) (v1 o) (v2 o) (v3 o)
    (nk1 o) (nk2 o) (nk3 o) (sk1 o) (sk2 o) (sk3 o) (atomic_positions_units o)
    (cell_parameters_units o) (k_points_type o).
Definition set_if_pos1 (v : list Z) (o : calc) : calc :=
  mk (control o) (system o) (electrons o) (ions o) (cell o) (atomic_species o)
    (atomic_mass o) (pseudopotential o) (atom_type o) (x o) (y o) (z o) (kx o)
    (ky o) (kz o) (wk o) v (if_pos2 o) (if_pos3 o) (v1 o) (v2 o) (v3 o) (nk1
    o) (nk2 o) (nk3 o) (sk1 o) (sk2 o) (sk3 o) (atomic_positions_units o)
    (cell_parameters_units o) (k_points_type o).
Definition set_if_pos2 (v : list Z) (o : calc) : calc :=
  mk (control o) (system o) (electrons o) (ions o) (cell o) (atomic_species o)
    (atomic_mass o) (pseudopotential o) (atom_type o) (x o) (y o) (z o) (kx o)
    (ky o) (kz o) (wk o) (if_pos1 o) v (if_pos3 o) (v1 o) (v2 o) (v3 o) (nk1
    o) (nk2 o) (nk3 o) (sk1 o) (sk2 o) (sk3 o) (atomic_positions_units o)
    (cell_parameters_units o) (k_points_type o).
Definition set_if_pos3 (v : list Z) (o : calc) : calc :=
  mk (control o) (system o) (electrons o) (ions o) (cell o) (atomic_species o)
    (atomic_mass o) (pseudopotential o) (atom_type o) (x o) (y o) (z o) (kx o)
    (ky o) (kz o) (wk o) (if_pos1 o) (if_pos2 o) v (v1 o) (v2 o) (v3 o) (nk1
    o) (nk2 o) (nk3 o) (sk1 o) (sk2 o) (sk3 o) (atomic_positions_units o)
    (cell_parameters_units o) (k_points_type o).
Definition set_v1 (v : list float) (o : calc) : calc :=
  mk (control o) (system o) (electrons o) (ions o) (cell o) (atomic_species o)
    (atomic_mass o) (pseudopotential o) (atom_type o) (x o) (y o) (z o) (kx o)
    (ky o) (kz o) (wk o) (if_pos1 o) (if_pos2 o) (if_pos3 o) v (v2 o) (v3 o)
    (nk1 o) (nk2 o) (nk3 o) (sk1 o) (sk2 o) (sk3 o) (atomic_positions_units o)
    (cell_parameters_units o) (k_points_type o).
Definition set_v2 (v : list float) (o : calc) : calc :=
  mk (control o) (system o) (electrons o) (ions o) (cell o) (atomic_species o)
    (atomic_mass o) (pseudopotential o) (atom_type o) (x o) (y o) (z o) (kx o)
    (ky o) (kz o) (wk o) (if_pos1 o) (if_pos2 o) (if_pos3 o) (v1 o) v (v3 o)
    (nk1 o) (nk2 o) (nk3 o) (sk1 o) (sk2 o) (sk3 o) (atomic_positions_units o)
    (cell_parameters_units o) (k_points_type o).
Definition set_v3 (v : list float) (o : calc) : calc :=
  mk (control o) (system o) (electrons o) (ions o) (cell o) (atomic_species o)
    (atomic_mass o) (pseudopotential o) (atom_type o) (x o) (y o) (z o) (kx o)
    (ky o) (kz o) (wk o) (if_pos1 o) (if_pos2 o) (if_pos3 o) (v1 o) (v2 o) v
    (nk1 o) (nk2 o) (nk3 o) (sk1 o) (sk2 o) (sk3 o) (atomic_positions_units o)
    (cell_parameters_units o) (k_points_type o).
Definition set_nk1 (v : option Z) (o : calc) : calc :=
  mk (control o) (system o) (electrons o) (ions o) (cell o) (atomic_species o)
    (atomic_mass o) (pseudopotential o) (atom_type o) (x o) (y o) (z o) (kx o)
    (ky o) (kz o) (wk o) (if_pos1 o) (if_pos2 o) (if_pos3 o) (v1 o) (v2 o) (v3
    o) v (nk2 o) (nk3 o) (sk1 o) (sk2 o) (sk3 o) (atomic_positions_units o)
    (cell_parameters_units o) (k_points_type o).
Definition set_nk2 (v : option Z) (o : calc) : calc :=
  mk (control o) (system o) (electrons o) (ions o) (cell o) (atomic_species o)
    (atomic_mass o) (pseudopotential o) (atom_type o) (x o) (y o) (z o) (kx o)
    (ky o) (kz o) (wk o) (if_pos1 o) (if_pos2 o) (if_pos3 o) (v1 o) (v2 o) (v3
    o) (nk1 o) v (nk3 o) (sk1 o) (sk2 o) (sk3 o) (atomic_positions_units o)
    (cell_parameters_units o) (k_points_type o).
Definition set_nk3 (v : option Z) (o : calc) : calc :=
  mk (control o) (system o) (electrons o) (ions o) (cell o) (atomic_species o)
    (atomic_mass o) (pseudopotential o) (atom_type o) (x o) (y o) (z o) (kx o)
    (ky o) (kz o) (wk o) (if_pos1 o) (if_pos2 o) (if_pos3 o) (v1 o) (v2 o) (v3
    o) (nk1 o) (nk2 o) v (sk1 o) (sk2 o) (sk3 o) (atomic_positions_units o)
    (cell_parameters_units o) (k_points_type o).
Definition set_sk1 (v : option Z) (o : calc) : calc :=
  mk (control o) (system o) (electrons o) (ions o) (cell o) (atomic_species o)
    (atomic_mass o) (pseudopotential o) (atom_type o) (x o) (y o) (z o) (kx o)
    (ky o) (kz o) (wk o) (if_pos1 o) (if_pos2 o) (if_pos3 o) (v1 o) (v2 o) (v3
    o) (nk1 o) (nk2 o) (nk3 o) v (sk2 o) (sk3 o) (atomic_positions_units o)
    (cell_parameters_units o) (k_points_type o).
Definition set_sk2 (v : option Z) (o : calc) : calc :=
  mk (control o) (system o) (electrons o) (ions o) (cell o) (atomic_species o)
    (atomic_mass o) (pseudopotential o) (atom_type o) (x o) (y o) (z o) (kx o)
    (ky o) (kz o) (wk o) (if_pos1 o) (if_pos2 o) (if_pos3 o) (v1 o) (v2 o) (v3
    o) (nk1 o) (nk2 o) (nk3 o) (sk1 o) v (sk3 o) (atomic_positions_units o)
    (cell_parameters_units o) (k_points_type o).
Definition set_sk3 (v : option Z) (o : calc) : calc :=
  mk (control o) (system o) (electrons o) (ions o) (cell o) (atomic_species o)
    (atomic_mass o) (pseudopotential o) (atom_type o) (x o) (y o) (z o) (kx o)
    (ky o) (kz o) (wk o) (if_pos1 o) (if_pos2 o) (if_pos3 o) (v1 o) (v2 o) (v3
    o) (nk1 o) (nk2 o) (nk3 o) (sk1 o) (sk2 o) v (atomic_positions_units o)
    (cell_parameters_units o) (k_points_type o).
Definition set_atomic_positions_units (v : string) (o : calc) : calc :=
  mk (control o) (system o) (electrons o) (ions o) (cell o) (atomic_species o)
    (atomic_mass o) (pseudopotential o) (atom_type o) (x o) (y o) (z o) (kx o)
    (ky o) (kz o) (wk o) (if_pos1 o) (if_pos2 o) (if_pos3 o) (v1 o) (v2 o) (v3
    o) (nk1 o) (nk2 o) (nk3 o) (sk1 o) (sk2 o) (sk3 o) v
    (cell_parameters_units o) (k_points_type o).
Definition set_cell_parameters_units (v : string) (o : calc) : calc :=
  mk (control o) (system o) (electrons o) (ions o) (cell o) (atomic_species o)
    (atomic_mass o) (pseudopotential o) (atom_type o) (x o) (y o) (z o) (kx o)
    (ky o) (kz o) (wk o) (if_pos1 o) (if_pos2 o) (if_pos3 o) (v1 o) (v2 o) (v3
    o) (nk1 o) (nk2 o) (nk3 o) (sk1 o) (sk2 o) (sk3 o) (atomic_positions_units
    o) v (k_points_type o).
Definition set_k_points_type (v : string) (o : calc) : calc :=
  mk (control o) (system o) (electrons o) (ions o) (cell o) (atomic_species o)
    (atomic_mass o) (pseudopotential o) (atom_type o) (x o) (y o) (z o) (kx o)
    (ky o) (kz o) (wk o) (if_pos1 o) (if_pos2 o) (if_pos3 o) (v1 o) (v2 o) (v3
    o) (nk1 o) (nk2 o) (nk3 o) (sk1 o) (sk2 o) (sk3 o) (atomic_positions_units
    o) (cell_parameters_units o) v.

(** [calc.__init__] *)
Definition init : calc :=
  mk [] [] [] [] [] [] [] [] [] [] [] [] [] [] [] [] [] [] [] [] [] []
     None None None None None None "" "" "".

End Calc.

(** ** [calc.build_input] *)

(** [for key in d: input_string += key + " = " + str(d[key]) + ",\n"] *)
Fixpoint emit_namelist (d : dict) (input_string : string) : string :=
  match d with
  | [] => input_string
  | (key, value) :: d' =>
      emit_namelist d' (input_string ++ key ++ " = " ++ value ++ "," ++ NL)
  end.

Section BuildInput.
Context {FT : FloatText}.

Definition emit_species (self : Calc.calc) (i : nat) (input_string : string)
    : result string :=
  a <- item (Calc.atomic_species self) i ;;
  m <- item (Calc.atomic_mass self) i ;;
  p <- item (Calc.pseudopotential self) i ;;
  Ok (input_string ++ a ++ "   " ++ m ++ "   " ++ p ++ NL).

Definition emit_vector (v : list float) (input_string : string)
    : result string :=
  a <- item v 0 ;;
  b <- item v 1 ;;
  c <- item v 2 ;;
  Ok (input_string ++ str_float a ++ "   " ++ str_float b ++ "   "
        ++ str_float c ++ NL).

Definition emit_atom (self : Calc.calc) (i : nat) (input_string : string)
    : result string :=
  if (length (Calc.if_pos1 self) =? 0)%nat then
    t <- item (Calc.atom_type self) i ;;
    xi <- item (Calc.x self) i ;;
    yi <- item (Calc.y self) i ;;
    zi <- item (Calc.z self) i ;;
    Ok (input_string ++ t ++ "   " ++ str_float xi ++ "   " ++ str_float yi
          ++ "   " ++ str_float zi ++ NL)
  else
    t <- item (Calc.atom_type self) i ;;
    xi <- item (Calc.x self) i ;;
    yi <- item (Calc.y self) i ;;
    zi <- item (Calc.z self) i ;;
    p1 <- item (Calc.if_pos1 self) i ;;
    p2 <- item (Calc.if_pos2 self) i ;;
    p3 <- item (Calc.if_pos3 self) i ;;
    Ok (input_string ++ t ++ "   " ++ str_float xi ++ "   " ++ str_float yi
          ++ "   " ++ str_float zi ++ "   " ++ str_int p1 ++ "   "
          ++ str_int p2 ++ "   " ++ str_int p3 ++ NL).

Definition emit_kpoint (self : Calc.calc) (i : nat) (input_string : string)
    : result string :=
  a <- item (Calc.kx self) i ;;
  b <- item (Calc.ky self) i ;;
  c <- item (Calc.kz self) i ;;
  w <- item (Calc.wk self) i ;;
  Ok (input_string ++ str_float a ++ "   " ++ str_float b ++ "   "
        ++ str_float c ++ "   " ++ str_float w ++ NL).

(** The text of the deck, built from the object after its counts are set. *)
Definition build_text (self : Calc.calc) : result string :=
  let input_string := "&CONTROL" ++ NL in
  let input_string := emit_namelist (Calc.control self) input_string in
  let input_string := input_string ++ "/" ++ NL in
  let input_string := input_string ++ "&SYSTEM" ++ NL in
  let input_string := emit_namelist (Calc.system self) input_string in
  let input_string := input_string ++ "/" ++ NL in
  let input_string := input_string ++ "&ELECTRONS" ++ NL in
  let input_string := emit_namelist (Calc.electrons self) input_string in
  let input_string := input_string ++ "/" ++ NL in
  let input_string := input_string ++ "&IONS" ++ NL in
  let input_string := emit_namelist (Calc.ions self) input_string in
  let input_string := input_string ++ "/" ++ NL in
  calculation <- getitem (Calc.control self) "calculation" ;;
  let input_string :=
    if (calculation =? "'vc-relax'") || (calculation =? "'vc-md'") then
      let input_string := input_string ++ "&CELL" ++ NL in
      let input_string := emit_namelist (Calc.cell self) input_string in
      input_string ++ "/" ++ NL
    else input_string in
  let input_string := input_string ++ "ATOMIC_SPECIES" ++ NL in
  input_string <-
    for_range (length (Calc.atomic_species self)) (emit_species self)
      input_string ;;
  ibrav <- getitem (Calc.system self) "ibrav" ;;
  ibrav <- int ibrav ;;
  input_string <-
    (if (ibrav =? 0)%Z then
       let input_string :=
         input_string ++ "CELL_PARAMETERS "
           ++ Calc.cell_parameters_units self ++ NL in
       input_string <- emit_vector (Calc.v1 self) input_string ;;
       input_string <- emit_vector (Calc.v2 self) input_string ;;
       emit_vector (Calc.v3 self) input_string
     else Ok input_string) ;;
  let input_string :=
    input_string ++ "ATOMIC_POSITIONS " ++ Calc.atomic_positions_units self
      ++ NL in
  input_string <-
    for_range (length (Calc.atom_type self)) (emit_atom self) input_string ;;
  let input_string :=
    input_string ++ "K_POINTS " ++ Calc.k_points_type self ++ NL in
  if negb (Calc.k_points_type self =? "gamma") then
    if Calc.k_points_type self =? "automatic" then
      Ok (input_string ++ str_opt_int (Calc.nk1 self) ++ "   "
            ++ str_opt_int (Calc.nk2 self) ++ "   "
            ++ str_opt_int (Calc.nk3 self) ++ "   "
            ++ str_opt_int (Calc.sk1 self) ++ "   "
            ++ str_opt_int (Calc.sk2 self) ++ "   "
            ++ str_opt_int (Calc.sk3 self) ++ NL)
    else
      let input_string :=
        input_string ++ str_float_list (Calc.wk self) ++ NL in
      for_range (length (Calc.wk self)) (emit_kpoint self) input_string
  else Ok input_string.

(** [build_input(self)] with [saveinp=False]: the object after the call, and
    the returned text or the exception raised. The two assignments to
    [self.system] come first, so they are made whatever happens next. *)
Definition build_input (self : Calc.calc) : Calc.calc * result string :=
  let self :=
    Calc.set_system
      (dict_set (Calc.system self) "nat"
         (str_int (Z.of_nat (length (Calc.atom_type self))))) self in
  let self :=
    Calc.set_system
      (dict_set (Calc.system self) "ntyp"
         (str_int (Z.of_nat (length (Calc.atomic_species self))))) self in
  (self, build_text self).

End BuildInput.

(** ** [calc.read_input] *)

Module Rd.

(** The local variables of [read_input], and [self]. *)
Record locals : Type := mk {
  iscontrol : bool;
  issystem : bool;
  iselectrons : bool;
  isions : bool;
  iscell : bool;
  iscellparameters : bool;
  isatomicspecies : bool;
  isatomicpositions : bool;
  iskpoints : bool;
  j : Z;
  nk : option Z;
  self : Calc.calc
}.

Definition set_iscontrol (v : bool) (o : locals) : locals :=
  mk v (issystem o) (iselectrons o) (isions o) (iscell o) (iscellparameters o)
    (isatomicspecies o) (isatomicpositions o) (iskpoints o) (j o) (nk o) (self
    o).
Definition set_issystem (v : bool) (o : locals) : locals :=
  mk (iscontrol o) v (iselectrons o) (isions o) (iscell o) (iscellparameters
    o) (isatomicspecies o) (isatomicpositions o) (iskpoints o) (j o) (nk o)
    (self o).
Definition set_iselectrons (v : bool) (o : locals) : locals :=
  mk (iscontrol o) (issystem o) v (isions o) (iscell o) (iscellparameters o)
    (isatomicspecies o) (isatomicpositions o) (iskpoints o) (j o) (nk o) (self
    o).
Definition set_isions (v : bool) (o : locals) : locals :=
  mk (iscontrol o) (issystem o) (iselectrons o) v (iscell o) (iscellparameters
    o) (isatomicspecies o) (isatomicpositions o) (iskpoints o) (j o) (nk o)
    (self o).
Definition set_iscell (v : bool) (o : locals) : locals :=
  mk (iscontrol o) (issystem o) (iselectrons o) (isions o) v (iscellparameters
    o) (isatomicspecies o) (isatomicpositions o) (iskpoints o) (j o) (nk o)
    (self o).
Definition set_iscellparameters (v : bool) (o : locals) : locals :=
  mk (iscontrol o) (issystem o) (iselectrons o) (isions o) (iscell o) v
    (isatomicspecies o) (isatomicpositions o) (iskpoints o) (j o) (nk o) (self
    o).
Definition set_isatomicspecies (v : bool) (o : locals) : locals :=
  mk (iscontrol o) (issystem o) (iselectrons o) (isions o) (iscell o)
    (iscellparameters o) v (isatomicpositions o) (iskpoints o) (j o) (nk o)
    (self o).
Definition set_isatomicpositions (v : bool) (o : locals) : locals :=
  mk (iscontrol o) (issystem o) (iselectrons o) (isions o) (iscell o)
    (iscellparameters o) (isatomicspecies o) v (iskpoints o) (j o) (nk o)
    (self o).
Definition set_iskpoints (v : bool) (o : locals) : locals :=
  mk (iscontrol o) (issystem o) (iselectrons o) (isions o) (iscell o)
    (iscellparameters o) (isatomicspecies o) (isatomicpositions o) v (j o) (nk
    o) (self o).
Definition set_j (v : Z) (o : locals) : locals :=
  mk (iscontrol o) (issystem o) (iselectrons o) (isions o) (iscell o)
    (iscellparameters o) (isatomicspecies o) (isatomicpositions o) (iskpoints
    o) v (nk o) (self o).
Definition set_nk (v : option Z) (o : locals) : locals :=
  mk (iscontrol o) (issystem o) (iselectrons o) (isions o) (iscell o)
    (iscellparameters o) (isatomicspecies o) (isatomicpositions o) (iskpoints
    o) (j o) v (self o).
Definition set_self (v : Calc.calc) (o : locals) : locals :=
  mk (iscontrol o) (issystem o) (iselectrons o) (isions o) (iscell o)
    (iscellparameters o) (isatomicspecies o) (isatomicpositions o) (iskpoints
    o) (j o) (nk o) v.

Definition init (self : Calc.calc) : locals :=
  mk false false false false false false false false false 0%Z None self.

(** An assignment to an attribute of [self]. *)
Definition upd (f : Calc.calc -> Calc.calc) (st : locals) : locals :=
  set_self (f (self st)) st.

End Rd.

Section ReadInput.
Context {FT : FloatText}.

(** The three floats of a CELL_PARAMETERS line, appended to one vector. *)
Definition read_vector (l : list string) (l0 : string) (v : list float)
    : result (list float) :=
  a <- to_float l0 ;;
  l1 <- item l 1 ;;
  b <- to_float l1 ;;
  l2 <- item l 2 ;;
  c <- to_float l2 ;;
  Ok (v ++ [a; b; c])%list.

(** The body of [for line in lines] in [read_input]. *)
Definition read_line (st : Rd.locals) (line : string) : result Rd.locals :=
  let l := split line in
  let self := Rd.self st in
  l0 <- item l 0 ;;
  (* Read &CONTROL section *)
  if lower l0 =? "&control" then Ok (Rd.set_iscontrol true st)
  else if Rd.iscontrol st then
    if l0 =? "/" then Ok (Rd.set_iscontrol false st)
    else
      l2 <- item l 2 ;;
      Ok (Rd.upd (Calc.set_control
                    (dict_set (Calc.control self) l0 (replace_comma l2))) st)
  (* Read &SYSTEM section *)
  else if lower l0 =? "&system" then Ok (Rd.set_issystem true st)
  else if Rd.issystem st then
    if l0 =? "/" then Ok (Rd.set_issystem false st)
    else
      l2 <- item l 2 ;;
      Ok (Rd.upd (Calc.set_system
                    (dict_set (Calc.system self) l0 (replace_comma l2))) st)
  (* Read &ELECTRONS section *)
  else if lower l0 =? "&electrons" then Ok (Rd.set_iselectrons true st)
  else if Rd.iselectrons st then
    if l0 =? "/" then Ok (Rd.set_iselectrons false st)
    else
      l2 <- item l 2 ;;
      Ok (Rd.upd (Calc.set_electrons
                    (dict_set (Calc.electrons self) l0 (replace_comma l2))) st)
  (* Read &IONS section *)
  else if lower l0 =? "&ions" then Ok (Rd.set_isions true st)
  else if Rd.isions st then
    if l0 =? "/" then Ok (Rd.set_isions false st)
    else
      l2 <- item l 2 ;;
      Ok (Rd.upd (Calc.set_ions
                    (dict_set (Calc.ions self) l0 (replace_comma l2))) st)
  (* Read &CELL section *)
  else if lower l0 =? "&cell" then Ok (Rd.set_iscell true st)
  else if Rd.iscell st then
    if l0 =? "/" then Ok (Rd.set_iscell false st)
    else
      l2 <- item l 2 ;;
      Ok (Rd.upd (Calc.set_cell
                    (dict_set (Calc.cell self) l0 (replace_comma l2))) st)
  (* Read CELL_PARAMETERS card *)
  else if lower l0 =? "cell_parameters" then
    let st := Rd.set_iscellparameters true st in
    if (length l =? 2)%nat then
      l1 <- item l 1 ;;
      Ok (Rd.upd (Calc.set_cell_parameters_units l1) st)
    else Ok st
  else if Rd.iscellparameters st then
    if (Rd.j st =? 0)%Z then
      v <- read_vector l l0 (Calc.v1 self) ;;
      Ok (Rd.set_j 1%Z (Rd.upd (Calc.set_v1 v) st))
    else if (Rd.j st =? 1)%Z then
      v <- read_vector l l0 (Calc.v2 self) ;;
      Ok (Rd.set_j 2%Z (Rd.upd (Calc.set_v2 v) st))
    else if (Rd.j st =? 2)%Z then
      v <- read_vector l l0 (Calc.v3 self) ;;
      Ok (Rd.set_iscellparameters false
            (Rd.set_j 0%Z (Rd.upd (Calc.set_v3 v) st)))
    else Ok st
  (* Read ATOMIC_SPECIES card *)
  else if lower l0 =? "atomic_species" then Ok (Rd.set_isatomicspecies true st)
  else if Rd.isatomicspecies st then
    l1 <- item l 1 ;;
    l2 <- item l 2 ;;
    let st :=
      Rd.upd (fun self =>
        Calc.set_pseudopotential (Calc.pseudopotential self ++ [l2])%list
          (Calc.set_atomic_mass (Calc.atomic_mass self ++ [l1])%list
             (Calc.set_atomic_species (Calc.atomic_species self ++ [l0])%list
                self))) st in
    let st := Rd.set_j (Rd.j st + 1)%Z st in
    ntyp <- getitem (Calc.system (Rd.self st)) "ntyp" ;;
    ntyp <- int ntyp ;;
    if (Rd.j st =? ntyp)%Z then
      Ok (Rd.set_isatomicspecies false (Rd.set_j 0%Z st))
    else Ok st
  (* Read ATOMIC_POSITIONS card *)
  else if lower l0 =? "atomic_positions" then
    let st := Rd.set_isatomicpositions true st in
    if (length l =? 2)%nat then
      l1 <- item l 1 ;;
      Ok (Rd.upd (Calc.set_atomic_positions_units l1) st)
    else Ok st
  else if Rd.isatomicpositions st then
    l1 <- item l 1 ;;
    xi <- to_float l1 ;;
    l2 <- item l 2 ;;
    yi <- to_float l2 ;;
    l3 <- item l 3 ;;
    zi <- to_float l3 ;;
    let st :=
      Rd.upd (fun self =>
        Calc.set_z (Calc.z self ++ [zi])%list
          (Calc.set_y (Calc.y self ++ [yi])%list
             (Calc.set_x (Calc.x self ++ [xi])%list
                (Calc.set_atom_type (Calc.atom_type self ++ [l0])%list
                   self)))) st in
    st <-
      (if (length l =? 7)%nat then
         l4 <- item l 4 ;;
         p1 <- int l4 ;;
         l5 <- item l 5 ;;
         p2 <- int l5 ;;
         l6 <- item l 6 ;;
         p3 <- int l6 ;;
         Ok (Rd.upd (fun self =>
               Calc.set_if_pos3 (Calc.if_pos3 self ++ [p3])%list
                 (Calc.set_if_pos2 (Calc.if_pos2 self ++ [p2])%list
                    (Calc.set_if_pos1 (Calc.if_pos1 self ++ [p1])%list
                       self))) st)
       else Ok st) ;;
    let st := Rd.set_j (Rd.j st + 1)%Z st in
    natv <- getitem (Calc.system (Rd.self st)) "nat" ;;
    natv <- int natv ;;
    if (Rd.j st =? natv)%Z then
      Ok (Rd.set_isatomicpositions false (Rd.set_j 0%Z st))
    else Ok st
  (* Read K_POINTS card *)
  else if lower l0 =? "k_points" then
    l1 <- item l 1 ;;
    let st := Rd.upd (Calc.set_k_points_type l1) st in
    if negb (l1 =? "gamma") then Ok (Rd.set_iskpoints true st) else Ok st
  else if Rd.iskpoints st then
    if Calc.k_points_type self =? "automatic" then
      n1 <- int l0 ;;
      l1 <- item l 1 ;;
      n2 <- int l1 ;;
      l2 <- item l 2 ;;
      n3 <- int l2 ;;
      l3 <- item l 3 ;;
      s1 <- int l3 ;;
      l4 <- item l 4 ;;
      s2 <- int l4 ;;
      l5 <- item l 5 ;;
      s3 <- int l5 ;;
      Ok (Rd.upd (fun self =>
            Calc.set_sk3 (Some s3)
              (Calc.set_sk2 (Some s2)
                 (Calc.set_sk1 (Some s1)
                    (Calc.set_nk3 (Some n3)
                       (Calc.set_nk2 (Some n2)
                          (Calc.set_nk1 (Some n1) self)))))) st)
    else if (Rd.j st =? 0)%Z then
      n <- int l0 ;;
      Ok (Rd.set_j 1%Z (Rd.set_nk (Some n) st))
    else
      a <- to_float l0 ;;
      l1 <- item l 1 ;;
      b <- to_float l1 ;;
      l2 <- item l 2 ;;
      c <- to_float l2 ;;
      l3 <- item l 3 ;;
      w <- to_float l3 ;;
      let st :=
        Rd.upd (fun self =>
          Calc.set_wk (Calc.wk self ++ [w])%list
            (Calc.set_kz (Calc.kz self ++ [c])%list
               (Calc.set_ky (Calc.ky self ++ [b])%list
                  (Calc.set_kx (Calc.kx self ++ [a])%list self)))) st in
      let st := Rd.set_j (Rd.j st + 1)%Z st in
      match Rd.nk st with
      | None => Raise UnboundLocalError
      | Some n =>
          if (n <? Rd.j st)%Z then Ok (Rd.set_j 0%Z (Rd.set_iskpoints false st))
          else Ok st
      end
  else Ok st.

Fixpoint read_lines (lines : list string) (st : Rd.locals)
    : result Rd.locals :=
  match lines with
  | [] => Ok st
  | line :: rest => st' <- read_line st line ;; read_lines rest st'
  end.

(** [self.read_input(inpfile)] on a file that exists and holds [text]: the
    object after the call, or the exception raised. *)
Definition read_input (text : string) (self : Calc.calc) : result Calc.calc :=
  st <- read_lines (readlines (universal_newlines text)) (Rd.init self) ;;
  Ok (Rd.self st).

End ReadInput.

(** ** The [out] object *)

Module Out.

Record out : Type := mk {
  atom_type : list string;
  x : list float;
  y : list float;
  z : list float;
  fx : list float;
  fy : list float;
  fz : list float;
  v1 : list float;
  v2 : list float;
  v3 : list float;
  energy : list float;
  efermi : option float;
  magnetization : list float;
  absmagnetization : list float;
  jobdone : bool
}.

Definition set_atom_type (v : list string) (o : out) : out :=
  mk v (x o) (y o) (z o) (fx o) (fy o) (fz o) (v1 o) (v2 o) (v3 o) (energy o)
    (efermi o) (magnetization o) (absmagnetization o) (jobdone o).
Definition set_x (v : list float) (o : out) : out :=
  mk (atom_type o) v (y o) (z o) (fx o) (fy o) (fz o) (v1 o) (v2 o) (v3 o)
    (energy o) (efermi o) (magnetization o) (absmagnetization o) (jobdone o).
Definition set_y (v : list float) (o : out) : out :=
  mk (atom_type o) (x o) v (z o) (fx o) (fy o) (fz o) (v1 o) (v2 o) (v3 o)
    (energy o) (efermi o) (magnetization o) (absmagnetization o) (jobdone o).
Definition set_z (v : list float) (o : out) : out :=
  mk (atom_type o) (x o) (y o) v (fx o) (fy o) (fz o) (v1 o) (v2 o) (v3 o)
    (energy o) (efermi o) (magnetization o) (absmagnetization o) (jobdone o).
Definition set_fx (v : list float) (o : out) : out :=
  mk (atom_type o) (x o) (y o) (z o) v (fy o) (fz o) (v1 o) (v2 o) (v3 o)
    (energy o) (efermi o) (magnetization o) (absmagnetization o) (jobdone o).
Definition set_fy (v : list float) (o : out) : out :=
  mk (atom_type o) (x o) (y o) (z o) (fx o) v (fz o) (v1 o) (v2 o) (v3 o)
    (energy o) (efermi o) (magnetization o) (absmagnetization o) (jobdone o).
Definition set_fz (v : list float) (o : out) : out :=
  mk (atom_type o) (x o) (y o) (z o) (fx o) (fy o) v (v1 o) (v2 o) (v3 o)
    (energy o) (efermi o) (magnetization o) (absmagnetization o) (jobdone o).
Definition set_v1 (v : list float) (o : out) : out :=
  mk (atom_type o) (x o) (y o) (z o) (fx o) (fy o) (fz o) v (v2 o) (v3 o)
    (energy o) (efermi o) (magnetization o) (absmagnetization o) (jobdone o).
Definition set_v2 (v : list float) (o : out) : out :=
  mk (atom_type o) (x o) (y o) (z o) (fx o) (fy o) (fz o) (v1 o) v (v3 o)
    (energy o) (efermi o) (magnetization o) (absmagnetization o) (jobdone o).
Definition set_v3 (v : list float) (o : out) : out :=
  mk (atom_type o) (x o) (y o) (z o) (fx o) (fy o) (fz o) (v1 o) (v2 o) v
    (energy o) (efermi o) (magnetization o) (absmagnetization o) (jobdone o).
Definition set_energy (v : list float) (o : out) : out :=
  mk (atom_type o) (x o) (y o) (z o) (fx o) (fy o) (fz o) (v1 o) (v2 o) (v3 o)
    v (efermi o) (magnetization o) (absmagnetization o) (jobdone o).
Definition set_efermi (v : option float) (o : out) : out :=
  mk (atom_type o) (x o) (y o) (z o) (fx o) (fy o) (fz o) (v1 o) (v2 o) (v3 o)
    (energy o) v (magnetization o) (absmagnetization o) (jobdone o).
Definition set_magnetization (v : list float) (o : out) : out :=
  mk (atom_type o) (x o) (y o) (z o) (fx o) (fy o) (fz o) (v1 o) (v2 o) (v3 o)
    (energy o) (efermi o) v (absmagnetization o) (jobdone o).
Definition set_absmagnetization (v : list float) (o : out) : out :=
  mk (atom_type o) (x o) (y o) (z o) (fx o) (fy o) (fz o) (v1 o) (v2 o) (v3 o)
    (energy o) (efermi o) (magnetization o) v (jobdone o).
Definition set_jobdone (v : bool) (o : out) : out :=
  mk (atom_type o) (x o) (y o) (z o) (fx o) (fy o) (fz o) (v1 o) (v2 o) (v3 o)
    (energy o) (efermi o) (magnetization o) (absmagnetization o) v.

(** [out.__init__] *)
Definition init : out := mk [] [] [] [] [] [] [] [] [] [] [] None [] [] false.

End Out.

(** ** [calc.__get_output_info__] *)

Definition ry2ev : float := 13.605%float.
Definition bohr2angs : float := 0.529177%float.

Module Scan.

(** The local variables of [__get_output_info__]. *)
Record locals : Type := mk {
  nextcellpar : bool;
  nextcoords : bool;
  nextforces : bool;
  i : Z;
  j : Z;
  a0 : option float;
  t : list string;
  x : list float;
  y : list float;
  z : list float;
  fx : list float;
  fy : list float;
  fz : list float;
  v1 : list float;
  v2 : list float;
  v3 : list float;
  natoms : option Z;
  energy : list float;
  magnetization : list float;
  absmagnetization : list float;
  efermi : option float;
  jobdone : bool
}.

Definition set_nextcellpar (v : bool) (o : locals) : locals :=
  mk v (nextcoords o) (nextforces o) (i o) (j o) (a0 o) (t o) (x o) (y o) (z
    o) (fx o) (fy o) (fz o) (v1 o) (v2 o) (v3 o) (natoms o) (energy o)
    (magnetization o) (absmagnetization o) (efermi o) (jobdone o).
Definition set_nextcoords (v : bool) (o : locals) : locals :=
  mk (nextcellpar o) v (nextforces o) (i o) (j o) (a0 o) (t o) (x o) (y o) (z
    o) (fx o) (fy o) (fz o) (v1 o) (v2 o) (v3 o) (natoms o) (energy o)
    (magnetization o) (absmagnetization o) (efermi o) (jobdone o).
Definition set_nextforces (v : bool) (o : locals) : locals :=
  mk (nextcellpar o) (nextcoords o) v (i o) (j o) (a0 o) (t o) (x o) (y o) (z
    o) (fx o) (fy o) (fz o) (v1 o) (v2 o) (v3 o) (natoms o) (energy o)
    (magnetization o) (absmagnetization o) (efermi o) (jobdone o).
Definition set_i (v : Z) (o : locals) : locals :=
  mk (nextcellpar o) (nextcoords o) (nextforces o) v (j o) (a0 o) (t o) (x o)
    (y o) (z o) (fx o) (fy o) (fz o) (v1 o) (v2 o) (v3 o) (natoms o) (energy
    o) (magnetization o) (absmagnetization o) (efermi o) (jobdone o).
Definition set_j (v : Z) (o : locals) : locals :=
  mk (nextcellpar o) (nextcoords o) (nextforces o) (i o) v (a0 o) (t o) (x o)
    (y o) (z o) (fx o) (fy o) (fz o) (v1 o) (v2 o) (v3 o) (natoms o) (energy
    o) (magnetization o) (absmagnetization o) (efermi o) (jobdone o).
Definition set_a0 (v : option float) (o : locals) : locals :=
  mk (nextcellpar o) (nextcoords o) (nextforces o) (i o) (j o) v (t o) (x o)
    (y o) (z o) (fx o) (fy o) (fz o) (v1 o) (v2 o) (v3 o) (natoms o) (energy
    o) (magnetization o) (absmagnetization o) (efermi o) (jobdone o).
Definition set_t (v : list string) (o : locals) : locals :=
  mk (nextcellpar o) (nextcoords o) (nextforces o) (i o) (j o) (a0 o) v (x o)
    (y o) (z o) (fx o) (fy o) (fz o) (v1 o) (v2 o) (v3 o) (natoms o) (energy
    o) (magnetization o) (absmagnetization o) (efermi o) (jobdone o).
Definition set_x (v : list float) (o : locals) : locals :=
  mk (nextcellpar o) (nextcoords o) (nextforces o) (i o) (j o) (a0 o) (t o) v
    (y o) (z o) (fx o) (fy o) (fz o) (v1 o) (v2 o) (v3 o) (natoms o) (energy
    o) (magnetization o) (absmagnetization o) (efermi o) (jobdone o).
Definition set_y (v : list float) (o : locals) : locals :=
  mk (nextcellpar o) (nextcoords o) (nextforces o) (i o) (j o) (a0 o) (t o) (x
    o) v (z o) (fx o) (fy o) (fz o) (v1 o) (v2 o) (v3 o) (natoms o) (energy o)
    (magnetization o) (absmagnetization o) (efermi o) (jobdone o).
Definition set_z (v : list float) (o : locals) : locals :=
  mk (nextcellpar o) (nextcoords o) (nextforces o) (i o) (j o) (a0 o) (t o) (x
    o) (y o) v (fx o) (fy o) (fz o) (v1 o) (v2 o) (v3 o) (natoms o) (energy o)
    (magnetization o) (absmagnetization o) (efermi o) (jobdone o).
Definition set_fx (v : list float) (o : locals) : locals :=
  mk (nextcellpar o) (nextcoords o) (nextforces o) (i o) (j o) (a0 o) (t o) (x
    o) (y o) (z o) v (fy o) (fz o) (v1 o) (v2 o) (v3 o) (natoms o) (energy o)
    (magnetization o) (absmagnetization o) (efermi o) (jobdone o).
Definition set_fy (v : list float) (o : locals) : locals :=
  mk (nextcellpar o) (nextcoords o) (nextforces o) (i o) (j o) (a0 o) (t o) (x
    o) (y o) (z o) (fx o) v (fz o) (v1 o) (v2 o) (v3 o) (natoms o) (energy o)
    (magnetization o) (absmagnetization o) (efermi o) (jobdone o).
Definition set_fz (v : list float) (o : locals) : locals :=
  mk (nextcellpar o) (nextcoords o) (nextforces o) (i o) (j o) (a0 o) (t o) (x
    o) (y o) (z o) (fx o) (fy o) v (v1 o) (v2 o) (v3 o) (natoms o) (energy o)
    (magnetization o) (absmagnetization o) (efermi o) (jobdone o).
Definition set_v1 (v : list float) (o : locals) : locals :=
  mk (nextcellpar o) (nextcoords o) (nextforces o) (i o) (j o) (a0 o) (t o) (x
    o) (y o) (z o) (fx o) (fy o) (fz o) v (v2 o) (v3 o) (natoms o) (energy o)
    (magnetization o) (absmagnetization o) (efermi o) (jobdone o).
Definition set_v2 (v : list float) (o : locals) : locals :=
  mk (nextcellpar o) (nextcoords o) (nextforces o) (i o) (j o) (a0 o) (t o) (x
    o) (y o) (z o) (fx o) (fy o) (fz o) (v1 o) v (v3 o) (natoms o) (energy o)
    (magnetization o) (absmagnetization o) (efermi o) (jobdone o).
Definition set_v3 (v : list float) (o : locals) : locals :=
  mk (nextcellpar o) (nextcoords o) (nextforces o) (i o) (j o) (a0 o) (t o) (x
    o) (y o) (z o) (fx o) (fy o) (fz o) (v1 o) (v2 o) v (natoms o) (energy o)
    (magnetization o) (absmagnetization o) (efermi o) (jobdone o).
Definition set_natoms (v : option Z) (o : locals) : locals :=
  mk (nextcellpar o) (nextcoords o) (nextforces o) (i o) (j o) (a0 o) (t o) (x
    o) (y o) (z o) (fx o) (fy o) (fz o) (v1 o) (v2 o) (v3 o) v (energy o)
    (magnetization o) (absmagnetization o) (efermi o) (jobdone o).
Definition set_energy (v : list float) (o : locals) : locals :=
  mk (nextcellpar o) (nextcoords o) (nextforces o) (i o) (j o) (a0 o) (t o) (x
    o) (y o) (z o) (fx o) (fy o) (fz o) (v1 o) (v2 o) (v3 o) (natoms o) v
    (magnetization o) (absmagnetization o) (efermi o) (jobdone o).
Definition set_magnetization (v : list float) (o : locals) : locals :=
  mk (nextcellpar o) (nextcoords o) (nextforces o) (i o) (j o) (a0 o) (t o) (x
    o) (y o) (z o) (fx o) (fy o) (fz o) (v1 o) (v2 o) (v3 o) (natoms o)
    (energy o) v (absmagnetization o) (efermi o) (jobdone o).
Definition set_absmagnetization (v : list float) (o : locals) : locals :=
  mk (nextcellpar o) (nextcoords o) (nextforces o) (i o) (j o) (a0 o) (t o) (x
    o) (y o) (z o) (fx o) (fy o) (fz o) (v1 o) (v2 o) (v3 o) (natoms o)
    (energy o) (magnetization o) v (efermi o) (jobdone o).
Definition set_efermi (v : option float) (o : locals) : locals :=
  mk (nextcellpar o) (nextcoords o) (nextforces o) (i o) (j o) (a0 o) (t o) (x
    o) (y o) (z o) (fx o) (fy o) (fz o) (v1 o) (v2 o) (v3 o) (natoms o)
    (energy o) (magnetization o) (absmagnetization o) v (jobdone o).
Definition set_jobdone (v : bool) (o : locals) : locals :=
  mk (nextcellpar o) (nextcoords o) (nextforces o) (i o) (j o) (a0 o) (t o) (x
    o) (y o) (z o) (fx o) (fy o) (fz o) (v1 o) (v2 o) (v3 o) (natoms o)
    (energy o) (magnetization o) (absmagnetization o) (efermi o) v.

Definition init : locals :=
  mk false false false 0%Z 0%Z None [] [] [] [] [] [] [] [] [] [] None
     [] [] [] None false.

End Scan.

(** [l[i]] where the length of [l] was tested first. *)
Definition tok (l : list string) (i : nat) : string := nth i l "".

(** [x*a0], where [a0] may still be [None]. *)
Definition times_a0 (x : float) (a0 : option float) : result float :=
  match a0 with
  | Some a => Ok (x * a)%float
  | None => Raise TypeError
  end.

(** [j==natoms], where [natoms] may still be [None]. *)
Definition eq_natoms (j : Z) (natoms : option Z) : bool :=
  match natoms with
  | Some n => (j =? n)%Z
  | None => false
  end.

Section Output.
Context {FT : FloatText}.

(** [float(l[3])*a0], [float(l[4])*a0] and [float(l[5])*a0], appended. *)
Definition scan_axis (l : list string) (a0 : option float) (v : list float)
    : result (list float) :=
  l3 <- item l 3 ;;
  a <- to_float l3 ;;
  a <- times_a0 a a0 ;;
  l4 <- item l 4 ;;
  b <- to_float l4 ;;
  b <- times_a0 b a0 ;;
  l5 <- item l 5 ;;
  c <- to_float l5 ;;
  c <- times_a0 c a0 ;;
  Ok (v ++ [a; b; c])%list.

(** [float(s)*ry2ev/bohr2angs] *)
Definition scan_force (s : string) : result float :=
  f <- to_float s ;;
  Ok (f * ry2ev / bohr2angs)%float.

(** The body of [for line in lines] in [__get_output_info__]. *)
Definition scan_line (st : Scan.locals) (line : string) : result Scan.locals :=
  let l := split (rstrip line) in
  let n := length l in
  if (5 <=? n)%nat && (tok l 0 =? "!") then
    e <- to_float (tok l 4) ;;
    Ok (Scan.set_energy (Scan.energy st ++ [(e * ry2ev)%float])%list st)
  else if (5 <=? n)%nat && (lower (tok l 0) =? "the")
          && (lower (tok l 1) =? "fermi") && (lower (tok l 2) =? "energy") then
    e <- to_float (tok l 4) ;;
    Ok (Scan.set_efermi (Some e) st)
  else if (4 <=? n)%nat && (tok l 1 =? "magnetization") then
    if tok l 0 =? "total" then
      match float_of_string (tok l 3) with
      | Some m =>
          Ok (Scan.set_magnetization (Scan.magnetization st ++ [m])%list st)
      | None => Ok st
      end
    else if tok l 0 =? "absolute" then
      match float_of_string (tok l 3) with
      | Some m =>
          Ok (Scan.set_absmagnetization
                (Scan.absmagnetization st ++ [m])%list st)
      | None => Ok st
      end
    else Ok st
  else if (5 <=? n)%nat && (lower (tok l 0) =? "lattice")
          && (lower (tok l 1) =? "parameter") then
    a <- to_float (tok l 4) ;;
    Ok (Scan.set_a0 (Some (a * bohr2angs)%float) st)
  else if (5 <=? n)%nat && (lower (tok l 0) =? "number")
          && (lower (tok l 1) =? "of") then
    if lower (tok l 2) =? "atoms/cell" then
      k <- int (tok l 4) ;;
      Ok (Scan.set_natoms (Some k) st)
    else Ok st
  else if (2 <=? n)%nat && (lower (tok l 0) =? "crystal")
          && (lower (tok l 1) =? "axes:") then
    Ok (Scan.set_v3 [] (Scan.set_v2 [] (Scan.set_v1 []
          (Scan.set_nextcellpar true st))))
  else if Scan.nextcellpar st then
    st' <-
      (if (Scan.i st =? 0)%Z then
         v <- scan_axis l (Scan.a0 st) (Scan.v1 st) ;;
         Ok (Scan.set_v1 v st)
       else if (Scan.i st =? 1)%Z then
         v <- scan_axis l (Scan.a0 st) (Scan.v2 st) ;;
         Ok (Scan.set_v2 v st)
       else if (Scan.i st =? 2)%Z then
         v <- scan_axis l (Scan.a0 st) (Scan.v3 st) ;;
         Ok (Scan.set_nextcellpar false (Scan.set_v3 v st))
       else Ok st) ;;
    Ok (Scan.set_i (Scan.i st' + 1)%Z st')
  else if (7 <=? n)%nat && (lower (tok l 0) =? "forces")
          && (lower (tok l 1) =? "acting") && (lower (tok l 2) =? "on")
          && (lower (tok l 3) =? "atoms") then
    Ok (Scan.set_j 0%Z (Scan.set_fz [] (Scan.set_fy [] (Scan.set_fx []
          (Scan.set_nextforces true st)))))
  else if Scan.nextforces st then
    if (0 <? n)%nat then
      l6 <- item l 6 ;;
      f1 <- scan_force l6 ;;
      l7 <- item l 7 ;;
      f2 <- scan_force l7 ;;
      l8 <- item l 8 ;;
      f3 <- scan_force l8 ;;
      let st :=
        Scan.set_fz (Scan.fz st ++ [f3])%list
          (Scan.set_fy (Scan.fy st ++ [f2])%list
             (Scan.set_fx (Scan.fx st ++ [f1])%list st)) in
      let st := Scan.set_j (Scan.j st + 1)%Z st in
      if eq_natoms (Scan.j st) (Scan.natoms st) then
        Ok (Scan.set_nextforces false (Scan.set_j 0%Z st))
      else Ok st
    else Ok st
  else if (1 <=? n)%nat && (lower (tok l 0) =? "atomic_positions") then
    Ok (Scan.set_j 0%Z (Scan.set_z [] (Scan.set_y [] (Scan.set_x []
          (Scan.set_t [] (Scan.set_nextcoords true st))))))
  else if Scan.nextcoords st then
    l0 <- item l 0 ;;
    l1 <- item l 1 ;;
    xi <- to_float l1 ;;
    l2 <- item l 2 ;;
    yi <- to_float l2 ;;
    l3 <- item l 3 ;;
    zi <- to_float l3 ;;
    let st :=
      Scan.set_z (Scan.z st ++ [zi])%list
        (Scan.set_y (Scan.y st ++ [yi])%list
           (Scan.set_x (Scan.x st ++ [xi])%list
              (Scan.set_t (Scan.t st ++ [l0])%list st))) in
    let st := Scan.set_j (Scan.j st + 1)%Z st in
    if eq_natoms (Scan.j st) (Scan.natoms st) then
      Ok (Scan.set_nextcoords false (Scan.set_j 0%Z st))
    else Ok st
  else if (5 <=? n)%nat && (lower (tok l 3) =? "terminated") then
    Ok (Scan.set_jobdone true st)
  else Ok st.

Fixpoint scan_lines (lines : list string) (st : Scan.locals)
    : result Scan.locals :=
  match lines with
  | [] => Ok st
  | line :: rest => st' <- scan_line st line ;; scan_lines rest st'
  end.

(** The [out] object filled from the local variables after the loop. *)
Definition collect (st : Scan.locals) : Out.out :=
  Out.mk (Scan.t st) (Scan.x st) (Scan.y st) (Scan.z st)
    (Scan.fx st) (Scan.fy st) (Scan.fz st)
    (Scan.v1 st) (Scan.v2 st) (Scan.v3 st)
    (Scan.energy st) (Scan.efermi st)
    (Scan.magnetization st) (Scan.absmagnetization st) (Scan.jobdone st).

(** ** [calc.__write_coords__] *)

Definition DQ : string := String "034"%char "".

Definition emit_coord (o : Out.out) (i : nat) (g : string) : result string :=
  t <- item (Out.atom_type o) i ;;
  xi <- item (Out.x o) i ;;
  yi <- item (Out.y o) i ;;
  zi <- item (Out.z o) i ;;
  Ok (g ++ t ++ " " ++ fmt6 xi ++ " " ++ fmt6 yi ++ " " ++ fmt6 zi ++ NL).

Definition lattice_line (a1 a2 a3 b1 b2 b3 c1 c2 c3 : float) : string :=
  "Lattice=" ++ DQ ++ fmt6 a1 ++ " " ++ fmt6 a2 ++ " " ++ fmt6 a3 ++ " "
    ++ fmt6 b1 ++ " " ++ fmt6 b2 ++ " " ++ fmt6 b3 ++ " "
    ++ fmt6 c1 ++ " " ++ fmt6 c2 ++ " " ++ fmt6 c3 ++ DQ
    ++ " Properties=species:S:1:pos:R:3" ++ NL.

(** [__write_coords__(coordfile,pw_out_obj)]: the object after the call, and
    the text written to [coordfile] when the call returns, or the exception
    raised. *)
Definition write_coords (pw_out_obj : Out.out) : Out.out * result string :=
  (pw_out_obj,
   let g := str_int (Z.of_nat (length (Out.atom_type pw_out_obj))) ++ NL in
   a1 <- item (Out.v1 pw_out_obj) 0 ;;
   a2 <- item (Out.v1 pw_out_obj) 1 ;;
   a3 <- item (Out.v1 pw_out_obj) 2 ;;
   b1 <- item (Out.v2 pw_out_obj) 0 ;;
   b2 <- item (Out.v2 pw_out_obj) 1 ;;
   b3 <- item (Out.v2 pw_out_obj) 2 ;;
   c1 <- item (Out.v3 pw_out_obj) 0 ;;
   c2 <- item (Out.v3 pw_out_obj) 1 ;;
   c3 <- item (Out.v3 pw_out_obj) 2 ;;
   let g := g ++ lattice_line a1 a2 a3 b1 b2 b3 c1 c2 c3 in
   for_range (length (Out.atom_type pw_out_obj)) (emit_coord pw_out_obj) g).

(** [__get_output_info__(output,...)] with [saveout=False]: the [out] object
    returned, or the exception raised. *)
Definition get_output_info (output : string) (savecoords : bool)
    : result Out.out :=
  st <- scan_lines (readlines output) Scan.init ;;
  let pw_out_obj := collect st in
  if savecoords then
    _ <- snd (write_coords pw_out_obj) ;;
    Ok pw_out_obj
  else Ok pw_out_obj.

End Output.

(** ** A table of float conversions for the closed examples

    The examples below run the code on concrete texts, so they need concrete
    conversions. [DecFloat] gives the part of Python's [float], [str] and
    ["%.6f"] they use: decimal literals [digits] or [digits.digits] with an
    optional sign (below 2^53 once the point is dropped, where one rounded
    division gives the nearest float), and the printing of floats whose value
    is an integer. Outside this part [parse] answers [None] and the printers
    the empty string; no example leaves it. *)
Module DecFloat.

Fixpoint float_of_pos (p : positive) : float :=
  match p with
  | xH => 1%float
  | xO p' => (2 * float_of_pos p')%float
  | xI p' => (2 * float_of_pos p' + 1)%float
  end.

(** Exact for [0 <= n < 2^53]. *)
Definition float_of_Z (n : Z) : float :=
  match n with
  | Zpos p => float_of_pos p
  | _ => 0%float
  end.

(** The text before and after the first point, if there is one. *)
Fixpoint split_point (s : string) : string * option string :=
  match s with
  | EmptyString => (EmptyString, None)
  | String c s' =>
      if (c =? ".")%char then (EmptyString, Some s')
      else let '(a, b) := split_point s' in (String c a, b)
  end.

Definition digits (s : string) : bool :=
  string_forall is_digit s && negb (s =? "").

Definition parse_unsigned (s : string) : option float :=
  let '(ip, fp) := split_point s in
  let fp' := match fp with Some f => f | None => EmptyString end in
  if digits ip && match fp with Some f => digits f | None => true end then
    match NilEmpty.uint_of_string (ip ++ fp') with
    | Some u =>
        let m := Z.of_uint u in
        let k := String.length fp' in
        if (m <? 2 ^ 53)%Z && (k <=? 22)%nat then
          Some (float_of_Z m / float_of_Z (10 ^ Z.of_nat k))%float
        else None
    | None => None
    end
  else None.

Definition parse (s : string) : option float :=
  match s with
  | String c r =>
      if (c =? "-")%char then option_map PrimFloat.opp (parse_unsigned r)
      else if (c =? "+")%char then parse_unsigned r
      else parse_unsigned s
  | EmptyString => None
  end.

(** The sign and the magnitude of a float whose value is an integer. *)
Definition int_value (x : float) : option (bool * Z) :=
  match Prim2SF x with
  | S754_zero s => Some (s, 0%Z)
  | S754_finite s m e =>
      if (0 <=? e)%Z then Some (s, (Zpos m * 2 ^ e)%Z)
      else if (Zpos m mod 2 ^ (- e) =? 0)%Z then
        Some (s, (Zpos m / 2 ^ (- e))%Z)
      else None
  | _ => None
  end.

Definition print (frac : string) (bound : option Z) (x : float) : string :=
  match int_value x with
  | Some (s, n) =>
      if match bound with Some b => (n <? b)%Z | None => true end then
        (if s then "-" else "") ++ str_int n ++ frac
      else EmptyString
  | None => EmptyString
  end.

(** [str] switches to the exponent form from 10^16 on. *)
Definition str : float -> string := print ".0" (Some (10 ^ 16)%Z).
Definition fmt : float -> string := print ".000000" None.

Definition table : FloatText :=
  {| float_of_string := parse; str_float := str; fmt6 := fmt |}.

End DecFloat.

Definition text_of_lines (ls : list string) : string :=
  String.concat "" (map (fun l => l ++ NL) ls).

(** ** Statements about the serializer *)

(** What [build_input] needs to reach its [return]: the two keys it reads,
    and every list long enough for the loop that indexes it. *)
Definition serializable (self : Calc.calc) : Prop :=
  dict_get (Calc.control self) "calculation" <> None /\
  (length (Calc.atomic_species self) <= length (Calc.atomic_mass self))%nat /\
  (length (Calc.atomic_species self)
     <= length (Calc.pseudopotential self))%nat /\
  (exists s n, dict_get (Calc.system self) "ibrav" = Some s /\
     py_int s = Some n /\
     (n = 0%Z -> (3 <= length (Calc.v1 self))%nat /\
                 (3 <= length (Calc.v2 self))%nat /\
                 (3 <= length (Calc.v3 self))%nat)) /\
  (length (Calc.atom_type self) <= length (Calc.x self))%nat /\
  (length (Calc.atom_type self) <= length (Calc.y self))%nat /\
  (length (Calc.atom_type self) <= length (Calc.z self))%nat /\
  (Calc.if_pos1 self = [] \/
   (length (Calc.atom_type self) <= length (Calc.if_pos1 self))%nat /\
   (length (Calc.atom_type self) <= length (Calc.if_pos2 self))%nat /\
   (length (Calc.atom_type self) <= length (Calc.if_pos3 self))%nat) /\
  (Calc.k_points_type self = "gamma" \/
   Calc.k_points_type self = "automatic" \/
   (length (Calc.wk self) <= length (Calc.kx self))%nat /\
   (length (Calc.wk self) <= length (Calc.ky self))%nat /\
   (length (Calc.wk self) <= length (Calc.kz self))%nat).

(** A deck for one hydrogen atom in a cubic cell, sampled at gamma. *)
Definition deck_gamma : Calc.calc :=
  Calc.set_k_points_type "gamma"
    (Calc.set_atomic_positions_units "angstrom"
       (Calc.set_z [0%float] (Calc.set_y [0%float] (Calc.set_x [1%float]
          (Calc.set_atom_type ["H"]
             (Calc.set_pseudopotential ["H.pz-vbc.UPF"]
                (Calc.set_atomic_mass ["1.008"]
                   (Calc.set_atomic_species ["H"]
                      (Calc.set_system
                         [("ibrav", "1"); ("nat", "1"); ("ntyp", "1")]
                         (Calc.set_control [("calculation", "'scf'")]
                            Calc.init)))))))))).



(** ** Statements about the coordinate writer *)

Section CoordRows.
Context {FT : FloatText}.

Definition coord_row (r : string * (float * (float * float))) : string :=
  let '(t, (xi, (yi, zi))) := r in
  t ++ " " ++ fmt6 xi ++ " " ++ fmt6 yi ++ " " ++ fmt6 zi ++ NL.

(** One row per atom: the species label and the three coordinates. *)
Definition coord_rows (o : Out.out) : list string :=
  map coord_row
    (combine (Out.atom_type o)
       (combine (Out.x o) (combine (Out.y o) (Out.z o)))).

End CoordRows.

(** A unit cubic cell and no atom. *)
Definition out_no_atoms : Out.out :=
  Out.set_v3 [0%float; 0%float; 1%float]
    (Out.set_v2 [0%float; 1%float; 0%float]
       (Out.set_v1 [1%float; 0%float; 0%float] Out.init)).

(** A unit cubic cell and one hydrogen atom. *)
Definition out_one_atom : Out.out :=
  Out.set_z [0%float] (Out.set_y [0%float] (Out.set_x [2%float]
    (Out.set_atom_type ["H"] out_no_atoms))).

(** ** Statements about the deck parser *)

(** The first tokens that [read_input] compares with, in lower case:
    the five namelist headers and the four card headers. *)
Definition is_keyword (s : string) : bool :=
  let t := lower s in
  (t =? "&control") || (t =? "&system") || (t =? "&electrons")
  || (t =? "&ions") || (t =? "&cell") || (t =? "cell_parameters")
  || (t =? "atomic_species") || (t =? "atomic_positions") || (t =? "k_points").

(** The lines that [read_input] iterates over. *)
Definition file_lines (text : string) : list string :=
  readlines (universal_newlines text).



(** A deck whose ATOMIC_POSITIONS card comes before the SYSTEM namelist. *)
Definition deck_positions_first_text : string :=
  text_of_lines
    ["ATOMIC_POSITIONS angstrom"; "H 0.0 0.0 0.0"; "&system"; "nat = 1,"; "/"].

(** A namelist line without its value. *)
Definition deck_short_line_text : string :=
  text_of_lines ["&control"; "calculation ="; "/"].








(** ** Statements about the log scanner *)

Section AxisRows.
Context {FT : FloatText}.

(** A line of a crystal-axes block as pw.x prints it,
    [a(1) = ( c1 c2 c3 )]: the three numbers are the tokens 3 to 5. *)
Definition axis_row (line : string) (c1 c2 c3 : float) : Prop :=
  exists n0 t2 s1 s2 s3 rest,
    split (rstrip line) = n0 :: "=" :: t2 :: s1 :: s2 :: s3 :: rest /\
    n0 <> "!" /\
    float_of_string s1 = Some c1 /\ float_of_string s2 = Some c2 /\
    float_of_string s3 = Some c3.

End AxisRows.

(** A log with one crystal-axes block. *)
Definition log_one_block : string :=
  text_of_lines
    ["     lattice parameter (alat)  =       2.0000  a.u.";
     "     number of atoms/cell      =            1";
     "     crystal axes: (cart. coord. in units of alat)";
     "               a(1) = (   1.000000   0.000000   0.000000 )  ";
     "               a(2) = (   0.000000   1.000000   0.000000 )  ";
     "               a(3) = (   0.000000   0.000000   1.000000 )  ";
     "!    total energy              =      -1.00000000 Ry"].

(** A log of a variable-cell run: the crystal axes are printed twice. *)
Definition log_two_blocks : string :=
  text_of_lines
    ["     lattice parameter (alat)  =       2.0000  a.u.";
     "     number of atoms/cell      =            1";
     "     crystal axes: (cart. coord. in units of alat)";
     "               a(1) = (   1.000000   0.000000   0.000000 )  ";
     "               a(2) = (   0.000000   1.000000   0.000000 )  ";
     "               a(3) = (   0.000000   0.000000   1.000000 )  ";
     "!    total energy              =      -1.00000000 Ry";
     "     crystal axes: (cart. coord. in units of alat)";
     "               a(1) = (   3.000000   0.000000   0.000000 )  ";
     "               a(2) = (   0.000000   3.000000   0.000000 )  ";
     "               a(3) = (   0.000000   0.000000   3.000000 )  ";
     "!    total energy              =      -2.00000000 Ry";
     "ATOMIC_POSITIONS (angstrom)";
     "H        0.000000   0.000000   0.000000";
     "     JOB DONE, and terminated."].

(** ** Reading the same deck twice

    [sim f a b] relates the state [a] of a first [read_input] on a new
    object and the state [b] of a second one on the object [f] that the
    first call left, after the same number of lines: the local variables
    agree, every list of [b] is that of [f] followed by that of [a], and
    every dictionary of [b] has the keys of [f] and the values that [a]
    has assigned so far. *)

Definition dict_step (d d' : dict) : Prop :=
  d' = d \/ exists k v, d' = dict_set d k v.

Definition dict_sim (df da db : dict) : Prop :=
  dict_keys db = dict_keys df /\
  forall k v, dict_get da k = Some v -> dict_get db k = Some v.

Definition sim (f : Calc.calc) (a b : Rd.locals) : Prop :=
  Rd.iscontrol b = Rd.iscontrol a /\
  Rd.issystem b = Rd.issystem a /\
  Rd.iselectrons b = Rd.iselectrons a /\
  Rd.isions b = Rd.isions a /\
  Rd.iscell b = Rd.iscell a /\
  Rd.iscellparameters b = Rd.iscellparameters a /\
  Rd.isatomicspecies b = Rd.isatomicspecies a /\
  Rd.isatomicpositions b = Rd.isatomicpositions a /\
  Rd.iskpoints b = Rd.iskpoints a /\
  Rd.j b = Rd.j a /\
  Rd.nk b = Rd.nk a /\
  dict_sim (Calc.control f) (Calc.control (Rd.self a))
    (Calc.control (Rd.self b)) /\
  dict_sim (Calc.system f) (Calc.system (Rd.self a))
    (Calc.system (Rd.self b)) /\
  dict_sim (Calc.electrons f) (Calc.electrons (Rd.self a))
    (Calc.electrons (Rd.self b)) /\
  dict_sim (Calc.ions f) (Calc.ions (Rd.self a)) (Calc.ions (Rd.self b)) /\
  dict_sim (Calc.cell f) (Calc.cell (Rd.self a)) (Calc.cell (Rd.self b)) /\
  Calc.atomic_species (Rd.self b)
    = (Calc.atomic_species f ++ Calc.atomic_species (Rd.self a))%list /\
  Calc.atomic_mass (Rd.self b)
    = (Calc.atomic_mass f ++ Calc.atomic_mass (Rd.self a))%list /\
  Calc.pseudopotential (Rd.self b)
    = (Calc.pseudopotential f ++ Calc.pseudopotential (Rd.self a))%list /\
  Calc.atom_type (Rd.self b)
    = (Calc.atom_type f ++ Calc.atom_type (Rd.self a))%list /\
  Calc.x (Rd.self b) = (Calc.x f ++ Calc.x (Rd.self a))%list /\
  Calc.y (Rd.self b) = (Calc.y f ++ Calc.y (Rd.self a))%list /\
  Calc.z (Rd.self b) = (Calc.z f ++ Calc.z (Rd.self a))%list /\
  Calc.kx (Rd.self b) = (Calc.kx f ++ Calc.kx (Rd.self a))%list /\
  Calc.ky (Rd.self b) = (Calc.ky f ++ Calc.ky (Rd.self a))%list /\
  Calc.kz (Rd.self b) = (Calc.kz f ++ Calc.kz (Rd.self a))%list /\
  Calc.wk (Rd.self b) = (Calc.wk f ++ Calc.wk (Rd.self a))%list /\
  Calc.if_pos1 (Rd.self b)
    = (Calc.if_pos1 f ++ Calc.if_pos1 (Rd.self a))%list /\
  Calc.if_pos2 (Rd.self b)
    = (Calc.if_pos2 f ++ Calc.if_pos2 (Rd.self a))%list /\
  Calc.if_pos3 (Rd.self b)
    = (Calc.if_pos3 f ++ Calc.if_pos3 (Rd.self a))%list /\
  Calc.v1 (Rd.self b) = (Calc.v1 f ++ Calc.v1 (Rd.self a))%list /\
  Calc.v2 (Rd.self b) = (Calc.v2 f ++ Calc.v2 (Rd.self a))%list /\
  Calc.v3 (Rd.self b) = (Calc.v3 f ++ Calc.v3 (Rd.self a))%list /\
  (Rd.iskpoints a = true ->
   Calc.k_points_type (Rd.self b) = Calc.k_points_type (Rd.self a)).

(** The dictionaries of an object have no repeated key. *)
Definition dicts_nodup (c : Calc.calc) : Prop :=
  NoDup (dict_keys (Calc.control c)) /\ NoDup (dict_keys (Calc.system c)) /\
  NoDup (dict_keys (Calc.electrons c)) /\ NoDup (dict_keys (Calc.ions c)) /\
  NoDup (dict_keys (Calc.cell c)).

(** Every dictionary of [c'] is that of [c] after some assignments. *)
Definition dicts_step (c c' : Calc.calc) : Prop :=
  dict_step (Calc.control c) (Calc.control c') /\
  dict_step (Calc.system c) (Calc.system c') /\
  dict_step (Calc.electrons c) (Calc.electrons c') /\
  dict_step (Calc.ions c) (Calc.ions c') /\
  dict_step (Calc.cell c) (Calc.cell c').

(** The keys of [c] are keys of [c'], dictionary by dictionary. *)
Definition dicts_incl (c c' : Calc.calc) : Prop :=
  incl (dict_keys (Calc.control c)) (dict_keys (Calc.control c')) /\
  incl (dict_keys (Calc.system c)) (dict_keys (Calc.system c')) /\
  incl (dict_keys (Calc.electrons c)) (dict_keys (Calc.electrons c')) /\
  incl (dict_keys (Calc.ions c)) (dict_keys (Calc.ions c')) /\
  incl (dict_keys (Calc.cell c)) (dict_keys (Calc.cell c')).

(** A deck with every card, sampled on an automatic grid. *)
Definition deck_full_text : string :=
  text_of_lines
    ["&CONTROL"; "calculation = 'vc-relax',"; "/";
     "&SYSTEM"; "ibrav = 0,"; "nat = 2,"; "ntyp = 1,"; "ecutwfc = 30.0,"; "/";
     "&ELECTRONS"; "conv_thr = 1.0d-8,"; "/";
     "&IONS"; "/";
     "&CELL"; "press = 0.0,"; "/";
     "ATOMIC_SPECIES"; "H   1.008   H.pz-vbc.UPF";
     "CELL_PARAMETERS angstrom";
     "10.0   0.0   0.0"; "0.0   10.0   0.0"; "0.0   0.0   10.0";
     "ATOMIC_POSITIONS angstrom";
     "H   0.0   0.0   0.0   0   0   0";
     "H   0.0   0.0   1.0   0   0   1";
     "K_POINTS automatic"; "1   1   1   0   0   0"].

(** ** The decks that survive a round trip *)

Definition no_space (s : string) : bool :=
  string_forall (fun c => negb (is_space c)) s.

Definition no_comma (s : string) : bool :=
  string_forall (fun c => negb (c =? ",")%char) s.

(** A token: what [split] returns as one element. *)
Definition is_token (s : string) : bool := no_space s && negb (s =? "").

(** A token that can start a data line: it is not read as a header. *)
Definition is_label (s : string) : bool := is_token s && negb (is_keyword s).

(** A namelist key: a label that does not close the namelist. *)
Definition is_key (s : string) : bool := is_label s && negb (s =? "/").

(** A namelist value as [read_input] keeps it: one token at most, and no
    comma, since commas are removed. *)
Definition is_value (s : string) : bool := no_space s && no_comma s.

Definition namelist_ok (d : dict) : Prop :=
  NoDup (dict_keys d) /\
  Forall (fun kv => is_key (fst kv) = true /\ is_value (snd kv) = true) d.

Definition is_vc (calculation : string) : bool :=
  (calculation =? "'vc-relax'") || (calculation =? "'vc-md'").

(** The state of [read_input] between two sections. *)
Definition idle (nk : option Z) (self : Calc.calc) : Rd.locals :=
  Rd.mk false false false false false false false false false 0%Z nk self.

Section RoundTrip.
Context {FT : FloatText}.

(** A float that [str] writes as a label and [float] reads back. *)
Definition float_ok (v : float) : Prop :=
  float_of_string (str_float v) = Some v /\ is_label (str_float v) = true.

(** The decks for which [read_input] undoes [build_input]: gamma or
    automatic sampling, counts that agree with the lists, at least one
    species and one atom, parallel lists of equal length, cell vectors and
    their unit exactly when [ibrav] is 0, a [cell] namelist only for a
    variable-cell calculation, and every text or number written as one token
    that is not a header. *)
Record deck_ok (m : Calc.calc) : Prop := {
  ok_control : namelist_ok (Calc.control m);
  ok_system : namelist_ok (Calc.system m);
  ok_electrons : namelist_ok (Calc.electrons m);
  ok_ions : namelist_ok (Calc.ions m);
  ok_cell : namelist_ok (Calc.cell m);
  ok_calculation :
    exists c, dict_get (Calc.control m) "calculation" = Some c /\
              (is_vc c = false -> Calc.cell m = []);
  ok_nat :
    dict_get (Calc.system m) "nat"
    = Some (str_int (Z.of_nat (length (Calc.atom_type m))));
  ok_ntyp :
    dict_get (Calc.system m) "ntyp"
    = Some (str_int (Z.of_nat (length (Calc.atomic_species m))));
  ok_ibrav :
    exists s n, dict_get (Calc.system m) "ibrav" = Some s /\
      py_int s = Some n /\
      (n = 0%Z ->
       length (Calc.v1 m) = 3%nat /\ length (Calc.v2 m) = 3%nat /\
       length (Calc.v3 m) = 3%nat) /\
      (n <> 0%Z ->
       Calc.v1 m = [] /\ Calc.v2 m = [] /\ Calc.v3 m = [] /\
       Calc.cell_parameters_units m = "");
  ok_vectors :
    Forall float_ok (Calc.v1 m) /\ Forall float_ok (Calc.v2 m) /\
    Forall float_ok (Calc.v3 m);
  ok_species :
    Calc.atomic_species m <> [] /\
    length (Calc.atomic_mass m) = length (Calc.atomic_species m) /\
    length (Calc.pseudopotential m) = length (Calc.atomic_species m) /\
    Forall (fun s => is_label s = true) (Calc.atomic_species m) /\
    Forall (fun s => is_token s = true) (Calc.atomic_mass m) /\
    Forall (fun s => is_token s = true) (Calc.pseudopotential m);
  ok_atoms :
    Calc.atom_type m <> [] /\
    length (Calc.x m) = length (Calc.atom_type m) /\
    length (Calc.y m) = length (Calc.atom_type m) /\
    length (Calc.z m) = length (Calc.atom_type m) /\
    Forall (fun s => is_label s = true) (Calc.atom_type m) /\
    Forall float_ok (Calc.x m) /\ Forall float_ok (Calc.y m) /\
    Forall float_ok (Calc.z m);
  ok_flags :
    (Calc.if_pos1 m = [] /\ Calc.if_pos2 m = [] /\ Calc.if_pos3 m = []) \/
    (length (Calc.if_pos1 m) = length (Calc.atom_type m) /\
     length (Calc.if_pos2 m) = length (Calc.atom_type m) /\
     length (Calc.if_pos3 m) = length (Calc.atom_type m));
  ok_units :
    no_space (Calc.atomic_positions_units m) = true /\
    no_space (Calc.cell_parameters_units m) = true;
  ok_k_lists :
    Calc.kx m = [] /\ Calc.ky m = [] /\ Calc.kz m = [] /\ Calc.wk m = [];
  ok_k_points :
    (Calc.k_points_type m = "gamma" /\
     Calc.nk1 m = None /\ Calc.nk2 m = None /\ Calc.nk3 m = None /\
     Calc.sk1 m = None /\ Calc.sk2 m = None /\ Calc.sk3 m = None) \/
    (Calc.k_points_type m = "automatic" /\
     Calc.nk1 m <> None /\ Calc.nk2 m <> None /\ Calc.nk3 m <> None /\
     Calc.sk1 m <> None /\ Calc.sk2 m <> None /\ Calc.sk3 m <> None)
}.

(** The lines of a deck, without their line feeds. *)

Definition entry_line (kv : string * string) : string :=
  fst kv ++ " = " ++ snd kv ++ ",".

Definition species_line (r : string * (string * string)) : string :=
  let '(a, (w, p)) := r in a ++ "   " ++ w ++ "   " ++ p.

Definition vector_line (a b c : float) : string :=
  str_float a ++ "   " ++ str_float b ++ "   " ++ str_float c.

Definition atom_line (r : string * (float * (float * float))) : string :=
  let '(t, (xi, (yi, zi))) := r in
  t ++ "   " ++ str_float xi ++ "   " ++ str_float yi ++ "   "
    ++ str_float zi.

Definition flags_line (r : Z * (Z * Z)) : string :=
  let '(p1, (p2, p3)) := r in
  "   " ++ str_int p1 ++ "   " ++ str_int p2 ++ "   " ++ str_int p3.

End RoundTrip.

(** Tokens, each followed by the white space that ends it. *)
Fixpoint spaced (ts : list (string * string)) : string :=
  match ts with
  | [] => ""
  | (t, w) :: rest => t ++ w ++ spaced rest
  end.

Definition all_space (s : string) : bool := string_forall is_space s.

(** A text without line feed or carriage return. *)
Definition plain (s : string) : bool :=
  string_forall (fun c => negb (c =? LF)%char && negb (c =? CR)%char) s.

(** The assignments [d0[k] = v] for the entries of [d], in order. *)
Definition dict_extend (d0 d : dict) : dict :=
  fold_left (fun acc kv => dict_set acc (fst kv) (snd kv)) d d0.

Definition with_nl (bodies : list string) : list string :=
  map (fun b => b ++ NL) bodies.

Section DeckLines.
Context {FT : FloatText}.

Definition namelist_lines (name : string) (d : dict) : list string :=
  (name :: map entry_line d ++ ["/"])%list.

Definition species_rows (m : Calc.calc) : list (string * (string * string)) :=
  combine (Calc.atomic_species m)
    (combine (Calc.atomic_mass m) (Calc.pseudopotential m)).

Definition atom_rows (m : Calc.calc)
    : list (string * (float * (float * float))) :=
  combine (Calc.atom_type m)
    (combine (Calc.x m) (combine (Calc.y m) (Calc.z m))).

Definition flag_rows (m : Calc.calc) : list (Z * (Z * Z)) :=
  combine (Calc.if_pos1 m) (combine (Calc.if_pos2 m) (Calc.if_pos3 m)).

Definition atom_lines (m : Calc.calc) : list string :=
  if (length (Calc.if_pos1 m) =? 0)%nat then map atom_line (atom_rows m)
  else map (fun r => (atom_line (fst r) ++ flags_line (snd r))%string)
         (combine (atom_rows m) (flag_rows m)).

Definition vector_lines (v : list float) : list string :=
  match v with
  | a :: b :: c :: _ => [vector_line a b c]
  | _ => []
  end.

Definition grid_line (m : Calc.calc) : string :=
  str_opt_int (Calc.nk1 m) ++ "   " ++ str_opt_int (Calc.nk2 m) ++ "   "
    ++ str_opt_int (Calc.nk3 m) ++ "   " ++ str_opt_int (Calc.sk1 m)
    ++ "   " ++ str_opt_int (Calc.sk2 m) ++ "   " ++ str_opt_int (Calc.sk3 m).

(** The lines that [build_input] writes for a deck with gamma or automatic
    sampling, given its [calculation] and its [ibrav]. *)
Definition deck_bodies (m : Calc.calc) (calculation : string) (ibrav : Z)
    : list string :=
  (namelist_lines "&CONTROL" (Calc.control m)
   ++ namelist_lines "&SYSTEM" (Calc.system m)
   ++ namelist_lines "&ELECTRONS" (Calc.electrons m)
   ++ namelist_lines "&IONS" (Calc.ions m)
   ++ (if is_vc calculation then namelist_lines "&CELL" (Calc.cell m)
       else [])
   ++ "ATOMIC_SPECIES" :: map species_line (species_rows m)
   ++ (if (ibrav =? 0)%Z then
         ("CELL_PARAMETERS " ++ Calc.cell_parameters_units m)%string
           :: vector_lines (Calc.v1 m) ++ vector_lines (Calc.v2 m)
           ++ vector_lines (Calc.v3 m)
       else [])
   ++ ("ATOMIC_POSITIONS " ++ Calc.atomic_positions_units m)%string
        :: atom_lines m
   ++ ("K_POINTS " ++ Calc.k_points_type m)%string
        :: (if Calc.k_points_type m =? "automatic" then [grid_line m]
            else []))%list.

End DeckLines.

(** ** The object after a card was read *)

Definition add_species (rows : list (string * (string * string)))
    (self : Calc.calc) : Calc.calc :=
  Calc.set_pseudopotential
    (Calc.pseudopotential self ++ map (fun r => snd (snd r)) rows)%list
    (Calc.set_atomic_mass
       (Calc.atomic_mass self ++ map (fun r => fst (snd r)) rows)%list
       (Calc.set_atomic_species
          (Calc.atomic_species self ++ map fst rows)%list self)).

Definition add_atoms (rows : list (string * (float * (float * float))))
    (self : Calc.calc) : Calc.calc :=
  Calc.set_z (Calc.z self ++ map (fun r => snd (snd (snd r))) rows)%list
    (Calc.set_y (Calc.y self ++ map (fun r => fst (snd (snd r))) rows)%list
       (Calc.set_x (Calc.x self ++ map (fun r => fst (snd r)) rows)%list
          (Calc.set_atom_type (Calc.atom_type self ++ map fst rows)%list
             self))).

Definition add_flags (rows : list (Z * (Z * Z))) (self : Calc.calc)
    : Calc.calc :=
  Calc.set_if_pos3 (Calc.if_pos3 self ++ map (fun r => snd (snd r)) rows)%list
    (Calc.set_if_pos2
       (Calc.if_pos2 self ++ map (fun r => fst (snd r)) rows)%list
       (Calc.set_if_pos1 (Calc.if_pos1 self ++ map fst rows)%list self)).

(** The states of [read_input] inside the two counted cards. *)
Definition in_species (j : Z) (nk : option Z) (self : Calc.calc)
    : Rd.locals :=
  Rd.set_j j (Rd.set_isatomicspecies true (idle nk self)).

Definition in_positions (j : Z) (nk : option Z) (self : Calc.calc)
    : Rd.locals :=
  Rd.set_j j (Rd.set_isatomicpositions true (idle nk self)).

Definition entry_ok (kv : string * string) : Prop :=
  is_key (fst kv) = true /\ is_value (snd kv) = true.

Definition species_ok (r : string * (string * string)) : Prop :=
  is_label (fst r) = true /\ is_token (fst (snd r)) = true /\
  is_token (snd (snd r)) = true.

Section RowsOk.
Context {FT : FloatText}.

Definition atom_ok (r : string * (float * (float * float))) : Prop :=
  is_label (fst r) = true /\ float_ok (fst (snd r)) /\
  float_ok (fst (snd (snd r))) /\ float_ok (snd (snd (snd r))).

End RowsOk.

(** The state of [read_input] inside a CELL_PARAMETERS card. *)
Definition in_cell (j : Z) (nk : option Z) (self : Calc.calc) : Rd.locals :=
  Rd.set_j j (Rd.set_iscellparameters true (idle nk self)).

(** [self.<unit> = l[1]], made when the header has a second token. *)
Definition set_unit (set : string -> Calc.calc -> Calc.calc) (u : string)
    (self : Calc.calc) : Calc.calc :=
  if u =? "" then self else set u self.

(** The object after a CELL_PARAMETERS card with unit [u] was read. *)
Definition add_cell (u : string) (a b c : list float) (self : Calc.calc)
    : Calc.calc :=
  let s0 := Calc.set_cell_parameters_units u self in
  let s1 := Calc.set_v1 (Calc.v1 s0 ++ a)%list s0 in
  let s2 := Calc.set_v2 (Calc.v2 s1 ++ b)%list s1 in
  Calc.set_v3 (Calc.v3 s2 ++ c)%list s2.

(** The object after the K_POINTS card of [m] was read. *)
Definition add_grid (m self : Calc.calc) : Calc.calc :=
  let s := Calc.set_k_points_type (Calc.k_points_type m) self in
  Calc.set_sk3 (Calc.sk3 m)
    (Calc.set_sk2 (Calc.sk2 m)
       (Calc.set_sk1 (Calc.sk1 m)
          (Calc.set_nk3 (Calc.nk3 m)
             (Calc.set_nk2 (Calc.nk2 m) (Calc.set_nk1 (Calc.nk1 m) s))))).

Section Reread.
Context {FT : FloatText}.

(** What [read_input] builds from the lines of [m], section after section,
    on the object that [calc()] constructs. *)
Definition reread_namelists (m : Calc.calc) : Calc.calc :=
  let s := Calc.init in
  let s := Calc.set_control (dict_extend (Calc.control s) (Calc.control m)) s in
  let s := Calc.set_system (dict_extend (Calc.system s) (Calc.system m)) s in
  let s :=
    Calc.set_electrons (dict_extend (Calc.electrons s) (Calc.electrons m)) s in
  let s := Calc.set_ions (dict_extend (Calc.ions s) (Calc.ions m)) s in
  Calc.set_cell (dict_extend (Calc.cell s) (Calc.cell m)) s.

Definition reread_cards (m : Calc.calc) (s : Calc.calc) : Calc.calc :=
  let s := add_species (species_rows m) s in
  let s :=
    add_cell (Calc.cell_parameters_units m) (Calc.v1 m) (Calc.v2 m)
      (Calc.v3 m) s in
  let s :=
    Calc.set_atomic_positions_units (Calc.atomic_positions_units m) s in
  let s := add_flags (flag_rows m) (add_atoms (atom_rows m) s) in
  add_grid m s.

Definition reread (m : Calc.calc) : Calc.calc :=
  reread_cards m (reread_namelists m).

End Reread.

(** ** Decks for the round trip *)

(** The object that holds [deck_full_text]: two hydrogen atoms with movement
    flags in a cubic cell given by its vectors, a variable-cell relaxation,
    an automatic grid. *)
Definition deck_full : Calc.calc :=
  Calc.mk
    [("calculation", "'vc-relax'")]
    [("ibrav", "0"); ("nat", "2"); ("ntyp", "1"); ("ecutwfc", "30.0")]
    [("conv_thr", "1.0d-8")]
    []
    [("press", "0.0")]
    ["H"] ["1.008"] ["H.pz-vbc.UPF"]
    ["H"; "H"] [0%float; 0%float] [0%float; 0%float] [0%float; 1%float]
    [] [] [] []
    [0%Z; 0%Z] [0%Z; 0%Z] [0%Z; 1%Z]
    [10%float; 0%float; 0%float] [0%float; 10%float; 0%float]
    [0%float; 0%float; 10%float]
    (Some 1%Z) (Some 1%Z) (Some 1%Z) (Some 0%Z) (Some 0%Z) (Some 0%Z)
    "angstrom" "angstrom" "automatic".

(** [deck_gamma] with an entry in its [cell] namelist, which [build_input]
    writes for a variable-cell calculation only. *)
Definition deck_scf_cell : Calc.calc :=
  Calc.set_cell [("press", "0.0")] deck_gamma.

(** [deck_gamma] sampled at one listed point. *)
Definition deck_tpiba : Calc.calc :=
  Calc.set_k_points_type "tpiba"
    (Calc.set_wk [1%float]
       (Calc.set_kz [0%float]
          (Calc.set_ky [0%float] (Calc.set_kx [0%float] deck_gamma)))).


(** * More of [pw.py]: the series and the blocks of a log, files, and the
      list of k-points *)

(** ** What a line of a log is read as *)

(** The tokens [__get_output_info__] reads a line as. *)
Definition log_tokens (line : string) : list string := split (rstrip line).

(** The first tokens that are tested before a line is read as a row of an
    open block. *)
Definition log_keyword (s : string) : bool :=
  let t := lower s in
  (t =? "!") || (t =? "the") || (t =? "lattice") || (t =? "number")
  || (t =? "crystal") || (t =? "forces") || (t =? "atomic_positions").

(** The line that ends the run: five tokens or more, the fourth one
    [terminated] in any letter case. *)
Definition is_end_line (line : string) : bool :=
  let l := log_tokens line in
  (5 <=? length l)%nat && (lower (tok l 3) =? "terminated").

(** The header of a crystal-axes block. *)
Definition is_axes_header (line : string) : bool :=
  let l := log_tokens line in
  (2 <=? length l)%nat && (lower (tok l 0) =? "crystal")
  && (lower (tok l 1) =? "axes:").

(** The line that gives the lattice parameter. *)
Definition is_lattice_line (line : string) : bool :=
  let l := log_tokens line in
  (5 <=? length l)%nat && (lower (tok l 0) =? "lattice")
  && (lower (tok l 1) =? "parameter").

(** [float(s)*ry2ev/bohr2angs] for a force component [f = float(s)]. *)
Definition force_of (f : float) : float := (f * ry2ev / bohr2angs)%float.

(** The local variables inside an ATOMIC_POSITIONS block of the log, [j]
    rows read. *)
Definition in_coords (j : Z) (ts : list string) (xs ys zs : list float)
    (st : Scan.locals) : Scan.locals :=
  Scan.set_j j
    (Scan.set_z zs
       (Scan.set_y ys
          (Scan.set_x xs (Scan.set_t ts (Scan.set_nextcoords true st))))).

(** The local variables inside a block of forces, [j] rows read. *)
Definition in_forces (j : Z) (fxs fys fzs : list float) (st : Scan.locals)
    : Scan.locals :=
  Scan.set_j j
    (Scan.set_fz fzs
       (Scan.set_fy fys (Scan.set_fx fxs (Scan.set_nextforces true st)))).

Section LogLines.
Context {FT : FloatText}.

(** What a line adds to [energy]: [float(l[4])*ry2ev] when the line has five
    tokens or more and the first one is [!]. *)
Definition energy_of (line : string) : list float :=
  let l := log_tokens line in
  if (5 <=? length l)%nat && (tok l 0 =? "!") then
    match float_of_string (tok l 4) with
    | Some e => [(e * ry2ev)%float]
    | None => []
    end
  else [].

(** The Fermi energy a line gives: [float(l[4])] of a line
    [the Fermi energy is ...]. *)
Definition fermi_of (line : string) : list float :=
  let l := log_tokens line in
  if (5 <=? length l)%nat && (lower (tok l 0) =? "the")
     && (lower (tok l 1) =? "fermi") && (lower (tok l 2) =? "energy") then
    match float_of_string (tok l 4) with
    | Some e => [e]
    | None => []
    end
  else [].

(** What a line adds to [magnetization] ([kind] is [total]) or to
    [absmagnetization] ([kind] is [absolute]): [float(l[3])], or nothing
    when that token is no number. *)
Definition magnetization_of (kind : string) (line : string) : list float :=
  let l := log_tokens line in
  if (4 <=? length l)%nat && (tok l 1 =? "magnetization")
     && (tok l 0 =? kind) then
    match float_of_string (tok l 3) with
    | Some m => [m]
    | None => []
    end
  else [].

(** The header of an ATOMIC_POSITIONS block of the log. *)
Definition positions_header (line : string) : Prop :=
  exists h rest,
    log_tokens line = h :: rest /\ lower h = "atomic_positions" /\
    tok rest 0 <> "magnetization".

(** A row of an ATOMIC_POSITIONS block: a label that is no keyword of the
    log, and three numbers. *)
Definition coord_line (line : string)
    (r : string * (float * (float * float))) : Prop :=
  exists sx sy sz rest,
    log_tokens line = fst r :: sx :: sy :: sz :: rest /\
    log_keyword (fst r) = false /\ sx <> "magnetization" /\
    float_of_string sx = Some (fst (snd r)) /\
    float_of_string sy = Some (fst (snd (snd r))) /\
    float_of_string sz = Some (snd (snd (snd r))).

(** The header [Forces acting on atoms ...] of a block of forces. *)
Definition forces_header (line : string) : Prop :=
  exists h0 h1 h2 h3 h4 h5 h6 rest,
    log_tokens line = h0 :: h1 :: h2 :: h3 :: h4 :: h5 :: h6 :: rest /\
    lower h0 = "forces" /\ lower h1 = "acting" /\ lower h2 = "on" /\
    lower h3 = "atoms".

(** A row of a block of forces, [atom 1 type 1 force = fx fy fz]: the three
    numbers are the tokens 6 to 8. *)
Definition force_line (line : string) (f : float * (float * float)) : Prop :=
  exists l0 l1 l2 l3 l4 l5 s1 s2 s3 rest,
    log_tokens line
    = l0 :: l1 :: l2 :: l3 :: l4 :: l5 :: s1 :: s2 :: s3 :: rest /\
    log_keyword l0 = false /\ l1 <> "magnetization" /\
    float_of_string s1 = Some (fst f) /\
    float_of_string s2 = Some (fst (snd f)) /\
    float_of_string s3 = Some (snd (snd f)).

End LogLines.

(** ** The K_POINTS card of a list of points *)

(** The object after the rows of a list of points were read. *)
Definition add_kpoints (rows : list (float * (float * (float * float))))
    (self : Calc.calc) : Calc.calc :=
  Calc.set_wk (Calc.wk self ++ map (fun r => snd (snd (snd r))) rows)%list
    (Calc.set_kz (Calc.kz self ++ map (fun r => fst (snd (snd r))) rows)%list
       (Calc.set_ky (Calc.ky self ++ map (fun r => fst (snd r)) rows)%list
          (Calc.set_kx (Calc.kx self ++ map fst rows)%list self))).

(** The state of [read_input] inside a list of [n] points, [j - 1] rows
    read. *)
Definition in_list (j n : Z) (self : Calc.calc) : Rd.locals :=
  Rd.set_j j (Rd.set_iskpoints true (idle (Some n) self)).

(** [m] sampled at gamma, with no point and no grid; the text that
    [build_input] writes before the K_POINTS card is the same. *)
Definition at_gamma (m : Calc.calc) : Calc.calc :=
  Calc.set_k_points_type "gamma"
    (Calc.set_sk3 None
       (Calc.set_sk2 None
          (Calc.set_sk1 None
             (Calc.set_nk3 None
                (Calc.set_nk2 None
                   (Calc.set_nk1 None
                      (Calc.set_wk []
                         (Calc.set_kz []
                            (Calc.set_ky [] (Calc.set_kx [] m)))))))))).

Section PointList.
Context {FT : FloatText}.

Definition kpoint_rows (m : Calc.calc)
    : list (float * (float * (float * float))) :=
  combine (Calc.kx m)
    (combine (Calc.ky m) (combine (Calc.kz m) (Calc.wk m))).

Definition kpoint_line (r : float * (float * (float * float))) : string :=
  let '(a, (b, (c, w))) := r in
  str_float a ++ "   " ++ str_float b ++ "   " ++ str_float c ++ "   "
    ++ str_float w.

(** A line that [read_input] reads as the point [r] of a list: four tokens
    or more, the first no header, the first four read by [float] as the
    numbers of [r]. *)
Definition kpoint_row (line : string)
    (r : float * (float * (float * float))) : Prop :=
  exists t0 t1 t2 t3 more,
    split line = t0 :: t1 :: t2 :: t3 :: more /\
    is_keyword t0 = false /\
    float_of_string t0 = Some (fst r) /\
    float_of_string t1 = Some (fst (snd r)) /\
    float_of_string t2 = Some (fst (snd (snd r))) /\
    float_of_string t3 = Some (snd (snd (snd r))).

Definition kpoint_ok (r : float * (float * (float * float))) : Prop :=
  float_ok (fst r) /\ float_ok (fst (snd r)) /\
  float_ok (fst (snd (snd r))) /\ float_ok (snd (snd (snd r))).

(** The lines that [build_input] writes before the K_POINTS card. *)
Definition deck_prefix (m : Calc.calc) (calculation : string) (ibrav : Z)
    : list string :=
  (namelist_lines "&CONTROL" (Calc.control m)
   ++ namelist_lines "&SYSTEM" (Calc.system m)
   ++ namelist_lines "&ELECTRONS" (Calc.electrons m)
   ++ namelist_lines "&IONS" (Calc.ions m)
   ++ (if is_vc calculation then namelist_lines "&CELL" (Calc.cell m)
       else [])
   ++ ("ATOMIC_SPECIES" :: map species_line (species_rows m))
   ++ (if (ibrav =? 0)%Z then
         ("CELL_PARAMETERS " ++ Calc.cell_parameters_units m)%string
           :: vector_lines (Calc.v1 m) ++ vector_lines (Calc.v2 m)
           ++ vector_lines (Calc.v3 m)
       else [])
   ++ ("ATOMIC_POSITIONS " ++ Calc.atomic_positions_units m)%string
        :: atom_lines m)%list.

(** The lines that [build_input] writes for a deck sampled on a list of
    points: the line after the header is [str(self.wk)]. *)
Definition deck_list_bodies (m : Calc.calc) (calculation : string)
    (ibrav : Z) : list string :=
  (deck_prefix m calculation ibrav
   ++ ("K_POINTS " ++ Calc.k_points_type m)%string
        :: str_float_list (Calc.wk m)
        :: map kpoint_line (kpoint_rows m))%list.

(** A deck sampled on a list of points: well formed but for its sampling,
    which is neither gamma nor automatic, with as many coordinates as
    weights. *)
Definition list_deck_ok (m : Calc.calc) : Prop :=
  deck_ok (at_gamma m) /\
  is_token (Calc.k_points_type m) = true /\
  Calc.k_points_type m <> "gamma" /\
  Calc.k_points_type m <> "automatic" /\
  length (Calc.kx m) = length (Calc.wk m) /\
  length (Calc.ky m) = length (Calc.wk m) /\
  length (Calc.kz m) = length (Calc.wk m) /\
  Forall float_ok (Calc.kx m) /\ Forall float_ok (Calc.ky m) /\
  Forall float_ok (Calc.kz m) /\ Forall float_ok (Calc.wk m).

End PointList.

(** A band-structure deck with two points on a path, the rows separated by
    single blanks and the second followed by a remark. *)
Definition deck_bands_text : string :=
  text_of_lines
    ["&control"; "calculation = 'bands',"; "/";
     "k_points crystal_b"; "2";
     "0.0 0.0 0.0 1.0"; "0.5 0.0 0.0 1.0 ! X"].

(** ** Files *)

(** The files of the working directory, the text held under each path.
    [open(path,"w")], [write] and [close] leave the text written under
    [path]; [open(path,"r")] raises [FileNotFoundError] when nothing is
    held under [path]. *)
Definition files : Type := dict.

(** [__write_input__(inpfile,input_string)] *)
Definition write_input (inpfile input_string : string) (fs : files)
    : files :=
  dict_set fs inpfile input_string.

Section Files.
Context {FT : FloatText}.

(** [build_input(saveinp,inpfile)]: the files and the object after the
    call, and the returned text or the exception raised; the file is
    written after the text is complete. *)
Definition build_input_file (saveinp : bool) (inpfile : string)
    (self : Calc.calc) (fs : files) : files * (Calc.calc * result string) :=
  let (self, r) := build_input self in
  match r with
  | Ok input_string =>
      ((if saveinp then write_input inpfile input_string fs else fs),
       (self, Ok input_string))
  | Raise e => (fs, (self, Raise e))
  end.

(** [read_input(inpfile)]: when the file is not found the method prints a
    message and returns, and [self] is as it was. *)
Definition read_input_file (inpfile : string) (self : Calc.calc)
    (fs : files) : result Calc.calc :=
  match dict_get fs inpfile with
  | None => Ok self
  | Some text => read_input text self
  end.

End Files.

(** ** What [read_input] adds *)

(** [b] is [a] with entries appended. *)
Definition grows {A : Type} (a b : list A) : Prop := exists s, b = (a ++ s)%list.

(** Every list of [c'] is the list of [c] with entries appended. *)
Definition lists_grow (c c' : Calc.calc) : Prop :=
  grows (Calc.atomic_species c) (Calc.atomic_species c') /\
  grows (Calc.atomic_mass c) (Calc.atomic_mass c') /\
  grows (Calc.pseudopotential c) (Calc.pseudopotential c') /\
  grows (Calc.atom_type c) (Calc.atom_type c') /\
  grows (Calc.x c) (Calc.x c') /\ grows (Calc.y c) (Calc.y c') /\
  grows (Calc.z c) (Calc.z c') /\
  grows (Calc.kx c) (Calc.kx c') /\ grows (Calc.ky c) (Calc.ky c') /\
  grows (Calc.kz c) (Calc.kz c') /\ grows (Calc.wk c) (Calc.wk c') /\
  grows (Calc.if_pos1 c) (Calc.if_pos1 c') /\
  grows (Calc.if_pos2 c) (Calc.if_pos2 c') /\
  grows (Calc.if_pos3 c) (Calc.if_pos3 c') /\
  grows (Calc.v1 c) (Calc.v1 c') /\ grows (Calc.v2 c) (Calc.v2 c') /\
  grows (Calc.v3 c) (Calc.v3 c').

(** ** Logs for the examples *)

(** The summary lines of a spin-polarised run of two steps. *)
Definition log_scf : string :=
  text_of_lines
    ["     total magnetization       =     2.0 Bohr mag/cell";
     "     absolute magnetization    =     ***** Bohr mag/cell";
     "     the Fermi energy is     5.0 ev";
     "!    total energy              =      -1.0 Ry";
     "     the Fermi energy is     6.0 ev";
     "!    total energy              =      -2.0 Ry";
     "   This run was terminated on:  12:00:00"].

(** A log whose crystal axes come first. *)
Definition log_axes_first : string :=
  text_of_lines
    ["     crystal axes: (cart. coord. in units of alat)";
     "               a(1) = (   1.000000   0.000000   0.000000 )  ";
     "     lattice parameter (alat)  =       2.0000  a.u."].

(** * Facts about the primitives *)

(** ** Strings *)

Lemma append_nil_r (s : string) : s ++ "" = s.
Proof. induction s as [|c s IH]; simpl; [reflexivity | now rewrite IH]. Qed.

Lemma append_assoc (a b c : string) : (a ++ b) ++ c = a ++ b ++ c.
Proof. induction a as [|x a IH]; simpl; [reflexivity | now rewrite IH]. Qed.

Lemma append_snoc (a : string) (c : ascii) (b : string) :
  (a ++ String c "") ++ b = a ++ String c b.
Proof. now rewrite append_assoc. Qed.

Lemma string_forall_app (p : ascii -> bool) (a b : string) :
  string_forall p (a ++ b) = string_forall p a && string_forall p b.
Proof.
  induction a as [|c a IH]; simpl; [reflexivity|].
  now rewrite IH, andb_assoc.
Qed.

Lemma string_forall_impl (p q : ascii -> bool) (s : string) :
  (forall c, p c = true -> q c = true) ->
  string_forall p s = true -> string_forall q s = true.
Proof.
  intros Hpq. induction s as [|c s IH]; simpl; [reflexivity|].
  rewrite !andb_true_iff. intros [Hc Hs]. split; auto.
Qed.

(** ** Decimal integers *)

Lemma is_digit_not_space (c : ascii) : is_digit c = true -> is_space c = false.
Proof.
  unfold is_digit, is_space. cbv zeta.
  rewrite !andb_true_iff, !Nat.leb_le. intros [H1 H2].
  apply orb_false_iff; split; apply andb_false_iff.
  - right. apply Nat.leb_gt. lia.
  - right. apply Nat.leb_gt. lia.
Qed.

Lemma uint_digits (d : Decimal.uint) :
  string_forall is_digit (NilEmpty.string_of_uint d) = true.
Proof. induction d; simpl; auto. Qed.

Lemma uint_nonempty (d : Decimal.uint) :
  d <> Decimal.Nil -> NilEmpty.string_of_uint d <> "".
Proof. destruct d; simpl; congruence. Qed.

Lemma rstrip_no_space (s : string) :
  string_forall (fun c => negb (is_space c)) s = true -> rstrip s = s.
Proof.
  induction s as [|c s IH]; simpl; [reflexivity|].
  rewrite andb_true_iff, negb_true_iff. intros [Hc Hs].
  rewrite (IH Hs), Hc. now destruct s.
Qed.

Lemma is_int_space_space (c : ascii) :
  is_space c = false -> is_int_space c = false.
Proof.
  unfold is_space, is_int_space. cbv zeta.
  destruct (9 <=? nat_of_ascii c)%nat eqn:E1;
    destruct (nat_of_ascii c <=? 13)%nat eqn:E2; cbn [andb orb];
    try discriminate.
  - rewrite andb_false_iff, Nat.leb_gt, Nat.leb_gt. intros H.
    apply Nat.eqb_neq. apply Nat.leb_gt in E2. lia.
  - rewrite andb_false_iff, Nat.leb_gt, Nat.leb_gt. intros H.
    apply Nat.eqb_neq. apply Nat.leb_gt in E1. lia.
  - rewrite andb_false_iff, Nat.leb_gt, Nat.leb_gt. intros H.
    apply Nat.eqb_neq. apply Nat.leb_gt in E1. lia.
Qed.

Lemma int_rstrip_no_space (s : string) :
  string_forall (fun c => negb (is_space c)) s = true -> int_rstrip s = s.
Proof.
  induction s as [|c s IH]; simpl; [reflexivity|].
  rewrite andb_true_iff, negb_true_iff. intros [Hc Hs].
  rewrite (IH Hs), (is_int_space_space _ Hc). now destruct s.
Qed.

Lemma int_lstrip_no_space (s : string) :
  string_forall (fun c => negb (is_space c)) s = true -> int_lstrip s = s.
Proof.
  destruct s as [|c s]; simpl; [reflexivity|].
  rewrite andb_true_iff, negb_true_iff. intros [Hc _].
  now rewrite (is_int_space_space _ Hc).
Qed.

Lemma strip_no_space (s : string) :
  string_forall (fun c => negb (is_space c)) s = true -> int_strip s = s.
Proof.
  intros Hs. unfold int_strip. rewrite (int_rstrip_no_space _ Hs).
  now apply int_lstrip_no_space.
Qed.

Lemma digits_no_space (s : string) :
  string_forall is_digit s = true ->
  string_forall (fun c => negb (is_space c)) s = true.
Proof.
  apply string_forall_impl. intros c Hc.
  now rewrite (is_digit_not_space _ Hc).
Qed.

Lemma int_body_digits (s : string) (prev : bool) :
  string_forall is_digit s = true -> s <> "" -> int_body prev s = Some s.
Proof.
  revert prev. induction s as [|c s IH]; intros prev Hs Hne; [congruence|].
  simpl in Hs |- *. apply andb_true_iff in Hs as [Hc Hs]. rewrite Hc.
  destruct s as [|c' s'].
  - reflexivity.
  - rewrite IH; [reflexivity | assumption | discriminate].
Qed.

Lemma digit_not_sign (c : ascii) :
  is_digit c = true -> (c =? "-")%char = false /\ (c =? "+")%char = false.
Proof.
  intros Hc. split; apply Ascii.eqb_neq; intros ->; discriminate.
Qed.

(** [int] reads a string of digits as the number it writes. *)
Lemma py_int_digits (d : Decimal.uint) :
  d <> Decimal.Nil ->
  py_int (NilEmpty.string_of_uint d) = Some (Z.of_uint d).
Proof.
  intros Hd. unfold py_int.
  pose proof (uint_digits d) as Hdig.
  pose proof (uint_nonempty d Hd) as Hne.
  rewrite (strip_no_space _ (digits_no_space _ Hdig)).
  destruct (NilEmpty.string_of_uint d) as [|c r] eqn:E; [congruence|].
  assert (Hc : is_digit c = true) by (simpl in Hdig; now apply andb_true_iff in Hdig).
  destruct (digit_not_sign c Hc) as [-> ->].
  rewrite int_body_digits by (assumption || discriminate).
  now rewrite <- E, NilEmpty.usu.
Qed.

Lemma py_int_neg_digits (d : Decimal.uint) :
  d <> Decimal.Nil ->
  py_int (String "-" (NilEmpty.string_of_uint d)) = Some (- Z.of_uint d)%Z.
Proof.
  intros Hd. unfold py_int.
  pose proof (uint_digits d) as Hdig.
  pose proof (uint_nonempty d Hd) as Hne.
  assert (Hns : string_forall (fun c => negb (is_space c))
                  (String "-" (NilEmpty.string_of_uint d)) = true).
  { simpl. now apply digits_no_space. }
  rewrite (strip_no_space _ Hns). simpl.
  rewrite int_body_digits by assumption.
  now rewrite NilEmpty.usu.
Qed.

Lemma string_of_uint_nonnil (d : Decimal.uint) :
  d <> Decimal.Nil -> NilZero.string_of_uint d = NilEmpty.string_of_uint d.
Proof. destruct d; simpl; congruence. Qed.

(** [int(str(n)) == n] *)
Lemma py_int_str_int (n : Z) : py_int (str_int n) = Some n.
Proof.
  unfold str_int. destruct n as [|p|p]; simpl.
  - reflexivity.
  - pose proof (DecimalPos.Unsigned.to_uint_nonnil p) as Hp.
    rewrite string_of_uint_nonnil, py_int_digits by assumption.
    f_equal. exact (DecimalZ.of_to (Zpos p)).
  - pose proof (DecimalPos.Unsigned.to_uint_nonnil p) as Hp.
    rewrite string_of_uint_nonnil, py_int_neg_digits by assumption.
    f_equal. exact (DecimalZ.of_to (Zneg p)).
Qed.

Lemma int_str_int (n : Z) : int (str_int n) = Ok n.
Proof. unfold int. now rewrite py_int_str_int. Qed.

(** The first character of [str(n)] is a digit or the minus sign, and the
    others are digits. *)
Lemma str_int_shape (n : Z) :
  exists c r, str_int n = String c r /\
    (is_digit c = true \/ c = "-"%char) /\ string_forall is_digit r = true.
Proof.
  unfold str_int. destruct n as [|p|p]; simpl.
  - exists "0"%char, "". auto.
  - pose proof (DecimalPos.Unsigned.to_uint_nonnil p) as Hp.
    rewrite string_of_uint_nonnil by assumption.
    pose proof (uint_digits (Pos.to_uint p)) as Hdig.
    pose proof (uint_nonempty _ Hp) as Hne.
    destruct (NilEmpty.string_of_uint (Pos.to_uint p)) as [|c r]; [congruence|].
    simpl in Hdig. apply andb_true_iff in Hdig as [Hc Hr].
    exists c, r. auto.
  - pose proof (DecimalPos.Unsigned.to_uint_nonnil p) as Hp.
    rewrite string_of_uint_nonnil by assumption.
    exists "-"%char, (NilEmpty.string_of_uint (Pos.to_uint p)).
    split; [reflexivity|]. split; [now right | apply uint_digits].
Qed.

(** ** Dictionaries *)

Lemma dict_get_set_same (d : dict) (k v : string) :
  dict_get (dict_set d k v) k = Some v.
Proof.
  induction d as [|[k' v'] d IH]; simpl.
  - now rewrite String.eqb_refl.
  - destruct (k =? k') eqn:E; simpl; rewrite E; [reflexivity | exact IH].
Qed.

Lemma dict_get_set_other (d : dict) (k k' v : string) :
  k' <> k -> dict_get (dict_set d k v) k' = dict_get d k'.
Proof.
  intros Hne. induction d as [|[k0 v0] d IH]; simpl.
  - apply String.eqb_neq in Hne. now rewrite Hne.
  - destruct (k =? k0) eqn:E; simpl.
    + apply String.eqb_eq in E. subst k0.
      apply String.eqb_neq in Hne. now rewrite Hne.
    + destruct (k' =? k0); [reflexivity | exact IH].
Qed.

Lemma dict_set_same_value (d : dict) (k v : string) :
  dict_get d k = Some v -> dict_set d k v = d.
Proof.
  induction d as [|[k' v'] d IH]; simpl; [discriminate|].
  destruct (k =? k') eqn:E.
  - now intros [= ->].
  - intros Hg. now rewrite IH.
Qed.

Lemma dict_keys_set_in (d : dict) (k v : string) :
  In k (dict_keys d) -> dict_keys (dict_set d k v) = dict_keys d.
Proof.
  induction d as [|[k' v'] d IH]; simpl; [tauto|].
  destruct (k =? k') eqn:E; simpl; [reflexivity|].
  intros [Heq | Hin].
  - subst k'. now rewrite String.eqb_refl in E.
  - now rewrite IH.
Qed.

Lemma dict_keys_set_new (d : dict) (k v : string) :
  ~ In k (dict_keys d) -> dict_set d k v = (d ++ [(k, v)])%list.
Proof.
  induction d as [|[k' v'] d IH]; simpl; [reflexivity|].
  intros Hnin. destruct (k =? k') eqn:E.
  - apply String.eqb_eq in E. subst. tauto.
  - rewrite IH by tauto. reflexivity.
Qed.

Lemma dict_get_in (d : dict) (k : string) :
  In k (dict_keys d) <-> dict_get d k <> None.
Proof.
  induction d as [|[k' v'] d IH]; simpl; [tauto|].
  destruct (k =? k') eqn:E.
  - apply String.eqb_eq in E. subst. split; [congruence | auto].
  - apply String.eqb_neq in E. rewrite <- IH. split; [intros [?|?] | ]; auto.
    congruence.
Qed.

Lemma dict_keys_set_incl (d : dict) (k v k' : string) :
  In k' (dict_keys d) -> In k' (dict_keys (dict_set d k v)).
Proof.
  induction d as [|[k0 v0] d IH]; simpl; [tauto|].
  destruct (k =? k0); simpl; intros [?|?]; auto.
Qed.

Lemma dict_keys_set_key (d : dict) (k v : string) :
  In k (dict_keys (dict_set d k v)).
Proof.
  apply dict_get_in. rewrite dict_get_set_same. discriminate.
Qed.

Lemma dict_set_nodup (d : dict) (k v : string) :
  NoDup (dict_keys d) -> NoDup (dict_keys (dict_set d k v)).
Proof.
  intros Hnd. destruct (in_dec string_dec k (dict_keys d)) as [Hin | Hnin].
  - now rewrite dict_keys_set_in.
  - rewrite dict_keys_set_new by assumption. unfold dict_keys.
    rewrite map_app. simpl.
    apply NoDup_app; [exact Hnd | repeat constructor; simpl; tauto |].
    intros a Ha [<- | []]. exact (Hnin Ha).
Qed.

(** ** Results and loops *)

Lemma bind_ok_inv {A B : Type} (r : result A) (k : A -> result B) (b : B) :
  bind r k = Ok b -> exists a, r = Ok a /\ k a = Ok b.
Proof. destruct r as [a|e]; simpl; [eauto | discriminate]. Qed.

Lemma item_lt {A : Type} (l : list A) (i : nat) :
  (i < length l)%nat -> exists a, item l i = Ok a.
Proof.
  intros Hi. unfold item. destruct (nth_error l i) eqn:E; [eauto|].
  apply nth_error_None in E. lia.
Qed.


Lemma item_some {A : Type} (l : list A) (i : nat) (a : A) :
  nth_error l i = Some a -> item l i = Ok a.
Proof. unfold item. now intros ->. Qed.

Lemma for_each_app idx1 idx2 body s :
  for_each (idx1 ++ idx2) body s =
  (s' <- for_each idx1 body s ;; for_each idx2 body s').
Proof.
  revert s. induction idx1 as [|i idx1 IH]; intros s; simpl; [reflexivity|].
  destruct (body i s); simpl; auto.
Qed.

(** A loop whose every iteration completes reaches its end. *)
Lemma for_each_total idx body s :
  (forall i s0, In i idx -> exists s1, body i s0 = Ok s1) ->
  exists s', for_each idx body s = Ok s'.
Proof.
  revert s. induction idx as [|i idx IH]; intros s Hb; simpl; [eauto|].
  destruct (Hb i s (or_introl eq_refl)) as [s1 ->]. simpl.
  apply IH. intros j s0 Hj. apply Hb. now right.
Qed.



(** A loop that appends one known row per index appends them all. *)
Lemma for_each_rows (rows : list string) body :
  (forall i row s, nth_error rows i = Some row -> body i s = Ok (s ++ row)) ->
  forall s, for_range (length rows) body s = Ok (s ++ String.concat "" rows).
Proof.
  intros Hb. unfold for_range.
  assert (G : forall suf pre s, rows = (pre ++ suf)%list ->
            for_each (seq (length pre) (length suf)) body s
            = Ok (s ++ String.concat "" suf)).
  { induction suf as [|row suf IH]; intros pre s Hr; simpl.
    - now rewrite append_nil_r.
    - rewrite (Hb (length pre) row s).
      2:{ rewrite Hr, nth_error_app2, Nat.sub_diag by lia. reflexivity. }
      simpl. specialize (IH (pre ++ [row])%list (s ++ row)).
      rewrite length_app, Nat.add_1_r in IH.
      rewrite IH by (rewrite Hr, <- app_assoc; reflexivity).
      destruct suf; simpl; now rewrite ?append_assoc, ?append_nil_r. }
  intros s. exact (G rows [] s eq_refl).
Qed.

Lemma for_range_rows (rows : list string) body n :
  n = length rows ->
  (forall i row s, nth_error rows i = Some row -> body i s = Ok (s ++ row)) ->
  forall s, for_range n body s = Ok (s ++ String.concat "" rows).
Proof. intros ->. apply for_each_rows. Qed.

Lemma nth_error_combine {A B : Type} (a : list A) (b : list B) i p q :
  nth_error (combine a b) i = Some (p, q) ->
  nth_error a i = Some p /\ nth_error b i = Some q.
Proof.
  revert b i. induction a as [|x a IH]; intros [|y b] [|i]; simpl;
    try discriminate.
  - now intros [= -> ->].
  - apply IH.
Qed.

(** ** C8 and C6: what the serializer and the writer do to their objects *)

Section Serializer.
Context {FT : FloatText}.

(** C8. After [build_input] the stored [system["nat"]] is the decimal text
    of the number of atoms and [system["ntyp"]] that of the number of species,
    whatever those keys held before, and whether the call returned or raised;
    read back with [int] they are the two lengths. *)
Theorem build_input_sets_counts (self : Calc.calc) :
  let after := fst (build_input self) in
  let nat := Z.of_nat (length (Calc.atom_type after)) in
  let ntyp := Z.of_nat (length (Calc.atomic_species after)) in
  getitem (Calc.system after) "nat" = Ok (str_int nat) /\
  getitem (Calc.system after) "ntyp" = Ok (str_int ntyp) /\
  (s <- getitem (Calc.system after) "nat" ;; int s) = Ok nat /\
  (s <- getitem (Calc.system after) "ntyp" ;; int s) = Ok ntyp /\
  Calc.atom_type after = Calc.atom_type self /\
  Calc.atomic_species after = Calc.atomic_species self.
Proof.
  cbv zeta. unfold build_input, getitem. simpl.
  rewrite dict_get_set_same.
  rewrite dict_get_set_other by discriminate.
  rewrite dict_get_set_same. simpl.
  rewrite !int_str_int. repeat split; reflexivity.
Qed.

(** C6, as amended. [build_input] assigns [system["nat"]] and
    [system["ntyp"]] and leaves every other attribute of the object as it
    was; [__write_coords__] leaves the [out] object as it was. *)
Theorem build_input_frame (self : Calc.calc) (pw_out_obj : Out.out) :
  let after := fst (build_input self) in
  Calc.system after =
    dict_set
      (dict_set (Calc.system self) "nat"
         (str_int (Z.of_nat (length (Calc.atom_type self)))))
      "ntyp" (str_int (Z.of_nat (length (Calc.atomic_species self)))) /\
  Calc.set_system (Calc.system self) after = self /\
  fst (write_coords pw_out_obj) = pw_out_obj.
Proof.
  cbv zeta. unfold build_input. simpl. repeat split.
  now destruct self.
Qed.

End Serializer.

(** C6, as stated, fails: serializing [deck_gamma] with stale counts returns
    the deck text and leaves a different [system] mapping in the object. *)
Lemma build_input_changes_system :
  let self := Calc.set_system [("ibrav", "1"); ("nat", "7")] deck_gamma in
  is_ok (snd (build_input (FT := DecFloat.table) self)) = true /\
  Calc.system (fst (build_input (FT := DecFloat.table) self))
    = [("ibrav", "1"); ("nat", "1"); ("ntyp", "1")] /\
  fst (build_input (FT := DecFloat.table) self) <> self.
Proof.
  cbv zeta. split; [vm_compute; reflexivity|]. split; [vm_compute; reflexivity|].
  intros E. apply (f_equal Calc.system) in E. vm_compute in E. discriminate.
Qed.

(** ** C3: when the serializer returns *)

Section SerializerTotal.
Context {FT : FloatText}.

Lemma emit_species_total self i s :
  (i < length (Calc.atomic_species self))%nat ->
  (length (Calc.atomic_species self) <= length (Calc.atomic_mass self))%nat ->
  (length (Calc.atomic_species self)
     <= length (Calc.pseudopotential self))%nat ->
  exists s', emit_species self i s = Ok s'.
Proof.
  intros Hi Hm Hp. unfold emit_species.
  destruct (item_lt (Calc.atomic_species self) i) as [a ->]; [lia|].
  destruct (item_lt (Calc.atomic_mass self) i) as [m ->]; [lia|].
  destruct (item_lt (Calc.pseudopotential self) i) as [p ->]; [lia|].
  simpl. eauto.
Qed.

Lemma emit_vector_total v s :
  (3 <= length v)%nat -> exists s', emit_vector v s = Ok s'.
Proof.
  intros Hv. unfold emit_vector.
  destruct (item_lt v 0) as [a ->]; [lia|].
  destruct (item_lt v 1) as [b ->]; [lia|].
  destruct (item_lt v 2) as [c ->]; [lia|].
  simpl. eauto.
Qed.

Lemma emit_atom_total self i s :
  (i < length (Calc.atom_type self))%nat ->
  (length (Calc.atom_type self) <= length (Calc.x self))%nat ->
  (length (Calc.atom_type self) <= length (Calc.y self))%nat ->
  (length (Calc.atom_type self) <= length (Calc.z self))%nat ->
  (Calc.if_pos1 self = [] \/
   (length (Calc.atom_type self) <= length (Calc.if_pos1 self))%nat /\
   (length (Calc.atom_type self) <= length (Calc.if_pos2 self))%nat /\
   (length (Calc.atom_type self) <= length (Calc.if_pos3 self))%nat) ->
  exists s', emit_atom self i s = Ok s'.
Proof.
  intros Hi Hx Hy Hz Hp. unfold emit_atom.
  destruct (item_lt (Calc.atom_type self) i) as [t ->]; [lia|].
  destruct (item_lt (Calc.x self) i) as [xi ->]; [lia|].
  destruct (item_lt (Calc.y self) i) as [yi ->]; [lia|].
  destruct (item_lt (Calc.z self) i) as [zi ->]; [lia|].
  destruct (length (Calc.if_pos1 self) =? 0)%nat eqn:E; simpl; [eauto|].
  destruct Hp as [Hp | (H1 & H2 & H3)].
  - rewrite Hp in E. discriminate.
  - destruct (item_lt (Calc.if_pos1 self) i) as [p1 ->]; [lia|].
    destruct (item_lt (Calc.if_pos2 self) i) as [p2 ->]; [lia|].
    destruct (item_lt (Calc.if_pos3 self) i) as [p3 ->]; [lia|].
    simpl. eauto.
Qed.

Lemma emit_kpoint_total self i s :
  (i < length (Calc.wk self))%nat ->
  (length (Calc.wk self) <= length (Calc.kx self))%nat ->
  (length (Calc.wk self) <= length (Calc.ky self))%nat ->
  (length (Calc.wk self) <= length (Calc.kz self))%nat ->
  exists s', emit_kpoint self i s = Ok s'.
Proof.
  intros Hi Hx Hy Hz. unfold emit_kpoint.
  destruct (item_lt (Calc.kx self) i) as [a ->]; [lia|].
  destruct (item_lt (Calc.ky self) i) as [b ->]; [lia|].
  destruct (item_lt (Calc.kz self) i) as [c ->]; [lia|].
  destruct (item_lt (Calc.wk self) i) as [w ->]; [lia|].
  simpl. eauto.
Qed.

Lemma build_text_total self :
  serializable self -> exists text, build_text self = Ok text.
Proof.
  intros (Hcalc & Hm & Hp & (sib & n & Hib & Hn & Hv) & Hx & Hy & Hz & Hpos & Hk).
  unfold build_text, getitem.
  destruct (dict_get (Calc.control self) "calculation") as [c|]; [|congruence].
  cbn [bind].
  match goal with |- context [for_range ?n ?b ?s] =>
    destruct (for_each_total (seq 0 n) b s) as [s1 E1] end.
  { intros i s0 Hi. apply in_seq in Hi. apply emit_species_total; lia. }
  unfold for_range at 1. rewrite E1. cbn [bind].
  rewrite Hib. cbn [bind]. unfold int. rewrite Hn. cbn [bind].
  match goal with |- context [bind (if ?c then ?a else ?b) _] =>
    assert (Hcell : exists s2, (if c then a else b) = Ok s2) end.
  { destruct (n =? 0)%Z eqn:E0; [|eauto].
    apply Z.eqb_eq in E0. destruct (Hv E0) as (H1 & H2 & H3).
    match goal with |- context [emit_vector (Calc.v1 self) ?s] =>
      destruct (emit_vector_total (Calc.v1 self) s H1) as [t1 ->] end.
    cbn [bind].
    destruct (emit_vector_total (Calc.v2 self) t1 H2) as [t2 ->].
    cbn [bind]. apply emit_vector_total, H3. }
  destruct Hcell as [s2 ->]. cbn [bind].
  match goal with |- context [for_range ?n ?b ?s] =>
    destruct (for_each_total (seq 0 n) b s) as [s3 E3] end.
  { intros i s0 Hi. apply in_seq in Hi. apply emit_atom_total; auto; lia. }
  unfold for_range at 1. rewrite E3. cbn [bind].
  destruct (Calc.k_points_type self =? "gamma") eqn:Eg; cbn [negb]; [eauto|].
  destruct (Calc.k_points_type self =? "automatic") eqn:Ea; [eauto|].
  destruct Hk as [Hk | [Hk | (Hkx & Hky & Hkz)]].
  - rewrite Hk in Eg. discriminate.
  - rewrite Hk in Ea. discriminate.
  - apply for_each_total. intros i s0 Hi. apply in_seq in Hi.
    apply emit_kpoint_total; auto; lia.
Qed.

Lemma serializable_after self :
  serializable self -> serializable (fst (build_input self)).
Proof.
  unfold serializable, build_input. simpl.
  rewrite !dict_get_set_other by discriminate. tauto.
Qed.

(** C3, as amended. [build_input] returns a text whenever the object holds
    [control["calculation"]], an integer [system["ibrav"]] and lists long
    enough for the loops that index them ([serializable]); when
    [control["calculation"]] is absent it raises [KeyError]. *)
Theorem build_input_returns (self : Calc.calc) :
  (serializable self -> exists text, snd (build_input self) = Ok text) /\
  (dict_get (Calc.control self) "calculation" = None ->
   snd (build_input self) = Raise KeyError).
Proof.
  split.
  - intros Hs. apply serializable_after in Hs.
    exact (build_text_total _ Hs).
  - intros Hc. unfold build_input. cbn [snd]. unfold build_text, getitem.
    cbn [Calc.control Calc.set_system]. now rewrite Hc.
Qed.

End SerializerTotal.

(** C3, as stated, fails: on the object that [calc()] constructs, where the
    namelist dictionaries are empty, [build_input] raises [KeyError]. *)
Lemma build_input_fresh_raises :
  snd (build_input (FT := DecFloat.table) Calc.init) = Raise KeyError.
Proof. reflexivity. Qed.

Lemma deck_gamma_serializable : serializable deck_gamma.
Proof.
  unfold serializable. simpl.
  split; [discriminate|]. split; [lia|]. split; [lia|].
  split; [exists "1", 1%Z; repeat split; try reflexivity; discriminate|].
  split; [lia|]. split; [lia|]. split; [lia|].
  split; now left.
Qed.

Lemma build_input_returns_witness :
  (exists text, snd (build_input (FT := DecFloat.table) deck_gamma) = Ok text)
  /\ snd (build_input (FT := DecFloat.table) Calc.init) = Raise KeyError.
Proof.
  split.
  - exact (proj1 (build_input_returns deck_gamma) deck_gamma_serializable).
  - exact (proj2 (build_input_returns Calc.init) eq_refl).
Defined.

(** ** C9: the movement flags *)

Lemma item_raise {A : Type} (l : list A) (i : nat) (e : exn) :
  item l i = Raise e -> e = IndexError.
Proof. unfold item. destruct (nth_error l i); congruence. Qed.


Section MovementFlags.
Context {FT : FloatText}.









End MovementFlags.


(** ** C7: the coordinate writer *)

Lemma item_ok_lt {A : Type} (l : list A) (i : nat) (a : A) :
  item l i = Ok a -> (i < length l)%nat.
Proof.
  unfold item. destruct (nth_error l i) eqn:E; [|discriminate].
  intros _. apply nth_error_Some. congruence.
Qed.

Section CoordinateWriter.
Context {FT : FloatText}.

Lemma emit_coord_row o i row s :
  nth_error (coord_rows o) i = Some row -> emit_coord o i s = Ok (s ++ row).
Proof.
  unfold coord_rows. rewrite nth_error_map.
  destruct (nth_error _ i) as [[t [xi [yi zi]]]|] eqn:E; [|discriminate].
  intros [= <-].
  apply nth_error_combine in E as [Ht E].
  apply nth_error_combine in E as [Hx E].
  apply nth_error_combine in E as [Hy Hz].
  unfold emit_coord.
  rewrite (item_some _ _ _ Ht), (item_some _ _ _ Hx), (item_some _ _ _ Hy),
    (item_some _ _ _ Hz).
  reflexivity.
Qed.

Lemma coord_rows_length o :
  length (Out.x o) = length (Out.atom_type o) ->
  length (Out.y o) = length (Out.atom_type o) ->
  length (Out.z o) = length (Out.atom_type o) ->
  length (coord_rows o) = length (Out.atom_type o).
Proof.
  intros Hx Hy Hz. unfold coord_rows.
  rewrite length_map, !length_combine. lia.
Qed.

(** C7, as amended. When [v1], [v2] or [v3] holds fewer than three numbers,
    [__write_coords__] raises [IndexError]. When each holds three and [x],
    [y] and [z] are as long as [atom_type], it writes the number of atoms,
    the [Lattice] line with the nine numbers in ["%.6f"] format, and one row
    per atom with its label and three coordinates in ["%.6f"] format; an
    empty [atom_type] gives the two header lines and no row, not a failure. *)
Theorem write_coords_output (o : Out.out) :
  ((length (Out.v1 o) < 3 \/ length (Out.v2 o) < 3
    \/ length (Out.v3 o) < 3)%nat ->
   snd (write_coords o) = Raise IndexError) /\
  (forall a1 a2 a3 b1 b2 b3 c1 c2 c3 r1 r2 r3,
     Out.v1 o = a1 :: a2 :: a3 :: r1 ->
     Out.v2 o = b1 :: b2 :: b3 :: r2 ->
     Out.v3 o = c1 :: c2 :: c3 :: r3 ->
     length (Out.x o) = length (Out.atom_type o) ->
     length (Out.y o) = length (Out.atom_type o) ->
     length (Out.z o) = length (Out.atom_type o) ->
     snd (write_coords o) =
       Ok (str_int (Z.of_nat (length (Out.atom_type o))) ++ NL
             ++ lattice_line a1 a2 a3 b1 b2 b3 c1 c2 c3
             ++ String.concat "" (coord_rows o)) /\
     length (coord_rows o) = length (Out.atom_type o)).
Proof.
  split.
  - intros Hshort. unfold write_coords. cbn [snd].
    repeat match goal with
    | |- context [bind (item ?l ?i) _] =>
        let E := fresh "E" in
        destruct (item l i) eqn:E; cbn [bind];
        [ apply item_ok_lt in E
        | f_equal; eapply item_raise; eassumption ]
    end.
    lia.
  - intros a1 a2 a3 b1 b2 b3 c1 c2 c3 r1 r2 r3 H1 H2 H3 Hx Hy Hz.
    pose proof (coord_rows_length o Hx Hy Hz) as Hlen. split; [|exact Hlen].
    unfold write_coords. cbn [snd]. rewrite H1, H2, H3.
    unfold item. cbn [nth_error bind].
    rewrite (for_range_rows (coord_rows o) (emit_coord o)).
    + now rewrite !append_assoc.
    + now rewrite Hlen.
    + intros i row s. apply emit_coord_row.
Qed.

End CoordinateWriter.

(** C7, as stated, fails twice: with cell vectors and no atom the writer
    completes and writes the two header lines; with neither, what it raises
    is [IndexError]. *)
Lemma write_coords_no_atoms :
  snd (write_coords (FT := DecFloat.table) out_no_atoms)
  = Ok ("0" ++ NL ++ "Lattice=" ++ DQ
          ++ "1.000000 0.000000 0.000000 0.000000 1.000000 0.000000 "
          ++ "0.000000 0.000000 1.000000" ++ DQ
          ++ " Properties=species:S:1:pos:R:3" ++ NL)
  /\ snd (write_coords (FT := DecFloat.table) Out.init) = Raise IndexError.
Proof. split; vm_compute; reflexivity. Qed.

Lemma write_coords_output_witness :
  snd (write_coords (FT := DecFloat.table) Out.init) = Raise IndexError
  /\ snd (write_coords (FT := DecFloat.table) out_one_atom)
     = Ok ("1" ++ NL ++ "Lattice=" ++ DQ
             ++ "1.000000 0.000000 0.000000 0.000000 1.000000 0.000000 "
             ++ "0.000000 0.000000 1.000000" ++ DQ
             ++ " Properties=species:S:1:pos:R:3" ++ NL
             ++ "H 2.000000 0.000000 0.000000" ++ NL).
Proof.
  split.
  - apply (proj1 (write_coords_output Out.init)). simpl. lia.
  - exact (proj1 (proj2 (write_coords_output out_one_atom)
                    1 0 0 0 1 0 0 0 1 [] [] []
                    eq_refl eq_refl eq_refl eq_refl eq_refl eq_refl))%float.
Defined.

(** ** C2: what the deck parser raises *)

Lemma is_keyword_false (s : string) :
  is_keyword s = false ->
  (lower s =? "&control") = false /\ (lower s =? "&system") = false /\
  (lower s =? "&electrons") = false /\ (lower s =? "&ions") = false /\
  (lower s =? "&cell") = false /\ (lower s =? "cell_parameters") = false /\
  (lower s =? "atomic_species") = false /\
  (lower s =? "atomic_positions") = false /\ (lower s =? "k_points") = false.
Proof.
  unfold is_keyword. cbv zeta. rewrite !orb_false_iff. tauto.
Qed.

Ltac not_keyword H :=
  let K := fresh "K" in
  pose proof (is_keyword_false _ H) as K;
  destruct K as (? & ? & ? & ? & ? & ? & ? & ? & ?).

(** Evaluates [lower] on the literals of the goal. *)
Ltac eval_lower :=
  repeat match goal with
  | |- context [lower (String ?c ?s)] =>
      let v := eval vm_compute in (lower (String c s)) in
      change (lower (String c s)) with v
  end.

Section ParserErrors.
Context {FT : FloatText}.

Lemma read_lines_app (a b : list string) (st : Rd.locals) :
  read_lines (a ++ b) st = (st' <- read_lines a st ;; read_lines b st').
Proof.
  revert st. induction a as [|line a IH]; intros st; simpl; [reflexivity|].
  destruct (read_line st line); simpl; auto.
Qed.

Lemma read_input_lines (text : string) (self : Calc.calc) :
  read_input text self =
  (st <- read_lines (file_lines text) (Rd.init self) ;; Ok (Rd.self st)).
Proof. reflexivity. Qed.










End ParserErrors.



(** ** C4 and C5: the crystal axes in the log *)

Lemma lower_neq (s t : string) : lower s <> lower t -> s <> t.
Proof. intros Hne ->. now apply Hne. Qed.

Section LogScanner.
Context {FT : FloatText}.

Lemma scan_line_lattice st line l0 l1 l2 l3 l4 rest p :
  split (rstrip line) = l0 :: l1 :: l2 :: l3 :: l4 :: rest ->
  lower l0 = "lattice" -> lower l1 = "parameter" ->
  float_of_string l4 = Some p ->
  scan_line st line = Ok (Scan.set_a0 (Some (p * bohr2angs)%float) st).
Proof.
  intros Hl H0 H1 Hp. unfold scan_line. rewrite Hl. cbv zeta.
  cbn [length tok nth Nat.leb andb].
  assert (E0 : (l0 =? "!") = false).
  { apply String.eqb_neq, lower_neq. rewrite H0. discriminate. }
  assert (E1 : (l1 =? "magnetization") = false).
  { apply String.eqb_neq, lower_neq. rewrite H1. discriminate. }
  rewrite E0, E1, H0, H1. cbn.
  unfold to_float. rewrite Hp. reflexivity.
Qed.

Lemma scan_line_axes_header st line h0 h1 rest :
  split (rstrip line) = h0 :: h1 :: rest ->
  lower h0 = "crystal" -> lower h1 = "axes:" ->
  scan_line st line =
  Ok (Scan.set_v3 [] (Scan.set_v2 [] (Scan.set_v1 []
        (Scan.set_nextcellpar true st)))).
Proof.
  intros Hl H0 H1. unfold scan_line. rewrite Hl. cbv zeta.
  assert (E0 : (h0 =? "!") = false).
  { apply String.eqb_neq, lower_neq. rewrite H0. discriminate. }
  assert (E1 : (h1 =? "magnetization") = false).
  { apply String.eqb_neq, lower_neq. rewrite H1. discriminate. }
  cbn [tok nth]. rewrite E0, E1, H0, H1.
  rewrite !andb_false_r. cbn.
  rewrite ?andb_false_r. reflexivity.
Qed.

(** A row of the block goes to the branch that [nextcellpar] guards. *)
Lemma scan_line_axis_row st line c1 c2 c3 :
  axis_row line c1 c2 c3 -> Scan.nextcellpar st = true ->
  scan_line st line =
  (st' <-
     (if (Scan.i st =? 0)%Z then
        v <- (a <- times_a0 c1 (Scan.a0 st) ;; b <- times_a0 c2 (Scan.a0 st) ;;
              c <- times_a0 c3 (Scan.a0 st) ;;
              Ok (Scan.v1 st ++ [a; b; c])%list) ;;
        Ok (Scan.set_v1 v st)
      else if (Scan.i st =? 1)%Z then
        v <- (a <- times_a0 c1 (Scan.a0 st) ;; b <- times_a0 c2 (Scan.a0 st) ;;
              c <- times_a0 c3 (Scan.a0 st) ;;
              Ok (Scan.v2 st ++ [a; b; c])%list) ;;
        Ok (Scan.set_v2 v st)
      else if (Scan.i st =? 2)%Z then
        v <- (a <- times_a0 c1 (Scan.a0 st) ;; b <- times_a0 c2 (Scan.a0 st) ;;
              c <- times_a0 c3 (Scan.a0 st) ;;
              Ok (Scan.v3 st ++ [a; b; c])%list) ;;
        Ok (Scan.set_nextcellpar false (Scan.set_v3 v st))
      else Ok st) ;;
   Ok (Scan.set_i (Scan.i st' + 1)%Z st')).
Proof.
  intros (n0 & t2 & s1 & s2 & s3 & rest & Hl & Hn0 & H1 & H2 & H3) Hnext.
  unfold scan_line. rewrite Hl. cbv zeta.
  apply String.eqb_neq in Hn0.
  cbn [tok nth length Nat.leb]. rewrite Hn0. eval_lower.
  cbn [andb String.eqb Ascii.eqb Bool.eqb].
  rewrite !andb_false_r. rewrite Hnext.
  unfold scan_axis, item, to_float. cbn [nth_error andb bind].
  rewrite H1, H2, H3. reflexivity.
Qed.

(** C5, as amended. A [lattice parameter] line with value [p] sets [a0] to
    [p * 0.529177]. From a state where no crystal-axes row was read yet
    ([i = 0]) and [a0] is set, a [crystal axes:] header and the three rows
    after it replace [v1], [v2] and [v3] by the numbers of the rows, each
    multiplied by [a0] and by nothing else. *)
Theorem crystal_axes_scaled_by_a0 (st : Scan.locals) :
  (forall line l0 l1 l2 l3 l4 rest p,
     split (rstrip line) = l0 :: l1 :: l2 :: l3 :: l4 :: rest ->
     lower l0 = "lattice" -> lower l1 = "parameter" ->
     float_of_string l4 = Some p ->
     scan_line st line = Ok (Scan.set_a0 (Some (p * bohr2angs)%float) st)) /\
  (forall header h0 h1 hrest r1 r2 r3 a a11 a12 a13 a21 a22 a23 a31 a32 a33,
     split (rstrip header) = h0 :: h1 :: hrest ->
     lower h0 = "crystal" -> lower h1 = "axes:" ->
     axis_row r1 a11 a12 a13 -> axis_row r2 a21 a22 a23 ->
     axis_row r3 a31 a32 a33 ->
     Scan.i st = 0%Z -> Scan.a0 st = Some a ->
     exists st',
       scan_lines [header; r1; r2; r3] st = Ok st' /\
       Out.v1 (collect st') = [a11 * a; a12 * a; a13 * a]%float /\
       Out.v2 (collect st') = [a21 * a; a22 * a; a23 * a]%float /\
       Out.v3 (collect st') = [a31 * a; a32 * a; a33 * a]%float /\
       Scan.a0 st' = Some a /\ Scan.nextcellpar st' = false).
Proof.
  split.
  - intros line l0 l1 l2 l3 l4 rest p. apply scan_line_lattice.
  - intros header h0 h1 hrest r1 r2 r3 a a11 a12 a13 a21 a22 a23 a31 a32 a33
      Hh H0 H1 R1 R2 R3 Hi Ha.
    cbn [scan_lines].
    rewrite (scan_line_axes_header _ _ _ _ _ Hh H0 H1). cbn [bind].
    destruct st. cbn in Hi, Ha. subst.
    rewrite (scan_line_axis_row _ _ _ _ _ R1) by reflexivity. cbn.
    rewrite (scan_line_axis_row _ _ _ _ _ R2) by reflexivity. cbn.
    rewrite (scan_line_axis_row _ _ _ _ _ R3) by reflexivity. cbn.
    eexists. repeat split.
Qed.

End LogScanner.

(** C5, as stated, fails: with [lattice parameter = 2.0] the first axis
    [1 0 0] is stored as [1 * a0] for [a0 = 2 * 0.529177], and not as
    [1 * a0 * 0.529177]. *)
Lemma crystal_axes_not_scaled_twice :
  exists o a0,
    get_output_info (FT := DecFloat.table) log_one_block false = Ok o /\
    a0 = (2 * bohr2angs)%float /\
    Out.v1 o = [1 * a0; 0 * a0; 0 * a0]%float /\
    Out.v1 o <> [1 * a0 * bohr2angs; 0 * a0 * bohr2angs;
                 0 * a0 * bohr2angs]%float.
Proof.
  eexists. exists (2 * bohr2angs)%float.
  split; [vm_compute; reflexivity|]. split; [reflexivity|].
  split; [vm_compute; reflexivity|].
  intros E.
  apply (f_equal (fun l => match l with
                           | v :: _ => PrimFloat.ltb 1 v
                           | [] => false
                           end)) in E.
  vm_compute in E. discriminate E.
Qed.

Lemma crystal_axes_scaled_by_a0_witness :
  scan_line (FT := DecFloat.table) Scan.init
    "     lattice parameter (alat)  =       2.0000  a.u."
  = Ok (Scan.set_a0 (Some (2 * bohr2angs)%float) Scan.init)
  /\ exists st',
       scan_lines (FT := DecFloat.table)
         ["     crystal axes: (cart. coord. in units of alat)";
          "               a(1) = (   1.000000   0.000000   0.000000 )  ";
          "               a(2) = (   0.000000   1.000000   0.000000 )  ";
          "               a(3) = (   0.000000   0.000000   1.000000 )  "]
         (Scan.set_a0 (Some 4%float) Scan.init) = Ok st' /\
       Out.v1 (collect st') = [1 * 4; 0 * 4; 0 * 4]%float /\
       Out.v2 (collect st') = [0 * 4; 1 * 4; 0 * 4]%float /\
       Out.v3 (collect st') = [0 * 4; 0 * 4; 1 * 4]%float /\
       Scan.a0 st' = Some 4%float /\ Scan.nextcellpar st' = false.
Proof.
  split.
  - refine (proj1 (crystal_axes_scaled_by_a0 (FT := DecFloat.table) Scan.init)
              _ "lattice" "parameter" "(alat)" "=" "2.0000" ["a.u."] 2%float
              _ _ _ _); reflexivity.
  - refine (proj2 (crystal_axes_scaled_by_a0 (FT := DecFloat.table)
                     (Scan.set_a0 (Some 4%float) Scan.init))
              _ "crystal" "axes:" ["(cart."; "coord."; "in"; "units"; "of"; "alat)"]
              _ _ _ 4%float 1 0 0 0 1 0 0 0 1 _ _ _ _ _ _ _ _)%float;
      try reflexivity.
    + exists "a(1)", "(", "1.000000", "0.000000", "0.000000", [")"].
      repeat split; try reflexivity. discriminate.
    + exists "a(2)", "(", "0.000000", "1.000000", "0.000000", [")"].
      repeat split; try reflexivity. discriminate.
    + exists "a(3)", "(", "0.000000", "0.000000", "1.000000", [")"].
      repeat split; try reflexivity. discriminate.
Defined.

(** C4: the failing input. In [log_two_blocks] the crystal axes are printed
    twice. The second header empties [v1], [v2] and [v3], but [i] is 3 by
    then and is never reset, so the three rows match no case and the vectors
    of the last block are not stored: the object ends with empty vectors.
    [nextcellpar] then stays set, and the atom positions and the JOB DONE
    line after the block are not read either. The two energies are appended
    as the claim says. *)
Theorem second_crystal_axes_block_is_dropped :
  exists o,
    get_output_info (FT := DecFloat.table) log_two_blocks false = Ok o /\
    Out.v1 o = [] /\ Out.v2 o = [] /\ Out.v3 o = [] /\
    Out.energy o = [(-1) * ry2ev; (-2) * ry2ev]%float /\
    Out.atom_type o = [] /\ Out.jobdone o = false.
Proof.
  eexists. split; [vm_compute; reflexivity|].
  repeat split; vm_compute; reflexivity.
Qed.

(** ** C10: reading the same deck twice *)

(** Case analysis on the code that produced [H : ... = Ok _]: the test or
    the call that is evaluated first is the one to split on. *)
Ltac first_eval t :=
  lazymatch t with
  | bind ?r _ => first_eval r
  | match ?x with _ => _ end => first_eval x
  | _ => t
  end.

Ltac break H :=
  lazymatch type of H with
  | Ok _ = Ok _ => fail
  | Raise _ = Ok _ => discriminate H
  | ?lhs = Ok _ =>
      let s := first_eval lhs in
      revert H; destruct s eqn:?; cbn [bind]; intro H;
      try discriminate H
  end.

Lemma dict_step_refl d : dict_step d d.
Proof. now left. Qed.

Lemma dict_step_set d k v : dict_step d (dict_set d k v).
Proof. right. eauto. Qed.

Lemma dict_step_incl d d' :
  dict_step d d' -> incl (dict_keys d) (dict_keys d').
Proof.
  intros [-> | (k & v & ->)]; [apply incl_refl|].
  intros k' Hk'. now apply dict_keys_set_incl.
Qed.

Lemma dict_step_nodup d d' :
  dict_step d d' -> NoDup (dict_keys d) -> NoDup (dict_keys d').
Proof.
  intros [-> | (k & v & ->)]; [auto|]. apply dict_set_nodup.
Qed.

Section ReadTwice.
Context {FT : FloatText}.

Lemma read_line_dicts a line a1 :
  read_line a line = Ok a1 -> dicts_step (Rd.self a) (Rd.self a1).
Proof.
  intros H. destruct a as [f1 f2 f3 f4 f5 f6 f7 f8 f9 j nk s]. destruct s.
  unfold read_line, read_vector in H. cbv zeta in H.
  unfold Rd.upd in H. cbn in H.
  repeat break H.
  all: cbn in H; injection H as <-; unfold dicts_step; cbn.
  all: repeat match goal with |- _ /\ _ => split end.
  all: first [apply dict_step_refl | apply dict_step_set].
Qed.

Lemma dict_sim_get df da db k v :
  dict_sim df da db -> getitem da k = Ok v -> getitem db k = Ok v.
Proof.
  intros [_ Hg]. unfold getitem.
  destruct (dict_get da k) as [v'|] eqn:E; [|discriminate].
  intros [= ->]. now rewrite (Hg _ _ E).
Qed.

Lemma dict_sim_set df da db k v :
  dict_sim df da db -> In k (dict_keys df) ->
  dict_sim df (dict_set da k v) (dict_set db k v).
Proof.
  intros [Hk Hg] Hin. split.
  - rewrite dict_keys_set_in; [exact Hk | now rewrite Hk].
  - intros k' v'. destruct (string_dec k' k) as [-> | Hne].
    + now rewrite !dict_get_set_same.
    + rewrite !dict_get_set_other by assumption. apply Hg.
Qed.

(** Redoes on the second run the steps recorded for the first one. *)
Ltac replay :=
  repeat first
    [ progress cbn [bind]
    | match goal with
      | Ds : dict_sim _ ?da ?db, E : getitem ?da ?k = Ok ?v
        |- context [getitem ?db ?k] =>
          rewrite (dict_sim_get _ _ _ _ _ Ds E)
      | E : ?x = _ |- context [?x] => rewrite E
      end ].

Lemma sim_step f a b line a1 :
  sim f a b -> read_line a line = Ok a1 -> dicts_incl (Rd.self a1) f ->
  exists b1, read_line b line = Ok b1 /\ sim f a1 b1.
Proof.
  intros Hsim H Hincl.
  destruct a as [f1 f2 f3 f4 f5 f6 f7 f8 f9 j nk s]. destruct s.
  destruct b as [g1 g2 g3 g4 g5 g6 g7 g8 g9 j' nk' s']. destruct s'.
  unfold sim in Hsim. cbn in Hsim.
  destruct Hsim as (-> & -> & -> & -> & -> & -> & -> & -> & -> & -> & -> &
    Dc & Ds & De & Di & Dl &
    -> & -> & -> & -> & -> & -> & -> & -> & -> & -> & -> & -> & -> & -> &
    -> & -> & -> & Hk).
  destruct f9; [specialize (Hk eq_refl); subst|clear Hk].
  all: unfold read_line, read_vector in H |- *; cbv zeta in H |- *;
    unfold Rd.upd in H |- *; cbn in H |- *.
  all: repeat break H.
  all: cbn in *.
  all: replay; (eexists; split; [reflexivity|]).
  all: injection H as <-.
  all: unfold dicts_incl in Hincl; cbn in Hincl;
    destruct Hincl as (Ic & Is & Ie & Ii & Il).
  all: unfold sim; cbn.
  all: repeat match goal with |- _ /\ _ => split end.
  all: first
    [ reflexivity | assumption | now rewrite <- app_assoc
    | intros; discriminate | intros; reflexivity
    | apply dict_sim_set;
      [ assumption
      | first [apply Ic | apply Is | apply Ie | apply Ii | apply Il];
        apply dict_keys_set_key ] ].
Qed.

End ReadTwice.

Section ReadTwiceRun.
Context {FT : FloatText}.

Lemma dicts_step_incl c c' : dicts_step c c' -> dicts_incl c c'.
Proof.
  intros (Hc & Hs & He & Hi & Hl).
  repeat split; now apply dict_step_incl.
Qed.

Lemma dicts_step_nodup c c' :
  dicts_step c c' -> dicts_nodup c -> dicts_nodup c'.
Proof.
  intros (Hc & Hs & He & Hi & Hl) (Nc & Ns & Ne & Ni & Nl).
  repeat split; eapply dict_step_nodup; eassumption.
Qed.

Lemma dicts_incl_trans c1 c2 c3 :
  dicts_incl c1 c2 -> dicts_incl c2 c3 -> dicts_incl c1 c3.
Proof.
  intros (Hc & Hs & He & Hi & Hl) (Gc & Gs & Ge & Gi & Gl).
  repeat split; eapply incl_tran; eassumption.
Qed.

Lemma dicts_incl_refl c : dicts_incl c c.
Proof. repeat split; apply incl_refl. Qed.

(** Along a run the dictionaries only gain keys, and keep them distinct. *)
Lemma read_lines_dicts lines a af :
  read_lines lines a = Ok af ->
  dicts_incl (Rd.self a) (Rd.self af) /\
  (dicts_nodup (Rd.self a) -> dicts_nodup (Rd.self af)).
Proof.
  revert a. induction lines as [|line lines IH]; intros a; simpl.
  - intros [= ->]. split; [apply dicts_incl_refl | auto].
  - destruct (read_line a line) as [a1|e] eqn:E; simpl; [|discriminate].
    intros Hrest. destruct (IH _ Hrest) as [Hincl Hnd].
    pose proof (read_line_dicts _ _ _ E) as Hstep. split.
    + eapply dicts_incl_trans; [apply dicts_step_incl; exact Hstep | exact Hincl].
    + intros Ha. apply Hnd. eapply dicts_step_nodup; eassumption.
Qed.

(** The second run follows the first one line by line. *)
Lemma sim_run f lines a b af :
  sim f a b -> read_lines lines a = Ok af -> dicts_incl (Rd.self af) f ->
  exists bf, read_lines lines b = Ok bf /\ sim f af bf.
Proof.
  revert a b. induction lines as [|line lines IH]; intros a b Hsim; simpl.
  - intros [= ->] _. eauto.
  - destruct (read_line a line) as [a1|e] eqn:E; simpl; [|discriminate].
    intros Hrest Hincl.
    destruct (sim_step f a b line a1 Hsim E) as (b1 & Eb & Hsim1).
    { eapply dicts_incl_trans; [|exact Hincl].
      exact (proj1 (read_lines_dicts _ _ _ Hrest)). }
    rewrite Eb. simpl. now apply (IH a1 b1).
Qed.

Lemma dict_sim_eq d d' :
  NoDup (dict_keys d) -> dict_sim d d d' -> d' = d.
Proof.
  intros Hnd [Hk Hg]. revert d' Hk Hg.
  induction d as [|[k v] d IH]; intros [|[k' v'] d'] Hk Hg;
    try discriminate; [reflexivity|].
  simpl in Hk. injection Hk as -> Hk.
  inversion Hnd as [|? ? Hnin Hnd']; subst.
  pose proof (Hg k v) as Hkv. simpl in Hkv. rewrite String.eqb_refl in Hkv.
  specialize (Hkv eq_refl). injection Hkv as ->.
  f_equal. apply IH; auto.
  intros k0 v0 H0.
  assert (Hne : k0 <> k).
  { intros ->. apply Hnin. apply dict_get_in. congruence. }
  specialize (Hg k0 v0). simpl in Hg.
  apply String.eqb_neq in Hne. rewrite Hne in Hg. now apply Hg.
Qed.

Lemma sim_init f : sim f (Rd.init Calc.init) (Rd.init f).
Proof.
  unfold sim. cbn. rewrite !List.app_nil_r.
  repeat match goal with |- _ /\ _ => split end;
    first [ reflexivity
          | intros; discriminate
          | split; [reflexivity | intros; discriminate] ].
Qed.

(** C10. When [read_input] completes on the object that [calc()]
    constructs and leaves [once], a second [read_input] of the same text on
    that object completes too and leaves [twice]: every list of [twice] is
    that of [once] written twice, so [atomic_species], [atom_type], [x], [y],
    [z], [v1], [v2] and [v3] are twice as long, and the five namelist
    dictionaries are those of [once]. *)
Theorem read_input_twice_appends (text : string) (once : Calc.calc) :
  read_input text Calc.init = Ok once ->
  exists twice,
    read_input text once = Ok twice /\
    Calc.atomic_species twice
      = (Calc.atomic_species once ++ Calc.atomic_species once)%list /\
    Calc.atom_type twice
      = (Calc.atom_type once ++ Calc.atom_type once)%list /\
    Calc.x twice = (Calc.x once ++ Calc.x once)%list /\
    Calc.y twice = (Calc.y once ++ Calc.y once)%list /\
    Calc.z twice = (Calc.z once ++ Calc.z once)%list /\
    Calc.v1 twice = (Calc.v1 once ++ Calc.v1 once)%list /\
    Calc.v2 twice = (Calc.v2 once ++ Calc.v2 once)%list /\
    Calc.v3 twice = (Calc.v3 once ++ Calc.v3 once)%list /\
    (length (Calc.atomic_species twice)
       = 2 * length (Calc.atomic_species once) /\
     length (Calc.atom_type twice) = 2 * length (Calc.atom_type once) /\
     length (Calc.x twice) = 2 * length (Calc.x once) /\
     length (Calc.y twice) = 2 * length (Calc.y once) /\
     length (Calc.z twice) = 2 * length (Calc.z once) /\
     length (Calc.v1 twice) = 2 * length (Calc.v1 once) /\
     length (Calc.v2 twice) = 2 * length (Calc.v2 once) /\
     length (Calc.v3 twice) = 2 * length (Calc.v3 once))%nat /\
    Calc.control twice = Calc.control once /\
    Calc.system twice = Calc.system once /\
    Calc.electrons twice = Calc.electrons once /\
    Calc.ions twice = Calc.ions once /\
    Calc.cell twice = Calc.cell once.
Proof.
  unfold read_input. intros H.
  destruct (read_lines _ (Rd.init Calc.init)) as [af|e] eqn:Ea;
    [|discriminate].
  simpl in H. injection H as <-.
  destruct (read_lines_dicts _ _ _ Ea) as [_ Hnd].
  assert (Nd : dicts_nodup (Rd.self af)).
  { apply Hnd. repeat split; constructor. }
  destruct (sim_run (Rd.self af) _ _ (Rd.init (Rd.self af)) af
              (sim_init _) Ea (dicts_incl_refl _)) as (bf & Eb & Hsim).
  rewrite Eb. simpl. exists (Rd.self bf). split; [reflexivity|].
  destruct Nd as (Nc & Ns & Ne & Ni & Nl).
  destruct Hsim as (_ & _ & _ & _ & _ & _ & _ & _ & _ & _ & _ &
    Dc & Ds & De & Di & Dl &
    Lsp & _ & _ & Lat & Lx & Ly & Lz & _ & _ & _ & _ & _ & _ & _ &
    Lv1 & Lv2 & Lv3 & _).
  rewrite Lsp, Lat, Lx, Ly, Lz, Lv1, Lv2, Lv3, !length_app.
  repeat match goal with |- _ /\ _ => split end;
    try reflexivity; try lia; now apply dict_sim_eq.
Qed.

End ReadTwiceRun.

Lemma read_input_twice_appends_witness :
  exists once twice,
    read_input (FT := DecFloat.table) deck_full_text Calc.init = Ok once /\
    read_input (FT := DecFloat.table) deck_full_text once = Ok twice /\
    Calc.atom_type once = ["H"; "H"] /\
    Calc.atom_type twice = ["H"; "H"; "H"; "H"] /\
    length (Calc.v1 once) = 3%nat /\ length (Calc.v1 twice) = 6%nat /\
    Calc.system twice = Calc.system once.
Proof.
  destruct (read_input (FT := DecFloat.table) deck_full_text Calc.init)
    as [once|e] eqn:E; [|vm_compute in E; discriminate E].
  destruct (read_input_twice_appends deck_full_text once E)
    as (twice & E2 & Hsp & Hat & Hx & Hy & Hz & H1 & H2 & H3 & Hlen &
        Hc & Hs & He & Hi & Hl).
  exists once, twice. split; [reflexivity|]. split; [exact E2|].
  vm_compute in E. injection E as <-.
  rewrite Hat, H1. repeat split; try reflexivity. exact Hs.
Defined.

(** * The round trip of a deck *)

(** ** Splitting a line into tokens *)

Lemma split_from_token t cur s :
  no_space t = true -> split_from cur (t ++ s) = split_from (cur ++ t) s.
Proof.
  revert cur. induction t as [|c t IH]; intros cur Ht; simpl.
  - now rewrite append_nil_r.
  - unfold no_space in Ht. simpl in Ht.
    apply andb_true_iff in Ht as [Hc Ht]. apply negb_true_iff in Hc.
    rewrite Hc, IH by exact Ht. now rewrite append_snoc.
Qed.

Lemma split_from_spaces_nil w s :
  all_space w = true -> split_from "" (w ++ s) = split_from "" s.
Proof.
  induction w as [|c w IH]; intros Hw; simpl; [reflexivity|].
  unfold all_space in Hw. simpl in Hw.
  apply andb_true_iff in Hw as [Hc Hw]. rewrite Hc. now apply IH.
Qed.

Lemma split_from_spaces w cur s :
  all_space w = true -> w <> "" -> cur <> "" ->
  split_from cur (w ++ s) = cur :: split_from "" s.
Proof.
  intros Hw Hne Hcur. destruct w as [|c w]; [congruence|].
  unfold all_space in Hw. simpl in Hw.
  apply andb_true_iff in Hw as [Hc Hw]. simpl. rewrite Hc.
  destruct cur; [congruence|]. f_equal. now apply split_from_spaces_nil.
Qed.

Lemma is_token_nonempty t : is_token t = true -> t <> "".
Proof.
  unfold is_token. rewrite andb_true_iff, negb_true_iff.
  intros [_ H]. now apply String.eqb_neq.
Qed.

Lemma is_token_no_space t : is_token t = true -> no_space t = true.
Proof. unfold is_token. rewrite andb_true_iff. tauto. Qed.

(** [split] returns the tokens of a line written token by token. *)
Lemma split_spaced ts :
  Forall (fun tw => is_token (fst tw) = true /\ all_space (snd tw) = true
                    /\ snd tw <> "") ts ->
  split (spaced ts) = map fst ts.
Proof.
  unfold split. induction 1 as [|[t w] ts (Ht & Hw & Hne) _ IH]; simpl.
  - reflexivity.
  - simpl in Ht, Hw, Hne.
    rewrite split_from_token by now apply is_token_no_space.
    simpl. rewrite split_from_spaces; auto using is_token_nonempty.
    now rewrite IH.
Qed.

Lemma no_space_app a b : no_space (a ++ b) = no_space a && no_space b.
Proof. apply string_forall_app. Qed.

Lemma is_token_app_r a b :
  no_space a = true -> is_token b = true -> is_token (a ++ b) = true.
Proof.
  unfold is_token. rewrite !andb_true_iff, !negb_true_iff, no_space_app.
  intros Ha [Hb Hne]. split; [now rewrite Ha, Hb|].
  apply String.eqb_neq. apply String.eqb_neq in Hne.
  destruct a; simpl; [assumption | discriminate].
Qed.

Lemma is_label_token s : is_label s = true -> is_token s = true.
Proof. unfold is_label. rewrite andb_true_iff. tauto. Qed.

Lemma is_label_keyword s : is_label s = true -> is_keyword s = false.
Proof. unfold is_label. rewrite andb_true_iff, negb_true_iff. tauto. Qed.

Lemma replace_comma_value v :
  no_comma v = true -> replace_comma (v ++ ",") = v.
Proof.
  induction v as [|c v IH]; simpl; [reflexivity|].
  unfold no_comma. simpl. rewrite andb_true_iff, negb_true_iff.
  intros [-> Hv]. now rewrite IH.
Qed.

(** ** Decimal integers as tokens *)

Lemma digits_token r : string_forall is_digit r = true -> no_space r = true.
Proof. apply digits_no_space. Qed.

Lemma str_int_token n : is_token (str_int n) = true.
Proof.
  destruct (str_int_shape n) as (c & r & -> & Hc & Hr).
  unfold is_token, no_space. simpl.
  rewrite (digits_no_space _ Hr), andb_true_r.
  destruct Hc as [Hc | ->]; [|reflexivity].
  now rewrite (is_digit_not_space _ Hc).
Qed.

Lemma is_digit_lower c : is_digit c = true -> lower_char c = c.
Proof.
  unfold is_digit, lower_char. cbv zeta.
  rewrite andb_true_iff, !Nat.leb_le. intros [H1 H2].
  destruct (65 <=? nat_of_ascii c)%nat eqn:E; [|reflexivity].
  apply Nat.leb_le in E. lia.
Qed.

Lemma str_int_label n : is_label (str_int n) = true.
Proof.
  unfold is_label. rewrite str_int_token. simpl.
  destruct (str_int_shape n) as (c & r & -> & Hc & _).
  unfold is_keyword. cbv zeta. simpl lower.
  assert (Hl : lower_char c = c).
  { destruct Hc as [Hc | ->]; [now apply is_digit_lower | reflexivity]. }
  rewrite Hl.
  assert (Ha : (c =? "&")%char = false /\ (c =? "c")%char = false /\
               (c =? "a")%char = false /\ (c =? "k")%char = false).
  { destruct Hc as [Hc | ->]; [|repeat split; reflexivity].
    repeat split; apply Ascii.eqb_neq; intros ->; discriminate. }
  destruct Ha as (H1 & H2 & H3 & H4).
  simpl. now rewrite H1, H2, H3, H4.
Qed.

(** ** The lines of a text *)

Lemma concat_cons x l : String.concat "" (x :: l) = x ++ String.concat "" l.
Proof. destruct l; simpl; [now rewrite append_nil_r | reflexivity]. Qed.

Lemma concat_app l1 l2 :
  String.concat "" (l1 ++ l2) = String.concat "" l1 ++ String.concat "" l2.
Proof.
  induction l1 as [|x l1 IH]; [reflexivity|].
  rewrite <- app_comm_cons, !concat_cons, IH. now rewrite append_assoc.
Qed.

Lemma plain_app a b : plain (a ++ b) = plain a && plain b.
Proof. apply string_forall_app. Qed.

Lemma no_space_plain s : no_space s = true -> plain s = true.
Proof.
  apply string_forall_impl. intros c Hc.
  destruct (c =? LF)%char eqn:E1.
  - apply Ascii.eqb_eq in E1. subst. discriminate.
  - destruct (c =? CR)%char eqn:E2; [|reflexivity].
    apply Ascii.eqb_eq in E2. subst. discriminate.
Qed.

Lemma readlines_from_body body cur rest :
  plain body = true ->
  readlines_from cur (body ++ NL ++ rest)
  = (cur ++ body ++ NL) :: readlines_from "" rest.
Proof.
  revert cur. induction body as [|c body IH]; intros cur Hb; simpl.
  - reflexivity.
  - unfold plain in Hb. simpl in Hb.
    rewrite !andb_true_iff, !negb_true_iff in Hb. destruct Hb as [[Hc _] Hb].
    rewrite Hc, IH by exact Hb. now rewrite append_snoc.
Qed.

Lemma readlines_text bodies :
  Forall (fun b => plain b = true) bodies ->
  readlines (text_of_lines bodies) = with_nl bodies.
Proof.
  unfold readlines, text_of_lines, with_nl.
  induction 1 as [|b bodies Hb _ IH]; [reflexivity|].
  cbn [map]. rewrite concat_cons, append_assoc, readlines_from_body by exact Hb.
  now rewrite IH.
Qed.

Lemma universal_newlines_no_cr s :
  string_forall (fun c => negb (c =? CR)%char) s = true ->
  universal_newlines s = s.
Proof.
  induction s as [|c s IH]; simpl; [reflexivity|].
  rewrite andb_true_iff, negb_true_iff. intros [-> Hs]. now rewrite IH.
Qed.

Lemma text_no_cr bodies :
  Forall (fun b => plain b = true) bodies ->
  string_forall (fun c => negb (c =? CR)%char) (text_of_lines bodies) = true.
Proof.
  unfold text_of_lines. induction 1 as [|b bodies Hb _ IH]; [reflexivity|].
  cbn [map]. rewrite concat_cons, !string_forall_app, IH.
  rewrite andb_true_r. simpl. rewrite andb_true_r.
  revert Hb. apply string_forall_impl. intros c.
  rewrite andb_true_iff. tauto.
Qed.

(** The lines that [read_input] sees are the lines that were written. *)
Lemma file_lines_text bodies :
  Forall (fun b => plain b = true) bodies ->
  file_lines (text_of_lines bodies) = with_nl bodies.
Proof.
  intros Hb. unfold file_lines.
  rewrite universal_newlines_no_cr by now apply text_no_cr.
  now apply readlines_text.
Qed.

(** ** Dictionaries rebuilt entry by entry *)

Lemma dict_extend_app d0 d :
  NoDup (dict_keys (d0 ++ d)%list) -> dict_extend d0 d = (d0 ++ d)%list.
Proof.
  unfold dict_extend. revert d0.
  induction d as [|[k v] d IH]; intros d0 Hnd; simpl.
  - now rewrite List.app_nil_r.
  - assert (Hnin : ~ In k (dict_keys d0)).
    { unfold dict_keys in *. rewrite map_app in Hnd. simpl in Hnd.
      apply NoDup_remove_2 in Hnd. intros Hin. apply Hnd.
      apply in_or_app. now left. }
    rewrite dict_keys_set_new by exact Hnin.
    rewrite IH; rewrite <- app_assoc; [reflexivity | exact Hnd].
Qed.

Lemma dict_extend_nil d : NoDup (dict_keys d) -> dict_extend [] d = d.
Proof. intros Hnd. now rewrite dict_extend_app. Qed.

(** ** The text that the serializer writes *)

(** Brings nested appends to one shape. *)
Ltac norm_append :=
  repeat first [rewrite append_assoc | progress cbn [append]].

Lemma concat_nil : String.concat "" [] = "".
Proof. reflexivity. Qed.

(** Both sides are the same lines: flattens the lists and the appends. *)
Ltac deck_text :=
  unfold with_nl;
  repeat first
    [ rewrite List.map_app | rewrite concat_app | rewrite concat_cons
    | rewrite concat_nil | rewrite append_nil_r | progress cbn [map]
    | rewrite append_assoc | progress cbn [append] ];
  reflexivity.

Section DeckText.
Context {FT : FloatText}.

Lemma emit_namelist_lines d s :
  emit_namelist d s = s ++ String.concat "" (with_nl (map entry_line d)).
Proof.
  revert s. induction d as [|[k v] d IH]; intros s; cbn [emit_namelist].
  - cbn. now rewrite append_nil_r.
  - rewrite IH. unfold with_nl. cbn [map]. rewrite concat_cons.
    unfold entry_line. cbn [fst snd].
    norm_append. reflexivity.
Qed.

Lemma emit_species_line m i row s :
  nth_error (with_nl (map species_line (species_rows m))) i = Some row ->
  emit_species m i s = Ok (s ++ row).
Proof.
  unfold with_nl, species_rows. rewrite !nth_error_map.
  destruct (nth_error _ i) as [[a [w p]]|] eqn:E; [|discriminate].
  intros [= <-].
  apply nth_error_combine in E as [Ha E].
  apply nth_error_combine in E as [Hw Hp].
  unfold emit_species.
  rewrite (item_some _ _ _ Ha), (item_some _ _ _ Hw), (item_some _ _ _ Hp).
  cbn [bind species_line]. norm_append. reflexivity.
Qed.

Lemma emit_atom_line m i row s :
  nth_error (with_nl (atom_lines m)) i = Some row ->
  emit_atom m i s = Ok (s ++ row).
Proof.
  unfold with_nl, atom_lines, emit_atom.
  destruct (length (Calc.if_pos1 m) =? 0)%nat.
  - unfold atom_rows. rewrite !nth_error_map.
    destruct (nth_error _ i) as [[t [xi [yi zi]]]|] eqn:E; [|discriminate].
    intros [= <-].
    apply nth_error_combine in E as [Ht E].
    apply nth_error_combine in E as [Hx E].
    apply nth_error_combine in E as [Hy Hz].
    rewrite (item_some _ _ _ Ht), (item_some _ _ _ Hx), (item_some _ _ _ Hy),
      (item_some _ _ _ Hz).
    cbn [bind atom_line]. norm_append. reflexivity.
  - unfold atom_rows, flag_rows. rewrite !nth_error_map.
    destruct (nth_error _ i) as [[[t [xi [yi zi]]] [p1 [p2 p3]]]|] eqn:E;
      [|discriminate].
    intros [= <-].
    apply nth_error_combine in E as [E F].
    apply nth_error_combine in E as [Ht E].
    apply nth_error_combine in E as [Hx E].
    apply nth_error_combine in E as [Hy Hz].
    apply nth_error_combine in F as [H1 F].
    apply nth_error_combine in F as [H2 H3].
    rewrite (item_some _ _ _ Ht), (item_some _ _ _ Hx), (item_some _ _ _ Hy),
      (item_some _ _ _ Hz), (item_some _ _ _ H1), (item_some _ _ _ H2),
      (item_some _ _ _ H3).
    cbn [bind atom_line flags_line fst snd]. norm_append. reflexivity.
Qed.

Lemma emit_vector_line v s :
  length v = 3%nat ->
  emit_vector v s = Ok (s ++ String.concat "" (with_nl (vector_lines v))).
Proof.
  destruct v as [|a [|b [|c [|d v]]]]; try discriminate. intros _.
  unfold emit_vector, item, vector_lines, vector_line, with_nl.
  cbn [nth_error bind map String.concat]. norm_append. reflexivity.
Qed.

Lemma species_rows_length m :
  length (Calc.atomic_mass m) = length (Calc.atomic_species m) ->
  length (Calc.pseudopotential m) = length (Calc.atomic_species m) ->
  length (species_rows m) = length (Calc.atomic_species m).
Proof. intros Hw Hp. unfold species_rows. rewrite !length_combine. lia. Qed.

Lemma atom_rows_length m :
  length (Calc.x m) = length (Calc.atom_type m) ->
  length (Calc.y m) = length (Calc.atom_type m) ->
  length (Calc.z m) = length (Calc.atom_type m) ->
  length (atom_rows m) = length (Calc.atom_type m).
Proof.
  intros Hx Hy Hz. unfold atom_rows. rewrite !length_combine. lia.
Qed.

Lemma atom_lines_length m :
  deck_ok m -> length (atom_lines m) = length (Calc.atom_type m).
Proof.
  intros Hok. destruct (ok_atoms m Hok) as (_ & Hx & Hy & Hz & _).
  pose proof (atom_rows_length m Hx Hy Hz) as Hr.
  unfold atom_lines.
  destruct (length (Calc.if_pos1 m) =? 0)%nat eqn:E; rewrite length_map.
  - exact Hr.
  - rewrite length_combine, Hr. unfold flag_rows. rewrite !length_combine.
    destruct (ok_flags m Hok) as [(H1 & _) | (H1 & H2 & H3)].
    + rewrite H1 in E. discriminate.
    + lia.
Qed.

Lemma with_nl_app a b : with_nl (a ++ b) = (with_nl a ++ with_nl b)%list.
Proof. apply map_app. Qed.

(** The text of a well-formed deck is its lines, one after the other. *)
Lemma build_text_bodies m c s n :
  deck_ok m ->
  dict_get (Calc.control m) "calculation" = Some c ->
  dict_get (Calc.system m) "ibrav" = Some s -> py_int s = Some n ->
  build_text m = Ok (text_of_lines (deck_bodies m c n)).
Proof.
  intros Hok Hc Hs Hn.
  destruct (ok_species m Hok) as (_ & Hlw & Hlp & _).
  destruct (ok_ibrav m Hok) as (s' & n' & Hs' & Hn' & Hv0 & _).
  rewrite Hs in Hs'. injection Hs' as <-.
  rewrite Hn in Hn'. injection Hn' as <-.
  assert (Hk : Calc.k_points_type m = "gamma"
               \/ Calc.k_points_type m = "automatic").
  { destruct (ok_k_points m Hok) as [(-> & _) | (-> & _)]; auto. }
  unfold build_text, getitem, int. rewrite Hc, Hs. cbn [bind]. rewrite Hn.
  cbn [bind]. rewrite !emit_namelist_lines.
  rewrite (for_range_rows (with_nl (map species_line (species_rows m)))
             (emit_species m)).
  2:{ unfold with_nl. now rewrite !length_map, species_rows_length. }
  2:{ intros i row s0. apply emit_species_line. }
  cbn [bind].
  unfold text_of_lines, deck_bodies, namelist_lines, is_vc, grid_line.
  assert (Hatoms :
    forall s0, for_range (length (Calc.atom_type m)) (emit_atom m) s0
               = Ok (s0 ++ String.concat "" (with_nl (atom_lines m)))).
  { apply for_range_rows.
    - unfold with_nl. now rewrite length_map, atom_lines_length.
    - intros i row s0. apply emit_atom_line. }
  destruct (n =? 0)%Z eqn:E0.
  - apply Z.eqb_eq in E0. destruct (Hv0 E0) as (L1 & L2 & L3).
    rewrite (emit_vector_line _ _ L1). cbn [bind].
    rewrite (emit_vector_line _ _ L2). cbn [bind].
    rewrite (emit_vector_line _ _ L3). cbn [bind].
    rewrite Hatoms. cbn [bind].
    destruct ((c =? "'vc-relax'") || (c =? "'vc-md'"));
      destruct Hk as [Hk | Hk]; rewrite Hk;
      [ change ("gamma" =? "gamma") with true;
        change ("gamma" =? "automatic") with false
      | change ("automatic" =? "gamma") with false;
        change ("automatic" =? "automatic") with true
      | change ("gamma" =? "gamma") with true;
        change ("gamma" =? "automatic") with false
      | change ("automatic" =? "gamma") with false;
        change ("automatic" =? "automatic") with true ];
      cbn [negb]; f_equal; deck_text.
  - cbn [bind]. rewrite Hatoms. cbn [bind].
    destruct ((c =? "'vc-relax'") || (c =? "'vc-md'"));
      destruct Hk as [Hk | Hk]; rewrite Hk;
      [ change ("gamma" =? "gamma") with true;
        change ("gamma" =? "automatic") with false
      | change ("automatic" =? "gamma") with false;
        change ("automatic" =? "automatic") with true
      | change ("gamma" =? "gamma") with true;
        change ("gamma" =? "automatic") with false
      | change ("automatic" =? "gamma") with false;
        change ("automatic" =? "automatic") with true ];
      cbn [negb]; f_equal; deck_text.
Qed.

End DeckText.

(** ** The tokens of each kind of line *)

(** Shows a line to be [spaced ts], and its tokens to be those of [ts]. *)
Ltac split_as ts :=
  match goal with
  | |- split ?line = _ =>
      replace line with (spaced ts) by (cbn [spaced]; deck_text);
      rewrite split_spaced; [reflexivity|];
      repeat constructor; cbn [fst snd]; try assumption; try discriminate
  end.

Lemma is_key_label k : is_key k = true -> is_label k = true.
Proof. unfold is_key. rewrite andb_true_iff. tauto. Qed.

Lemma is_key_open k : is_key k = true -> (k =? "/") = false.
Proof. unfold is_key. rewrite andb_true_iff, negb_true_iff. tauto. Qed.

Lemma is_value_token v : is_value v = true -> is_token (v ++ ",") = true.
Proof.
  unfold is_value. rewrite andb_true_iff. intros [Hv _].
  now apply is_token_app_r.
Qed.

Section LineTokens.
Context {FT : FloatText}.

Lemma split_entry k v :
  is_key k = true -> is_value v = true ->
  split (entry_line (k, v) ++ NL) = [k; "="; v ++ ","].
Proof.
  intros Hk Hv. apply is_key_label, is_label_token in Hk.
  apply is_value_token in Hv. unfold entry_line. cbn [fst snd].
  split_as [(k, " "); ("=", " "); (v ++ ",", NL)].
Qed.

Lemma split_species a w p :
  is_token a = true -> is_token w = true -> is_token p = true ->
  split (species_line (a, (w, p)) ++ NL) = [a; w; p].
Proof.
  intros Ha Hw Hp. unfold species_line.
  split_as [(a, "   "); (w, "   "); (p, NL)].
Qed.

Lemma split_vector a b c :
  is_token (str_float a) = true -> is_token (str_float b) = true ->
  is_token (str_float c) = true ->
  split (vector_line a b c ++ NL) = [str_float a; str_float b; str_float c].
Proof.
  intros Ha Hb Hc. unfold vector_line.
  split_as [(str_float a, "   "); (str_float b, "   "); (str_float c, NL)].
Qed.

Lemma split_atom t xi yi zi :
  is_token t = true -> is_token (str_float xi) = true ->
  is_token (str_float yi) = true -> is_token (str_float zi) = true ->
  split (atom_line (t, (xi, (yi, zi))) ++ NL)
  = [t; str_float xi; str_float yi; str_float zi].
Proof.
  intros Ht Hx Hy Hz. unfold atom_line.
  split_as [(t, "   "); (str_float xi, "   "); (str_float yi, "   ");
            (str_float zi, NL)].
Qed.

Lemma split_atom_flags t xi yi zi p1 p2 p3 :
  is_token t = true -> is_token (str_float xi) = true ->
  is_token (str_float yi) = true -> is_token (str_float zi) = true ->
  split ((atom_line (t, (xi, (yi, zi))) ++ flags_line (p1, (p2, p3))) ++ NL)
  = [t; str_float xi; str_float yi; str_float zi;
     str_int p1; str_int p2; str_int p3].
Proof.
  intros Ht Hx Hy Hz. unfold atom_line, flags_line.
  pose proof (str_int_token p1). pose proof (str_int_token p2).
  pose proof (str_int_token p3).
  split_as [(t, "   "); (str_float xi, "   "); (str_float yi, "   ");
            (str_float zi, "   "); (str_int p1, "   "); (str_int p2, "   ");
            (str_int p3, NL)].
Qed.

Lemma split_grid n1 n2 n3 s1 s2 s3 :
  split ((str_int n1 ++ "   " ++ str_int n2 ++ "   " ++ str_int n3 ++ "   "
            ++ str_int s1 ++ "   " ++ str_int s2 ++ "   " ++ str_int s3)
         ++ NL)
  = [str_int n1; str_int n2; str_int n3; str_int s1; str_int s2; str_int s3].
Proof.
  pose proof (str_int_token n1). pose proof (str_int_token n2).
  pose proof (str_int_token n3). pose proof (str_int_token s1).
  pose proof (str_int_token s2). pose proof (str_int_token s3).
  split_as [(str_int n1, "   "); (str_int n2, "   "); (str_int n3, "   ");
            (str_int s1, "   "); (str_int s2, "   "); (str_int s3, NL)].
Qed.

(** A card header and its unit: one token when the unit is empty. *)
Lemma split_header t u :
  is_token t = true -> no_space u = true ->
  split ((t ++ " " ++ u) ++ NL) = if u =? "" then [t] else [t; u].
Proof.
  intros Ht Hu. destruct (u =? "") eqn:E.
  - apply String.eqb_eq in E. subst u.
    split_as [(t, String " " NL)].
  - assert (Hu' : is_token u = true).
    { unfold is_token. now rewrite Hu, E. }
    split_as [(t, " "); (u, NL)].
Qed.

End LineTokens.

(** ** Reading back the namelists *)

Lemma is_value_no_comma v : is_value v = true -> no_comma v = true.
Proof. unfold is_value. rewrite andb_true_iff. tauto. Qed.

(** One [key = value,] line read inside a namelist. *)
Ltac entry_step Hk Hv :=
  unfold read_line; rewrite (split_entry _ _ Hk Hv); cbv zeta;
  cbn [item nth_error bind];
  let Hkw := fresh "Hkw" in
  pose proof (is_label_keyword _ (is_key_label _ Hk)) as Hkw;
  not_keyword Hkw;
  repeat match goal with
         | Hx : (_ =? _) = false |- _ => rewrite Hx; clear Hx
         end;
  rewrite (is_key_open _ Hk),
    (replace_comma_value _ (is_value_no_comma _ Hv));
  reflexivity.

(** The entries of a namelist read one after the other. *)
Ltac entries_loop step :=
  let d := fresh "d" in let IH := fresh "IH" in
  let self := fresh "self" in let Hd := fresh "Hd" in
  intros d; induction d as [|[? ?] d IH]; intros ? self Hd;
  [ destruct self; reflexivity
  | inversion Hd as [|? ? [? ?] ?]; subst;
    unfold with_nl; cbn [map read_lines]; rewrite step by assumption;
    cbn [bind]; fold (with_nl (map entry_line d));
    rewrite IH by assumption; reflexivity ].

Section ReadNamelists.
Context {FT : FloatText}.

Lemma read_control_entry k v nk self :
  is_key k = true -> is_value v = true ->
  read_line (Rd.set_iscontrol true (idle nk self)) (entry_line (k, v) ++ NL)
  = Ok (Rd.set_iscontrol true
          (idle nk (Calc.set_control (dict_set (Calc.control self) k v) self))).
Proof. intros Hk Hv. entry_step Hk Hv. Qed.

Lemma read_system_entry k v nk self :
  is_key k = true -> is_value v = true ->
  read_line (Rd.set_issystem true (idle nk self)) (entry_line (k, v) ++ NL)
  = Ok (Rd.set_issystem true
          (idle nk (Calc.set_system (dict_set (Calc.system self) k v) self))).
Proof. intros Hk Hv. entry_step Hk Hv. Qed.

Lemma read_electrons_entry k v nk self :
  is_key k = true -> is_value v = true ->
  read_line (Rd.set_iselectrons true (idle nk self)) (entry_line (k, v) ++ NL)
  = Ok (Rd.set_iselectrons true
          (idle nk (Calc.set_electrons
                      (dict_set (Calc.electrons self) k v) self))).
Proof. intros Hk Hv. entry_step Hk Hv. Qed.

Lemma read_ions_entry k v nk self :
  is_key k = true -> is_value v = true ->
  read_line (Rd.set_isions true (idle nk self)) (entry_line (k, v) ++ NL)
  = Ok (Rd.set_isions true
          (idle nk (Calc.set_ions (dict_set (Calc.ions self) k v) self))).
Proof. intros Hk Hv. entry_step Hk Hv. Qed.

Lemma read_cell_entry k v nk self :
  is_key k = true -> is_value v = true ->
  read_line (Rd.set_iscell true (idle nk self)) (entry_line (k, v) ++ NL)
  = Ok (Rd.set_iscell true
          (idle nk (Calc.set_cell (dict_set (Calc.cell self) k v) self))).
Proof. intros Hk Hv. entry_step Hk Hv. Qed.

Lemma read_control_entries : forall d nk self,
  Forall entry_ok d ->
  read_lines (with_nl (map entry_line d)) (Rd.set_iscontrol true (idle nk self))
  = Ok (Rd.set_iscontrol true
          (idle nk (Calc.set_control
                      (dict_extend (Calc.control self) d) self))).
Proof. entries_loop read_control_entry. Qed.

Lemma read_system_entries : forall d nk self,
  Forall entry_ok d ->
  read_lines (with_nl (map entry_line d)) (Rd.set_issystem true (idle nk self))
  = Ok (Rd.set_issystem true
          (idle nk (Calc.set_system (dict_extend (Calc.system self) d) self))).
Proof. entries_loop read_system_entry. Qed.

Lemma read_electrons_entries : forall d nk self,
  Forall entry_ok d ->
  read_lines (with_nl (map entry_line d))
    (Rd.set_iselectrons true (idle nk self))
  = Ok (Rd.set_iselectrons true
          (idle nk (Calc.set_electrons
                      (dict_extend (Calc.electrons self) d) self))).
Proof. entries_loop read_electrons_entry. Qed.

Lemma read_ions_entries : forall d nk self,
  Forall entry_ok d ->
  read_lines (with_nl (map entry_line d)) (Rd.set_isions true (idle nk self))
  = Ok (Rd.set_isions true
          (idle nk (Calc.set_ions (dict_extend (Calc.ions self) d) self))).
Proof. entries_loop read_ions_entry. Qed.

Lemma read_cell_entries : forall d nk self,
  Forall entry_ok d ->
  read_lines (with_nl (map entry_line d)) (Rd.set_iscell true (idle nk self))
  = Ok (Rd.set_iscell true
          (idle nk (Calc.set_cell (dict_extend (Calc.cell self) d) self))).
Proof. entries_loop read_cell_entry. Qed.

End ReadNamelists.

(** ** Reading back the cards *)

#[local] Arguments py_int : simpl never.
#[local] Arguments str_int : simpl never.

Lemma add_species_cons r rows self :
  add_species rows (add_species [r] self) = add_species (r :: rows) self.
Proof.
  destruct self. unfold add_species. cbn. now rewrite <- !app_assoc.
Qed.

Lemma add_atoms_cons r rows self :
  add_atoms rows (add_atoms [r] self) = add_atoms (r :: rows) self.
Proof.
  destruct self. unfold add_atoms. cbn. now rewrite <- !app_assoc.
Qed.

Lemma add_flags_atoms_cons r f rows flags self :
  add_flags flags (add_atoms rows (add_flags [f] (add_atoms [r] self)))
  = add_flags (f :: flags) (add_atoms (r :: rows) self).
Proof.
  destruct self. unfold add_flags, add_atoms. cbn. now rewrite <- !app_assoc.
Qed.

(** The cards leave the [system] namelist as it is. *)

Lemma system_set_atom_type v o :
  Calc.system (Calc.set_atom_type v o) = Calc.system o.
Proof. reflexivity. Qed.

Lemma system_set_x v o : Calc.system (Calc.set_x v o) = Calc.system o.
Proof. reflexivity. Qed.

Lemma system_set_y v o : Calc.system (Calc.set_y v o) = Calc.system o.
Proof. reflexivity. Qed.

Lemma system_set_z v o : Calc.system (Calc.set_z v o) = Calc.system o.
Proof. reflexivity. Qed.

Lemma system_set_if_pos1 v o :
  Calc.system (Calc.set_if_pos1 v o) = Calc.system o.
Proof. reflexivity. Qed.

Lemma system_set_if_pos2 v o :
  Calc.system (Calc.set_if_pos2 v o) = Calc.system o.
Proof. reflexivity. Qed.

Lemma system_set_if_pos3 v o :
  Calc.system (Calc.set_if_pos3 v o) = Calc.system o.
Proof. reflexivity. Qed.

Lemma system_set_atomic_species v o :
  Calc.system (Calc.set_atomic_species v o) = Calc.system o.
Proof. reflexivity. Qed.

Lemma system_set_atomic_mass v o :
  Calc.system (Calc.set_atomic_mass v o) = Calc.system o.
Proof. reflexivity. Qed.

Lemma system_set_pseudopotential v o :
  Calc.system (Calc.set_pseudopotential v o) = Calc.system o.
Proof. reflexivity. Qed.

(** Evaluates the tests on the flags, which leaves the branch taken. *)
Ltac flags :=
  lazy [Rd.iscontrol Rd.issystem Rd.iselectrons Rd.isions Rd.iscell
       Rd.iscellparameters Rd.isatomicspecies Rd.isatomicpositions
       Rd.iskpoints Rd.j Rd.nk Rd.self
       Rd.set_iscontrol Rd.set_issystem Rd.set_iselectrons Rd.set_isions
       Rd.set_iscell Rd.set_iscellparameters Rd.set_isatomicspecies
       Rd.set_isatomicpositions Rd.set_iskpoints Rd.set_j Rd.set_nk
       Rd.set_self Rd.upd in_positions in_species in_cell idle].

Lemma locals_ext (a b : Rd.locals) :
  Rd.iscontrol a = Rd.iscontrol b -> Rd.issystem a = Rd.issystem b ->
  Rd.iselectrons a = Rd.iselectrons b -> Rd.isions a = Rd.isions b ->
  Rd.iscell a = Rd.iscell b ->
  Rd.iscellparameters a = Rd.iscellparameters b ->
  Rd.isatomicspecies a = Rd.isatomicspecies b ->
  Rd.isatomicpositions a = Rd.isatomicpositions b ->
  Rd.iskpoints a = Rd.iskpoints b -> Rd.j a = Rd.j b -> Rd.nk a = Rd.nk b ->
  Rd.self a = Rd.self b -> a = b.
Proof. destruct a, b. cbn. intros. subst. reflexivity. Qed.

(** Two states are the same: compares them variable by variable. *)
Ltac same_state :=
  f_equal; apply locals_ext; flags;
  unfold add_flags, add_atoms, add_species; cbn [map fst snd];
  reflexivity.

Section ReadCards.
Context {FT : FloatText}.

Lemma read_species_row a w p j n s nk self :
  species_ok (a, (w, p)) ->
  dict_get (Calc.system self) "ntyp" = Some s -> py_int s = Some n ->
  read_line (in_species j nk self) (species_line (a, (w, p)) ++ NL)
  = Ok (if (j + 1 =? n)%Z then idle nk (add_species [(a, (w, p))] self)
        else in_species (j + 1) nk (add_species [(a, (w, p))] self)).
Proof.
  intros (Ha & Hw & Hp) Hs Hn. cbn [fst snd] in Ha, Hw, Hp.
  unfold read_line.
  rewrite (split_species a w p (is_label_token _ Ha) Hw Hp).
  cbv zeta. cbn [item nth_error bind].
  pose proof (is_label_keyword _ Ha) as Hkw. not_keyword Hkw.
  repeat match goal with
         | Hx : (_ =? _) = false |- _ => rewrite Hx; clear Hx
         end.
  flags.
  rewrite !system_set_pseudopotential, !system_set_atomic_mass,
    !system_set_atomic_species.
  unfold getitem, int. rewrite Hs. cbn [bind]. rewrite Hn. cbn [bind].
  destruct (j + 1 =? n)%Z; same_state.
Qed.

Lemma read_species_rows rows : forall j nk self,
  rows <> [] -> Forall species_ok rows ->
  dict_get (Calc.system self) "ntyp"
  = Some (str_int (j + Z.of_nat (length rows))) ->
  read_lines (with_nl (map species_line rows)) (in_species j nk self)
  = Ok (idle nk (add_species rows self)).
Proof.
  induction rows as [|[a [w p]] rows IH]; intros j nk self Hne Hok Hn;
    [congruence|].
  inversion Hok as [|? ? Hr Hrest]; subst.
  unfold with_nl. cbn [map read_lines].
  rewrite (read_species_row a w p j _ _ nk self Hr Hn (py_int_str_int _)).
  cbn [bind]. fold (with_nl (map species_line rows)).
  destruct rows as [|r rows].
  - replace (j + 1 =? j + Z.of_nat (length [(a, (w, p))]))%Z with true
      by (symmetry; apply Z.eqb_eq; cbn [length]; lia).
    reflexivity.
  - replace (j + 1 =? j + Z.of_nat (length ((a, (w, p)) :: r :: rows)))%Z
      with false by (symmetry; apply Z.eqb_neq; cbn [length]; lia).
    rewrite IH; [now rewrite add_species_cons | discriminate | assumption |].
    unfold add_species.
    rewrite !system_set_pseudopotential, !system_set_atomic_mass,
      !system_set_atomic_species, Hn. do 2 f_equal. cbn [length]. lia.
Qed.

Lemma to_float_ok v : float_ok v -> to_float (str_float v) = Ok v.
Proof. intros [Hv _]. unfold to_float. now rewrite Hv. Qed.

Lemma float_ok_token v : float_ok v -> is_token (str_float v) = true.
Proof. intros [_ Hv]. now apply is_label_token. Qed.

Lemma read_atom_row t xi yi zi j n s nk self :
  atom_ok (t, (xi, (yi, zi))) ->
  dict_get (Calc.system self) "nat" = Some s -> py_int s = Some n ->
  read_line (in_positions j nk self) (atom_line (t, (xi, (yi, zi))) ++ NL)
  = Ok (if (j + 1 =? n)%Z
        then idle nk (add_atoms [(t, (xi, (yi, zi)))] self)
        else in_positions (j + 1) nk (add_atoms [(t, (xi, (yi, zi)))] self)).
Proof.
  intros (Ht & Hx & Hy & Hz) Hs Hn. cbn [fst snd] in Ht, Hx, Hy, Hz.
  unfold read_line.
  rewrite (split_atom t xi yi zi (is_label_token _ Ht) (float_ok_token _ Hx)
             (float_ok_token _ Hy) (float_ok_token _ Hz)).
  cbv zeta. cbn [item nth_error bind].
  pose proof (is_label_keyword _ Ht) as Hkw. not_keyword Hkw.
  repeat match goal with
         | Hx : (_ =? _) = false |- _ => rewrite Hx; clear Hx
         end.
  flags. rewrite !to_float_ok by assumption. cbn [bind length Nat.eqb].
  flags. rewrite !system_set_z, !system_set_y, !system_set_x,
    !system_set_atom_type.
  unfold getitem, int. rewrite Hs. cbn [bind]. rewrite Hn. cbn [bind].
  destruct (j + 1 =? n)%Z; same_state.
Qed.

Lemma read_atom_flags_row t xi yi zi p1 p2 p3 j n s nk self :
  atom_ok (t, (xi, (yi, zi))) ->
  dict_get (Calc.system self) "nat" = Some s -> py_int s = Some n ->
  read_line (in_positions j nk self)
    ((atom_line (t, (xi, (yi, zi))) ++ flags_line (p1, (p2, p3))) ++ NL)
  = Ok (if (j + 1 =? n)%Z
        then idle nk (add_flags [(p1, (p2, p3))]
                        (add_atoms [(t, (xi, (yi, zi)))] self))
        else in_positions (j + 1) nk
               (add_flags [(p1, (p2, p3))]
                  (add_atoms [(t, (xi, (yi, zi)))] self))).
Proof.
  intros (Ht & Hx & Hy & Hz) Hs Hn. cbn [fst snd] in Ht, Hx, Hy, Hz.
  unfold read_line.
  rewrite (split_atom_flags t xi yi zi p1 p2 p3 (is_label_token _ Ht)
             (float_ok_token _ Hx) (float_ok_token _ Hy)
             (float_ok_token _ Hz)).
  cbv zeta. cbn [item nth_error bind].
  pose proof (is_label_keyword _ Ht) as Hkw. not_keyword Hkw.
  repeat match goal with
         | Hx : (_ =? _) = false |- _ => rewrite Hx; clear Hx
         end.
  flags. rewrite !to_float_ok by assumption. cbn [bind length Nat.eqb].
  rewrite !int_str_int. cbn [bind]. flags.
  rewrite !system_set_if_pos3, !system_set_if_pos2, !system_set_if_pos1,
    !system_set_z, !system_set_y, !system_set_x, !system_set_atom_type.
  unfold getitem, int. rewrite Hs. cbn [bind]. rewrite Hn. cbn [bind].
  destruct (j + 1 =? n)%Z; same_state.
Qed.

Lemma read_atom_rows rows : forall j nk self,
  rows <> [] -> Forall atom_ok rows ->
  dict_get (Calc.system self) "nat"
  = Some (str_int (j + Z.of_nat (length rows))) ->
  read_lines (with_nl (map atom_line rows)) (in_positions j nk self)
  = Ok (idle nk (add_atoms rows self)).
Proof.
  induction rows as [|[t [xi [yi zi]]] rows IH]; intros j nk self Hne Hok Hn;
    [congruence|].
  inversion Hok as [|? ? Hr Hrest]; subst.
  unfold with_nl. cbn [map read_lines].
  rewrite (read_atom_row t xi yi zi j _ _ nk self Hr Hn (py_int_str_int _)).
  cbn [bind]. fold (with_nl (map atom_line rows)).
  destruct rows as [|r rows].
  - replace (j + 1 =? j + Z.of_nat (length [(t, (xi, (yi, zi)))]))%Z
      with true by (symmetry; apply Z.eqb_eq; cbn [length]; lia).
    reflexivity.
  - replace (j + 1 =? j + Z.of_nat (length ((t, (xi, (yi, zi))) :: r :: rows)))%Z
      with false by (symmetry; apply Z.eqb_neq; cbn [length]; lia).
    rewrite IH; [now rewrite add_atoms_cons | discriminate | assumption |].
    unfold add_atoms.
    rewrite !system_set_z, !system_set_y, !system_set_x,
      !system_set_atom_type, Hn. do 2 f_equal. cbn [length]. lia.
Qed.

Lemma read_atom_flags_rows rows : forall j nk self,
  rows <> [] -> Forall (fun r => atom_ok (fst r)) rows ->
  dict_get (Calc.system self) "nat"
  = Some (str_int (j + Z.of_nat (length rows))) ->
  read_lines
    (with_nl (map (fun r => atom_line (fst r) ++ flags_line (snd r)) rows))
    (in_positions j nk self)
  = Ok (idle nk (add_flags (map snd rows) (add_atoms (map fst rows) self))).
Proof.
  induction rows as [|[[t [xi [yi zi]]] [p1 [p2 p3]]] rows IH];
    intros j nk self Hne Hok Hn; [congruence|].
  inversion Hok as [|? ? Hr Hrest]; subst. cbn [fst] in Hr.
  unfold with_nl. cbn [map read_lines fst snd].
  rewrite (read_atom_flags_row t xi yi zi p1 p2 p3 j _ _ nk self Hr Hn
             (py_int_str_int _)).
  cbn [bind].
  fold (with_nl (map (fun r => atom_line (fst r) ++ flags_line (snd r)) rows)).
  destruct rows as [|r rows].
  - replace (j + 1 =? j + Z.of_nat (length [(t, (xi, (yi, zi)), (p1, (p2, p3)))]))%Z
      with true by (symmetry; apply Z.eqb_eq; cbn [length]; lia).
    reflexivity.
  - replace (j + 1 =? j + Z.of_nat
               (length ((t, (xi, (yi, zi)), (p1, (p2, p3))) :: r :: rows)))%Z
      with false by (symmetry; apply Z.eqb_neq; cbn [length]; lia).
    rewrite IH; [now rewrite add_flags_atoms_cons | discriminate | assumption |].
    unfold add_atoms, add_flags.
    rewrite !system_set_if_pos3, !system_set_if_pos2, !system_set_if_pos1,
      !system_set_z, !system_set_y, !system_set_x, !system_set_atom_type, Hn. do 2 f_equal. cbn [length]. lia.
Qed.

End ReadCards.

(** ** Reading back the headers and the fixed cards *)

(** Evaluates the comparisons between literals. *)
Ltac eval_eqb :=
  repeat match goal with
  | |- context [String.eqb (String ?a ?x) (String ?b ?y)] =>
      let v := eval vm_compute in (String.eqb (String a x) (String b y)) in
      change (String.eqb (String a x) (String b y)) with v
  end.

(** A line that is a literal, read in a state whose flags are known. *)
Ltac closed_line :=
  unfold read_line;
  match goal with
  | |- context [split ?s] =>
      let v := eval vm_compute in (split s) in change (split s) with v
  end;
  cbv zeta; cbn [item nth_error bind length Nat.eqb];
  eval_lower; eval_eqb; flags; cbn [negb bind]; try same_state.

Section ReadHeaders.
Context {FT : FloatText}.

Lemma read_control_header nk self :
  read_line (idle nk self) ("&CONTROL" ++ NL)
  = Ok (Rd.set_iscontrol true (idle nk self)).
Proof. closed_line. Qed.

Lemma read_system_header nk self :
  read_line (idle nk self) ("&SYSTEM" ++ NL)
  = Ok (Rd.set_issystem true (idle nk self)).
Proof. closed_line. Qed.

Lemma read_electrons_header nk self :
  read_line (idle nk self) ("&ELECTRONS" ++ NL)
  = Ok (Rd.set_iselectrons true (idle nk self)).
Proof. closed_line. Qed.

Lemma read_ions_header nk self :
  read_line (idle nk self) ("&IONS" ++ NL)
  = Ok (Rd.set_isions true (idle nk self)).
Proof. closed_line. Qed.

Lemma read_cell_header nk self :
  read_line (idle nk self) ("&CELL" ++ NL)
  = Ok (Rd.set_iscell true (idle nk self)).
Proof. closed_line. Qed.

Lemma read_control_end nk self :
  read_line (Rd.set_iscontrol true (idle nk self)) ("/" ++ NL)
  = Ok (idle nk self).
Proof. closed_line. Qed.

Lemma read_system_end nk self :
  read_line (Rd.set_issystem true (idle nk self)) ("/" ++ NL)
  = Ok (idle nk self).
Proof. closed_line. Qed.

Lemma read_electrons_end nk self :
  read_line (Rd.set_iselectrons true (idle nk self)) ("/" ++ NL)
  = Ok (idle nk self).
Proof. closed_line. Qed.

Lemma read_ions_end nk self :
  read_line (Rd.set_isions true (idle nk self)) ("/" ++ NL)
  = Ok (idle nk self).
Proof. closed_line. Qed.

Lemma read_cell_end nk self :
  read_line (Rd.set_iscell true (idle nk self)) ("/" ++ NL)
  = Ok (idle nk self).
Proof. closed_line. Qed.

Lemma read_species_header nk self :
  read_line (idle nk self) ("ATOMIC_SPECIES" ++ NL)
  = Ok (in_species 0 nk self).
Proof. closed_line. Qed.

Lemma read_gamma nk self :
  read_line (idle nk self) (("K_POINTS " ++ "gamma") ++ NL)
  = Ok (idle nk (Calc.set_k_points_type "gamma" self)).
Proof. closed_line. Qed.

Lemma read_automatic nk self :
  read_line (idle nk self) (("K_POINTS " ++ "automatic") ++ NL)
  = Ok (Rd.set_iskpoints true
          (idle nk (Calc.set_k_points_type "automatic" self))).
Proof. closed_line. Qed.

Lemma read_cell_parameters_header u nk self :
  no_space u = true ->
  read_line (idle nk self) (("CELL_PARAMETERS " ++ u) ++ NL)
  = Ok (in_cell 0 nk (set_unit Calc.set_cell_parameters_units u self)).
Proof.
  intros Hu. unfold read_line.
  change ("CELL_PARAMETERS " ++ u) with ("CELL_PARAMETERS" ++ " " ++ u).
  rewrite (split_header "CELL_PARAMETERS" u eq_refl Hu). unfold set_unit.
  destruct (u =? ""); cbv zeta; cbn [item nth_error bind length Nat.eqb];
    eval_lower; eval_eqb; flags; cbn [bind]; same_state.
Qed.

Lemma read_positions_header u nk self :
  no_space u = true ->
  read_line (idle nk self) (("ATOMIC_POSITIONS " ++ u) ++ NL)
  = Ok (in_positions 0 nk (set_unit Calc.set_atomic_positions_units u self)).
Proof.
  intros Hu. unfold read_line.
  change ("ATOMIC_POSITIONS " ++ u) with ("ATOMIC_POSITIONS" ++ " " ++ u).
  rewrite (split_header "ATOMIC_POSITIONS" u eq_refl Hu). unfold set_unit.
  destruct (u =? ""); cbv zeta; cbn [item nth_error bind length Nat.eqb];
    eval_lower; eval_eqb; flags; cbn [bind]; same_state.
Qed.

(** One line of three floats read inside a CELL_PARAMETERS card. *)
Ltac vector_step Ha Hb Hc :=
  unfold read_line, read_vector;
  rewrite (split_vector _ _ _ (float_ok_token _ Ha) (float_ok_token _ Hb)
             (float_ok_token _ Hc));
  cbv zeta; cbn [item nth_error bind];
  let Hkw := fresh "Hkw" in
  pose proof (is_label_keyword _ (proj2 Ha)) as Hkw; not_keyword Hkw;
  repeat match goal with
         | Hx : (_ =? _) = false |- _ => rewrite Hx; clear Hx
         end;
  flags; cbn [Z.eqb Pos.eqb]; rewrite !to_float_ok by assumption;
  cbn [bind]; same_state.

Lemma read_vector_v1 a b c nk self :
  float_ok a -> float_ok b -> float_ok c ->
  read_line (in_cell 0 nk self) (vector_line a b c ++ NL)
  = Ok (in_cell 1 nk (Calc.set_v1 (Calc.v1 self ++ [a; b; c]) self)).
Proof. intros Ha Hb Hc. vector_step Ha Hb Hc. Qed.

Lemma read_vector_v2 a b c nk self :
  float_ok a -> float_ok b -> float_ok c ->
  read_line (in_cell 1 nk self) (vector_line a b c ++ NL)
  = Ok (in_cell 2 nk (Calc.set_v2 (Calc.v2 self ++ [a; b; c]) self)).
Proof. intros Ha Hb Hc. vector_step Ha Hb Hc. Qed.

Lemma read_vector_v3 a b c nk self :
  float_ok a -> float_ok b -> float_ok c ->
  read_line (in_cell 2 nk self) (vector_line a b c ++ NL)
  = Ok (idle nk (Calc.set_v3 (Calc.v3 self ++ [a; b; c]) self)).
Proof. intros Ha Hb Hc. vector_step Ha Hb Hc. Qed.

Lemma read_grid n1 n2 n3 s1 s2 s3 nk self :
  Calc.k_points_type self = "automatic" ->
  read_line (Rd.set_iskpoints true (idle nk self))
    ((str_int n1 ++ "   " ++ str_int n2 ++ "   " ++ str_int n3 ++ "   "
        ++ str_int s1 ++ "   " ++ str_int s2 ++ "   " ++ str_int s3) ++ NL)
  = Ok (Rd.set_iskpoints true
          (idle nk
             (Calc.set_sk3 (Some s3)
                (Calc.set_sk2 (Some s2)
                   (Calc.set_sk1 (Some s1)
                      (Calc.set_nk3 (Some n3)
                         (Calc.set_nk2 (Some n2)
                            (Calc.set_nk1 (Some n1) self)))))))).
Proof.
  intros Hk. unfold read_line. rewrite split_grid.
  cbv zeta. cbn [item nth_error bind].
  pose proof (is_label_keyword _ (str_int_label n1)) as Hkw. not_keyword Hkw.
  repeat match goal with
         | Hx : (_ =? _) = false |- _ => rewrite Hx; clear Hx
         end.
  flags. rewrite Hk. eval_eqb. rewrite !int_str_int. cbn [bind]. same_state.
Qed.

End ReadHeaders.

(** ** The whole deck *)

Lemma calc_ext (a b : Calc.calc) :
  Calc.control a = Calc.control b ->
  Calc.system a = Calc.system b ->
  Calc.electrons a = Calc.electrons b ->
  Calc.ions a = Calc.ions b ->
  Calc.cell a = Calc.cell b ->
  Calc.atomic_species a = Calc.atomic_species b ->
  Calc.atomic_mass a = Calc.atomic_mass b ->
  Calc.pseudopotential a = Calc.pseudopotential b ->
  Calc.atom_type a = Calc.atom_type b ->
  Calc.x a = Calc.x b ->
  Calc.y a = Calc.y b ->
  Calc.z a = Calc.z b ->
  Calc.kx a = Calc.kx b ->
  Calc.ky a = Calc.ky b ->
  Calc.kz a = Calc.kz b ->
  Calc.wk a = Calc.wk b ->
  Calc.if_pos1 a = Calc.if_pos1 b ->
  Calc.if_pos2 a = Calc.if_pos2 b ->
  Calc.if_pos3 a = Calc.if_pos3 b ->
  Calc.v1 a = Calc.v1 b ->
  Calc.v2 a = Calc.v2 b ->
  Calc.v3 a = Calc.v3 b ->
  Calc.nk1 a = Calc.nk1 b ->
  Calc.nk2 a = Calc.nk2 b ->
  Calc.nk3 a = Calc.nk3 b ->
  Calc.sk1 a = Calc.sk1 b ->
  Calc.sk2 a = Calc.sk2 b ->
  Calc.sk3 a = Calc.sk3 b ->
  Calc.atomic_positions_units a = Calc.atomic_positions_units b ->
  Calc.cell_parameters_units a = Calc.cell_parameters_units b ->
  Calc.k_points_type a = Calc.k_points_type b ->
  a = b.
Proof. destruct a, b. cbn. intros. subst. reflexivity. Qed.

(** Reads one attribute of an object written as a chain of assignments. *)
Ltac attribute :=
  lazy [Calc.control Calc.system Calc.electrons Calc.ions Calc.cell
    Calc.atomic_species Calc.atomic_mass Calc.pseudopotential Calc.atom_type
    Calc.x Calc.y Calc.z Calc.kx Calc.ky Calc.kz Calc.wk Calc.if_pos1
    Calc.if_pos2 Calc.if_pos3 Calc.v1 Calc.v2 Calc.v3 Calc.nk1 Calc.nk2
    Calc.nk3 Calc.sk1 Calc.sk2 Calc.sk3 Calc.atomic_positions_units
    Calc.cell_parameters_units Calc.k_points_type Calc.set_control
    Calc.set_system Calc.set_electrons Calc.set_ions Calc.set_cell
    Calc.set_atomic_species Calc.set_atomic_mass Calc.set_pseudopotential
    Calc.set_atom_type Calc.set_x Calc.set_y Calc.set_z Calc.set_kx
    Calc.set_ky Calc.set_kz Calc.set_wk Calc.set_if_pos1 Calc.set_if_pos2
    Calc.set_if_pos3 Calc.set_v1 Calc.set_v2 Calc.set_v3 Calc.set_nk1
    Calc.set_nk2 Calc.set_nk3 Calc.set_sk1 Calc.set_sk2 Calc.set_sk3
    Calc.set_atomic_positions_units Calc.set_cell_parameters_units
    Calc.set_k_points_type Calc.init add_species add_atoms add_flags
    add_cell add_grid reread reread_namelists
    reread_cards].

Lemma map_fst_combine {A B : Type} (a : list A) (b : list B) :
  length a = length b -> map fst (combine a b) = a.
Proof.
  revert b. induction a as [|x a IH]; intros [|y b] H; try discriminate;
    [reflexivity|].
  cbn. f_equal. apply IH. now injection H.
Qed.

Lemma map_snd_combine {A B : Type} (a : list A) (b : list B) :
  length a = length b -> map snd (combine a b) = b.
Proof.
  revert b. induction a as [|x a IH]; intros [|y b] H; try discriminate;
    [reflexivity|].
  cbn. f_equal. apply IH. now injection H.
Qed.

Lemma map_combine3 {A B C : Type} (a : list A) (b : list B) (c : list C) :
  length b = length a -> length c = length a ->
  map fst (combine a (combine b c)) = a /\
  map (fun r => fst (snd r)) (combine a (combine b c)) = b /\
  map (fun r => snd (snd r)) (combine a (combine b c)) = c.
Proof.
  revert b c. induction a as [|x a IH]; intros [|y b] [|z c] Hb Hc;
    try discriminate; [now repeat split|].
  injection Hb as Hb. injection Hc as Hc.
  destruct (IH b c Hb Hc) as (E1 & E2 & E3). cbn.
  now rewrite E1, E2, E3.
Qed.

Lemma map_combine4 {A B C D : Type} (a : list A) (b : list B) (c : list C)
    (d : list D) :
  length b = length a -> length c = length a -> length d = length a ->
  map fst (combine a (combine b (combine c d))) = a /\
  map (fun r => fst (snd r)) (combine a (combine b (combine c d))) = b /\
  map (fun r => fst (snd (snd r))) (combine a (combine b (combine c d))) = c /\
  map (fun r => snd (snd (snd r))) (combine a (combine b (combine c d))) = d.
Proof.
  revert b c d. induction a as [|x a IH]; intros [|y b] [|z c] [|w d] Hb Hc Hd;
    try discriminate; [now repeat split|].
  injection Hb as Hb. injection Hc as Hc. injection Hd as Hd.
  destruct (IH b c d Hb Hc Hd) as (E1 & E2 & E3 & E4). cbn.
  now rewrite E1, E2, E3, E4.
Qed.

Lemma Forall_combine {A B : Type} (P : A -> Prop) (Q : B -> Prop) a b :
  Forall P a -> Forall Q b ->
  Forall (fun r => P (fst r) /\ Q (snd r)) (combine a b).
Proof.
  intros Ha. revert b. induction Ha as [|x a Hx Ha IH]; intros b Hb.
  - constructor.
  - destruct Hb as [|y b Hy Hb]; cbn; constructor; auto.
Qed.

Lemma set_control_same s : Calc.set_control (Calc.control s) s = s.
Proof. now destruct s. Qed.

Lemma set_cell_same s : Calc.set_cell (Calc.cell s) s = s.
Proof. now destruct s. Qed.

Lemma set_system_same s : Calc.set_system (Calc.system s) s = s.
Proof. now destruct s. Qed.

Lemma set_unit_cell u s :
  Calc.cell_parameters_units s = "" ->
  set_unit Calc.set_cell_parameters_units u s
  = Calc.set_cell_parameters_units u s.
Proof.
  intros Hs. unfold set_unit. destruct (u =? "") eqn:E; [|reflexivity].
  apply String.eqb_eq in E. subst u. destruct s. cbn in Hs. now subst.
Qed.

Lemma set_unit_positions u s :
  Calc.atomic_positions_units s = "" ->
  set_unit Calc.set_atomic_positions_units u s
  = Calc.set_atomic_positions_units u s.
Proof.
  intros Hs. unfold set_unit. destruct (u =? "") eqn:E; [|reflexivity].
  apply String.eqb_eq in E. subst u. destruct s. cbn in Hs. now subst.
Qed.

Lemma add_cell_nothing s :
  Calc.cell_parameters_units s = "" -> add_cell "" [] [] [] s = s.
Proof.
  intros Hs. apply calc_ext; attribute; rewrite ?List.app_nil_r;
    solve [reflexivity | now symmetry].
Qed.

Lemma add_flags_nothing s : add_flags [] s = s.
Proof.
  apply calc_ext; attribute; cbn [map]; rewrite ?List.app_nil_r; reflexivity.
Qed.

(** A namelist read from its header to its closing line. *)
Ltac namelist_section header entries closing :=
  let Hd := fresh "Hd" in
  intros Hd; unfold namelist_lines, with_nl; cbn [map]; rewrite map_app;
  cbn [map read_lines]; rewrite header; cbn [bind];
  rewrite read_lines_app;
  match goal with
  | |- context [map ?f (map entry_line ?d)] =>
      change (map f (map entry_line d)) with (with_nl (map entry_line d))
  end;
  rewrite entries by exact Hd; cbn [bind read_lines];
  rewrite closing; reflexivity.

Section WholeDeck.
Context {FT : FloatText}.

Lemma read_control_namelist d nk self :
  Forall entry_ok d ->
  read_lines (with_nl (namelist_lines "&CONTROL" d)) (idle nk self)
  = Ok (idle nk (Calc.set_control (dict_extend (Calc.control self) d) self)).
Proof.
  namelist_section read_control_header read_control_entries read_control_end.
Qed.

Lemma read_system_namelist d nk self :
  Forall entry_ok d ->
  read_lines (with_nl (namelist_lines "&SYSTEM" d)) (idle nk self)
  = Ok (idle nk (Calc.set_system (dict_extend (Calc.system self) d) self)).
Proof.
  namelist_section read_system_header read_system_entries read_system_end.
Qed.

Lemma read_electrons_namelist d nk self :
  Forall entry_ok d ->
  read_lines (with_nl (namelist_lines "&ELECTRONS" d)) (idle nk self)
  = Ok (idle nk (Calc.set_electrons
                   (dict_extend (Calc.electrons self) d) self)).
Proof.
  namelist_section read_electrons_header read_electrons_entries
    read_electrons_end.
Qed.

Lemma read_ions_namelist d nk self :
  Forall entry_ok d ->
  read_lines (with_nl (namelist_lines "&IONS" d)) (idle nk self)
  = Ok (idle nk (Calc.set_ions (dict_extend (Calc.ions self) d) self)).
Proof.
  namelist_section read_ions_header read_ions_entries read_ions_end.
Qed.

Lemma read_cell_namelist d nk self :
  Forall entry_ok d ->
  read_lines (with_nl (namelist_lines "&CELL" d)) (idle nk self)
  = Ok (idle nk (Calc.set_cell (dict_extend (Calc.cell self) d) self)).
Proof.
  namelist_section read_cell_header read_cell_entries read_cell_end.
Qed.

(** The CELL namelist is there for a variable-cell calculation only, and
    is empty otherwise. *)
Lemma read_cell_namelist_if c d nk self :
  Forall entry_ok d -> (is_vc c = false -> d = []) ->
  read_lines (with_nl (if is_vc c then namelist_lines "&CELL" d else []))
    (idle nk self)
  = Ok (idle nk (Calc.set_cell (dict_extend (Calc.cell self) d) self)).
Proof.
  intros Hd Hc. destruct (is_vc c).
  - now apply read_cell_namelist.
  - rewrite (Hc eq_refl). cbn [with_nl map read_lines dict_extend fold_left].
    now rewrite set_cell_same.
Qed.

Lemma read_species_card rows nk self :
  rows <> [] -> Forall species_ok rows ->
  dict_get (Calc.system self) "ntyp"
  = Some (str_int (Z.of_nat (length rows))) ->
  read_lines (with_nl ("ATOMIC_SPECIES" :: map species_line rows))
    (idle nk self)
  = Ok (idle nk (add_species rows self)).
Proof.
  intros Hne Hok Hn. unfold with_nl. cbn [map read_lines].
  rewrite read_species_header. cbn [bind].
  now apply (read_species_rows rows 0%Z nk self).
Qed.

Lemma read_cell_card n u v1 v2 v3 nk self :
  no_space u = true -> Calc.cell_parameters_units self = "" ->
  (n = 0%Z -> length v1 = 3%nat /\ length v2 = 3%nat /\ length v3 = 3%nat) ->
  (n <> 0%Z -> v1 = [] /\ v2 = [] /\ v3 = [] /\ u = "") ->
  Forall float_ok v1 -> Forall float_ok v2 -> Forall float_ok v3 ->
  read_lines
    (with_nl (if (n =? 0)%Z then
                ("CELL_PARAMETERS " ++ u)%string
                  :: vector_lines v1 ++ vector_lines v2 ++ vector_lines v3
              else []))
    (idle nk self)
  = Ok (idle nk (add_cell u v1 v2 v3 self)).
Proof.
  intros Hu Hs H0 H1 F1 F2 F3. destruct (n =? 0)%Z eqn:E.
  - apply Z.eqb_eq in E. destruct (H0 E) as (L1 & L2 & L3).
    destruct v1 as [|a1 [|a2 [|a3 [|? ?]]]]; try discriminate L1.
    destruct v2 as [|b1 [|b2 [|b3 [|? ?]]]]; try discriminate L2.
    destruct v3 as [|c1 [|c2 [|c3 [|? ?]]]]; try discriminate L3.
    repeat match goal with
           | H : Forall _ (_ :: _) |- _ => inversion_clear H
           end.
    cbn [vector_lines app with_nl map read_lines].
    rewrite read_cell_parameters_header by exact Hu. cbn [bind].
    rewrite set_unit_cell by exact Hs.
    rewrite read_vector_v1 by assumption. cbn [bind].
    rewrite read_vector_v2 by assumption. cbn [bind].
    rewrite read_vector_v3 by assumption. reflexivity.
  - apply Z.eqb_neq in E. destruct (H1 E) as (-> & -> & -> & ->).
    cbn [with_nl map read_lines]. now rewrite add_cell_nothing.
Qed.

Lemma system_set_positions_units u s :
  Calc.system (Calc.set_atomic_positions_units u s) = Calc.system s.
Proof. reflexivity. Qed.

Lemma read_positions_card m nk self :
  deck_ok m -> Calc.atomic_positions_units self = "" ->
  dict_get (Calc.system self) "nat"
  = Some (str_int (Z.of_nat (length (Calc.atom_type m)))) ->
  read_lines
    (with_nl (("ATOMIC_POSITIONS " ++ Calc.atomic_positions_units m)%string
                :: atom_lines m))
    (idle nk self)
  = Ok (idle nk
          (add_flags (flag_rows m)
             (add_atoms (atom_rows m)
                (Calc.set_atomic_positions_units
                   (Calc.atomic_positions_units m) self)))).
Proof.
  intros Hm Hs Hn.
  destruct (ok_atoms m Hm) as (Hne & Lx & Ly & Lz & Ft & Fx & Fy & Fz).
  destruct (ok_units m Hm) as (Hu & _).
  assert (Hlen : length (atom_rows m) = length (Calc.atom_type m)).
  { unfold atom_rows. rewrite !length_combine, Lx, Ly, Lz. lia. }
  assert (Hrows : atom_rows m <> []).
  { intros E. rewrite E in Hlen. destruct (Calc.atom_type m);
      [now apply Hne | discriminate]. }
  assert (Hok : Forall atom_ok (atom_rows m)).
  { unfold atom_rows, atom_ok.
    apply (Forall_combine (fun t => is_label t = true)
             (fun r => float_ok (fst r) /\ float_ok (fst (snd r)) /\
                       float_ok (snd (snd r)))); [exact Ft|].
    apply (Forall_combine float_ok
             (fun r => float_ok (fst r) /\ float_ok (snd r))); [exact Fx|].
    now apply (Forall_combine float_ok float_ok). }
  unfold with_nl. cbn [map read_lines].
  rewrite read_positions_header by exact Hu. cbn [bind].
  rewrite set_unit_positions by exact Hs.
  match goal with
  | |- context [map ?f (atom_lines m)] =>
      change (map f (atom_lines m)) with (with_nl (atom_lines m))
  end.
  unfold atom_lines. destruct (length (Calc.if_pos1 m) =? 0)%nat eqn:E.
  - apply Nat.eqb_eq in E.
    assert (Hf : flag_rows m = []).
    { unfold flag_rows. destruct (Calc.if_pos1 m); [reflexivity|discriminate]. }
    rewrite Hf, add_flags_nothing.
    apply (read_atom_rows (atom_rows m) 0%Z); [exact Hrows|exact Hok|].
    rewrite system_set_positions_units, Hlen. exact Hn.
  - apply Nat.eqb_neq in E.
    destruct (ok_flags m Hm) as [(E1 & _)|(L1 & L2 & L3)];
      [now rewrite E1 in E|].
    assert (Hfl : length (flag_rows m) = length (atom_rows m)).
    { unfold flag_rows. rewrite !length_combine, L1, L2, L3, Hlen. lia. }
    pose proof (read_atom_flags_rows (combine (atom_rows m) (flag_rows m))
                  0%Z nk
                  (Calc.set_atomic_positions_units
                     (Calc.atomic_positions_units m) self)) as R.
    rewrite map_fst_combine, map_snd_combine in R by now symmetry.
    apply R.
    + intros E0. apply (f_equal (@length _)) in E0.
      rewrite length_combine, Hfl, Nat.min_id in E0.
      destruct (atom_rows m); [now apply Hrows | discriminate].
    + assert (Hall := Forall_combine atom_ok (fun _ : Z * (Z * Z) => True)
                        (atom_rows m) (flag_rows m) Hok).
      eapply Forall_impl; [|apply Hall].
      * now intros r [Hr _].
      * apply Forall_forall. intros; exact I.
    + rewrite system_set_positions_units, length_combine, Hfl, Nat.min_id,
        Hlen. exact Hn.
Qed.

Lemma read_kpoints_card m nk self :
  deck_ok m ->
  Calc.nk1 self = None -> Calc.nk2 self = None -> Calc.nk3 self = None ->
  Calc.sk1 self = None -> Calc.sk2 self = None -> Calc.sk3 self = None ->
  exists st,
    read_lines
      (with_nl (("K_POINTS " ++ Calc.k_points_type m)%string
                  :: (if Calc.k_points_type m =? "automatic"
                      then [grid_line m] else [])))
      (idle nk self) = Ok st /\
    Rd.self st = add_grid m self.
Proof.
  intros Hm N1 N2 N3 S1 S2 S3.
  destruct (ok_k_points m Hm)
    as [(Hk & M1 & M2 & M3 & K1 & K2 & K3)|(Hk & M1 & M2 & M3 & K1 & K2 & K3)].
  - rewrite Hk. cbn [String.eqb Ascii.eqb Bool.eqb with_nl map read_lines].
    rewrite read_gamma. cbn [bind]. eexists. split; [reflexivity|].
    apply calc_ext; unfold add_grid; rewrite ?Hk, ?M1, ?M2, ?M3, ?K1, ?K2, ?K3;
      attribute; solve [reflexivity | assumption].
  - unfold add_grid, grid_line. rewrite Hk.
    destruct (Calc.nk1 m) as [n1|]; [|now elim M1].
    destruct (Calc.nk2 m) as [n2|]; [|now elim M2].
    destruct (Calc.nk3 m) as [n3|]; [|now elim M3].
    destruct (Calc.sk1 m) as [s1|]; [|now elim K1].
    destruct (Calc.sk2 m) as [s2|]; [|now elim K2].
    destruct (Calc.sk3 m) as [s3|]; [|now elim K3].
    cbn [String.eqb Ascii.eqb Bool.eqb with_nl map read_lines str_opt_int].
    rewrite read_automatic. cbn [bind].
    rewrite read_grid by reflexivity. cbn [bind].
    eexists. split; reflexivity.
Qed.

(** *** Every line of the deck is free of line ends *)

Lemma plain_token t : is_token t = true -> plain t = true.
Proof. intros Ht. now apply no_space_plain, is_token_no_space. Qed.

Lemma plain_label t : is_label t = true -> plain t = true.
Proof. intros Ht. now apply plain_token, is_label_token. Qed.

Lemma plain_value v : is_value v = true -> plain v = true.
Proof.
  unfold is_value. rewrite andb_true_iff. intros [Hv _].
  now apply no_space_plain.
Qed.

Lemma plain_float v : float_ok v -> plain (str_float v) = true.
Proof. intros Hv. now apply plain_token, float_ok_token. Qed.

Lemma plain_int n : plain (str_int n) = true.
Proof. apply plain_token, str_int_token. Qed.

Lemma plain_opt_int o : plain (str_opt_int o) = true.
Proof. destruct o; [apply plain_int | reflexivity]. Qed.

Ltac plain_parts :=
  rewrite ?plain_app, ?andb_true_iff; repeat split;
  first [ reflexivity | apply plain_int | apply plain_opt_int
        | now apply plain_float | now apply plain_label
        | now apply plain_token | now apply plain_value
        | now apply no_space_plain ].

Lemma plain_entry kv : entry_ok kv -> plain (entry_line kv) = true.
Proof.
  intros [Hk Hv]. apply is_key_label in Hk. unfold entry_line. plain_parts.
Qed.

Lemma plain_species r : species_ok r -> plain (species_line r) = true.
Proof.
  destruct r as (a & w & p). intros (Ha & Hw & Hp). cbn in Ha, Hw, Hp.
  unfold species_line. plain_parts.
Qed.

Lemma plain_atom r : atom_ok r -> plain (atom_line r) = true.
Proof.
  destruct r as (t & xi & yi & zi). intros (Ht & Hx & Hy & Hz).
  cbn in Ht, Hx, Hy, Hz. unfold atom_line. plain_parts.
Qed.

Lemma plain_flags r : plain (flags_line r) = true.
Proof. destruct r as (p1 & p2 & p3). unfold flags_line. plain_parts. Qed.

Lemma plain_vector_lines v :
  Forall float_ok v -> Forall (fun b => plain b = true) (vector_lines v).
Proof.
  intros Hv. destruct v as [|a [|b [|c v]]]; try constructor.
  - inversion_clear Hv as [|? ? Ha Hv']. inversion_clear Hv' as [|? ? Hb Hv].
    inversion_clear Hv as [|? ? Hc _]. unfold vector_line. plain_parts.
  - constructor.
Qed.

Lemma plain_namelist name d :
  plain name = true -> Forall entry_ok d ->
  Forall (fun b => plain b = true) (namelist_lines name d).
Proof.
  intros Hn Hd. unfold namelist_lines. constructor; [exact Hn|].
  apply Forall_app. split.
  - apply Forall_map. eapply Forall_impl; [|exact Hd]. apply plain_entry.
  - now constructor.
Qed.

Lemma species_rows_ok m : deck_ok m -> Forall species_ok (species_rows m).
Proof.
  intros Hm. destruct (ok_species m Hm) as (_ & _ & _ & Fa & Fw & Fp).
  unfold species_rows, species_ok.
  apply (Forall_combine (fun a => is_label a = true)
           (fun r => is_token (fst r) = true /\ is_token (snd r) = true));
    [exact Fa|].
  now apply (Forall_combine (fun w => is_token w = true)
               (fun p => is_token p = true)).
Qed.

Lemma atom_rows_ok m : deck_ok m -> Forall atom_ok (atom_rows m).
Proof.
  intros Hm. destruct (ok_atoms m Hm) as (_ & _ & _ & _ & Ft & Fx & Fy & Fz).
  unfold atom_rows, atom_ok.
  apply (Forall_combine (fun t => is_label t = true)
           (fun r => float_ok (fst r) /\ float_ok (fst (snd r)) /\
                     float_ok (snd (snd r)))); [exact Ft|].
  apply (Forall_combine float_ok
           (fun r => float_ok (fst r) /\ float_ok (snd r))); [exact Fx|].
  now apply (Forall_combine float_ok float_ok).
Qed.

Lemma plain_atom_lines m :
  deck_ok m -> Forall (fun b => plain b = true) (atom_lines m).
Proof.
  intros Hm. pose proof (atom_rows_ok m Hm) as Hok. unfold atom_lines.
  destruct (length (Calc.if_pos1 m) =? 0)%nat.
  - apply Forall_map. eapply Forall_impl; [|exact Hok]. apply plain_atom.
  - apply Forall_map.
    pose proof (Forall_combine atom_ok (fun _ : Z * (Z * Z) => True)
                  (atom_rows m) (flag_rows m) Hok) as Hall.
    eapply Forall_impl; [|apply Hall].
    + intros r [Hr _]. rewrite plain_app, plain_atom, plain_flags by exact Hr.
      reflexivity.
    + apply Forall_forall. intros; exact I.
Qed.

Lemma plain_deck m c n :
  deck_ok m -> Forall (fun b => plain b = true) (deck_bodies m c n).
Proof.
  intros Hm. unfold deck_bodies.
  destruct (ok_control m Hm) as [_ Hc]. destruct (ok_system m Hm) as [_ Hs].
  destruct (ok_electrons m Hm) as [_ He]. destruct (ok_ions m Hm) as [_ Hi].
  destruct (ok_cell m Hm) as [_ Hl].
  destruct (ok_vectors m Hm) as (F1 & F2 & F3).
  destruct (ok_units m Hm) as (Up & Uc).
  repeat (apply Forall_app; split);
    try (apply plain_namelist; [reflexivity | assumption]).
  - destruct (is_vc c); [|constructor].
    apply plain_namelist; [reflexivity | assumption].
  - constructor; [reflexivity|].
    repeat (apply Forall_app; split).
    + apply Forall_map. eapply Forall_impl; [|apply (species_rows_ok m Hm)].
      apply plain_species.
    + destruct (n =? 0)%Z; [|constructor].
      constructor; [plain_parts|].
      repeat (apply Forall_app; split); now apply plain_vector_lines.
    + constructor; [plain_parts|].
      apply Forall_app; split; [now apply plain_atom_lines|].
      constructor.
      * destruct (ok_k_points m Hm) as [(-> & _)|(-> & _)]; reflexivity.
      * destruct (Calc.k_points_type m =? "automatic"); [|constructor].
        constructor; [|constructor]. unfold grid_line. plain_parts.
Qed.

(** *** The whole deck *)

Lemma species_rows_count m :
  deck_ok m -> length (species_rows m) = length (Calc.atomic_species m).
Proof.
  intros Hm. destruct (ok_species m Hm) as (_ & Lw & Lp & _).
  unfold species_rows. rewrite !length_combine, Lw, Lp. lia.
Qed.

Lemma reread_namelists_system m :
  deck_ok m -> Calc.system (reread_namelists m) = Calc.system m.
Proof.
  intros Hm. destruct (ok_system m Hm) as [Hnd _]. attribute.
  now apply dict_extend_nil.
Qed.

Lemma read_deck m c s n :
  deck_ok m ->
  dict_get (Calc.control m) "calculation" = Some c ->
  dict_get (Calc.system m) "ibrav" = Some s -> py_int s = Some n ->
  exists st,
    read_lines (with_nl (deck_bodies m c n)) (Rd.init Calc.init) = Ok st /\
    Rd.self st = reread m.
Proof.
  intros Hm Hc Hs Hn.
  destruct (ok_control m Hm) as [_ Fc]. destruct (ok_system m Hm) as [_ Fs].
  destruct (ok_electrons m Hm) as [_ Fe]. destruct (ok_ions m Hm) as [_ Fi].
  destruct (ok_cell m Hm) as [_ Fl].
  destruct (ok_calculation m Hm) as (c' & Hc' & Hvc).
  rewrite Hc in Hc'. injection Hc' as <-.
  destruct (ok_ibrav m Hm) as (s' & n' & Hs' & Hn' & H0 & H1).
  rewrite Hs in Hs'. injection Hs' as <-.
  rewrite Hn in Hn'. injection Hn' as <-.
  destruct (ok_vectors m Hm) as (F1 & F2 & F3).
  destruct (ok_units m Hm) as (Up & Uc).
  destruct (ok_species m Hm) as (Hne & _).
  change (Rd.init Calc.init) with (idle None Calc.init).
  change (deck_bodies m c n) with
    (namelist_lines "&CONTROL" (Calc.control m)
     ++ namelist_lines "&SYSTEM" (Calc.system m)
     ++ namelist_lines "&ELECTRONS" (Calc.electrons m)
     ++ namelist_lines "&IONS" (Calc.ions m)
     ++ (if is_vc c then namelist_lines "&CELL" (Calc.cell m) else [])
     ++ ("ATOMIC_SPECIES" :: map species_line (species_rows m))
     ++ (if (n =? 0)%Z then
           ("CELL_PARAMETERS " ++ Calc.cell_parameters_units m)%string
             :: vector_lines (Calc.v1 m) ++ vector_lines (Calc.v2 m)
             ++ vector_lines (Calc.v3 m)
         else [])
     ++ (("ATOMIC_POSITIONS " ++ Calc.atomic_positions_units m)%string
           :: atom_lines m)
     ++ (("K_POINTS " ++ Calc.k_points_type m)%string
           :: (if Calc.k_points_type m =? "automatic" then [grid_line m]
               else [])))%list.
  rewrite !with_nl_app.
  rewrite read_lines_app, read_control_namelist by exact Fc. cbn [bind].
  rewrite read_lines_app, read_system_namelist by exact Fs. cbn [bind].
  rewrite read_lines_app, read_electrons_namelist by exact Fe. cbn [bind].
  rewrite read_lines_app, read_ions_namelist by exact Fi. cbn [bind].
  rewrite read_lines_app, read_cell_namelist_if by assumption. cbn [bind].
  match goal with
  | |- context [read_lines _ (idle None ?s0)] =>
      change s0 with (reread_namelists m)
  end.
  rewrite read_lines_app, read_species_card;
    [ cbn [bind]
    | intros E; apply (f_equal (@length _)) in E;
      rewrite species_rows_count in E by exact Hm;
      destruct (Calc.atomic_species m); [now apply Hne | discriminate]
    | now apply species_rows_ok
    | rewrite reread_namelists_system, species_rows_count by exact Hm;
      exact (ok_ntyp m Hm) ].
  rewrite read_lines_app, (read_cell_card n);
    [ cbn [bind] | exact Uc | reflexivity | exact H0
    | intros Hne0; destruct (H1 Hne0) as (E1 & E2 & E3 & E4);
      now rewrite E1, E2, E3, E4
    | exact F1 | exact F2 | exact F3 ].
  rewrite read_lines_app, read_positions_card;
    [ cbn [bind] | exact Hm | reflexivity
    | change (dict_get (Calc.system (reread_namelists m)) "nat"
              = Some (str_int (Z.of_nat (length (Calc.atom_type m)))));
      rewrite reread_namelists_system by exact Hm; exact (ok_nat m Hm) ].
  apply read_kpoints_card; solve [exact Hm | reflexivity].
Qed.

Lemma reread_eq m : deck_ok m -> reread m = m.
Proof.
  intros Hm.
  destruct (ok_control m Hm) as [Nc _]. destruct (ok_system m Hm) as [Ns _].
  destruct (ok_electrons m Hm) as [Ne _]. destruct (ok_ions m Hm) as [Ni _].
  destruct (ok_cell m Hm) as [Nl _].
  destruct (ok_species m Hm) as (_ & Lw & Lp & _).
  destruct (ok_atoms m Hm) as (_ & Lx & Ly & Lz & _).
  destruct (ok_k_lists m Hm) as (Kx & Ky & Kz & Kw).
  destruct (map_combine3 (Calc.atomic_species m) (Calc.atomic_mass m)
              (Calc.pseudopotential m) Lw Lp) as (S1 & S2 & S3).
  destruct (map_combine4 (Calc.atom_type m) (Calc.x m) (Calc.y m) (Calc.z m)
              Lx Ly Lz) as (A1 & A2 & A3 & A4).
  assert (map fst (flag_rows m) = Calc.if_pos1 m /\
          map (fun r => fst (snd r)) (flag_rows m) = Calc.if_pos2 m /\
          map (fun r => snd (snd r)) (flag_rows m) = Calc.if_pos3 m)
    as (P1 & P2 & P3).
  { unfold flag_rows.
    destruct (ok_flags m Hm) as [(-> & -> & ->)|(L1 & L2 & L3)].
    - now repeat split.
    - apply map_combine3; congruence. }
  apply calc_ext; attribute.
  all: try (now apply dict_extend_nil).
  all: try reflexivity.
  all: try (symmetry; assumption).
  all: first [ exact S1 | exact S2 | exact S3 | exact A1 | exact A2
             | exact A3 | exact A4 | exact P1 | exact P2 | exact P3 ].
Qed.

(** What [build_input] leaves of a well-formed deck is the deck itself, and
    what it returns is the text of the deck's lines. *)
Lemma build_input_deck m c s n :
  deck_ok m ->
  dict_get (Calc.control m) "calculation" = Some c ->
  dict_get (Calc.system m) "ibrav" = Some s -> py_int s = Some n ->
  build_input m = (m, Ok (text_of_lines (deck_bodies m c n))).
Proof.
  intros Hm Hc Hs Hn. unfold build_input. cbv zeta.
  rewrite (dict_set_same_value _ _ _ (ok_nat m Hm)), set_system_same.
  rewrite (dict_set_same_value _ _ _ (ok_ntyp m Hm)), set_system_same.
  now rewrite (build_text_bodies m c s n).
Qed.

(** The round trip of a deck [m] with [deck_ok m]: [build_input] returns a
    text and leaves [m] as it was, and [read_input], called on a newly
    constructed object with that text, ends without an exception and
    leaves an object equal to [m], attribute by attribute. [deck_ok m]
    asks all of the following.
    - In each of the five namelist dictionaries the keys are distinct, as
      in any [dict], each key is a token (not empty, no white space) that
      is none of the nine headers and not [/], and each value has no white
      space and no comma.
    - [control] holds [calculation], and [cell] is empty unless that is
      ['vc-relax'] or ['vc-md'].
    - [system] holds [nat] and [ntyp] equal to [str] of the lengths of
      [atom_type] and [atomic_species], and an [ibrav] that [int] reads;
      when it reads 0, [v1], [v2] and [v3] have three components each;
      otherwise [v1], [v2], [v3] and [cell_parameters_units] are empty.
    - [atomic_species] and [atom_type] are not empty; [atomic_mass] and
      [pseudopotential] are as long as [atomic_species]; [x], [y] and [z]
      are as long as [atom_type]; [if_pos1], [if_pos2] and [if_pos3] are
      all empty or all as long as [atom_type].
    - Species and atom labels are tokens that are no header; masses and
      pseudopotentials are tokens; the two unit texts have no white space.
    - [str] of each number of [v1], [v2], [v3], [x], [y] and [z] is a token
      that is no header and that [float] reads back as the number.
    - [kx], [ky], [kz] and [wk] are empty, and [k_points_type] is [gamma]
      with [nk1], [nk2], [nk3], [sk1], [sk2] and [sk3] all [None], or
      [automatic] with all six set. *)
Theorem build_input_read_input_roundtrip m :
  deck_ok m ->
  exists text,
    build_input m = (m, Ok text) /\ read_input text Calc.init = Ok m.
Proof.
  intros Hm.
  destruct (ok_calculation m Hm) as (c & Hc & _).
  destruct (ok_ibrav m Hm) as (s & n & Hs & Hn & _).
  exists (text_of_lines (deck_bodies m c n)). split.
  - now apply (build_input_deck m c s n).
  - rewrite read_input_lines, file_lines_text by now apply plain_deck.
    destruct (read_deck m c s n Hm Hc Hs Hn) as (st & -> & Hst).
    cbn [bind]. now rewrite Hst, reread_eq.
Qed.

End WholeDeck.

(** Closed side conditions of a concrete deck. *)
Ltac closed_forall :=
  repeat (apply Forall_cons;
          [first [ split; vm_compute; reflexivity | vm_compute; reflexivity ]
          |]);
  apply Forall_nil.

Ltac closed_namelist :=
  split;
  [ repeat (apply NoDup_cons; [vm_compute; intuition discriminate|]);
    apply NoDup_nil
  | closed_forall ].

(** [deck_full] is a well-formed deck. *)
Lemma deck_full_ok : deck_ok (FT := DecFloat.table) deck_full.
Proof.
  constructor.
  - closed_namelist.
  - closed_namelist.
  - closed_namelist.
  - closed_namelist.
  - closed_namelist.
  - exists "'vc-relax'". split; [reflexivity | discriminate].
  - vm_compute. reflexivity.
  - vm_compute. reflexivity.
  - exists "0", 0%Z.
    split; [reflexivity|]. split; [vm_compute; reflexivity|]. split.
    + intros _. repeat split.
    + intros H. now elim H.
  - split; [|split]; closed_forall.
  - split; [discriminate|]. split; [reflexivity|]. split; [reflexivity|].
    split; [|split]; closed_forall.
  - split; [discriminate|]. split; [reflexivity|]. split; [reflexivity|].
    split; [reflexivity|]. split; [|split; [|split]]; closed_forall.
  - right. repeat split.
  - split; vm_compute; reflexivity.
  - repeat split.
  - right. repeat split; discriminate.
Qed.

(** The round trip of [deck_full]: the text is [deck_full_text]. *)
Lemma build_input_read_input_roundtrip_witness :
  deck_ok (FT := DecFloat.table) deck_full /\
  exists text,
    build_input (FT := DecFloat.table) deck_full = (deck_full, Ok text) /\
    read_input (FT := DecFloat.table) text Calc.init = Ok deck_full.
Proof.
  split; [exact deck_full_ok|].
  exact (build_input_read_input_roundtrip (FT := DecFloat.table) deck_full
           deck_full_ok).
Defined.

(** * The scanner of the log: series, markers and blocks *)

(** Case analysis on the code of a goal [code = Ok _ -> _]: the test or the
    call that is evaluated first is the one to split on. *)
Ltac break_goal :=
  lazymatch goal with
  | |- Ok _ = Ok _ -> _ => fail
  | |- Raise _ = Ok _ -> _ => intros; discriminate
  | |- ?lhs = Ok _ -> _ =>
      let s := first_eval lhs in
      destruct s eqn:?; cbn [bind]; try (intros; discriminate)
  end.

(** Tests on tokens, turned into equations on them. *)
Ltac token_facts :=
  repeat match goal with
  | H : _ && _ = true |- _ => apply andb_true_iff in H; destruct H
  | H : (_ =? _)%string = true |- _ => apply String.eqb_eq in H
  end;
  repeat match goal with
  | H : tok ?l ?i = _ |- _ => rewrite H in *; clear H
  end.

Ltac token_clash :=
  exfalso; token_facts;
  repeat match goal with
  | H : lower (String _ _) = _ |- _ => vm_compute in H
  end;
  congruence.

Section ScanSeries.
Context {FT : FloatText}.

Lemma scan_line_series st line st' :
  scan_line st line = Ok st' ->
  Scan.energy st' = (Scan.energy st ++ energy_of line)%list /\
  Scan.magnetization st'
  = (Scan.magnetization st ++ magnetization_of "total" line)%list /\
  Scan.absmagnetization st'
  = (Scan.absmagnetization st ++ magnetization_of "absolute" line)%list /\
  Scan.efermi st' = last (map Some (fermi_of line)) (Scan.efermi st) /\
  (Scan.jobdone st' = true ->
   Scan.jobdone st = true \/ is_end_line line = true) /\
  (Scan.jobdone st = true -> Scan.jobdone st' = true).
Proof.
  unfold energy_of, magnetization_of, fermi_of, is_end_line, log_tokens.
  destruct st.
  unfold scan_line, scan_axis, scan_force, to_float, times_a0.
  generalize (split (rstrip line)). intros l. cbv zeta.
  cbn [Scan.nextcellpar Scan.nextcoords Scan.nextforces Scan.i Scan.j Scan.a0
       Scan.natoms].
  repeat break_goal.
  all: intros [= <-]; cbn.
  all: repeat match goal with
       | |- context [if ?c then _ else _] => destruct c eqn:?
       | |- context [match float_of_string ?s with _ => _ end] =>
           destruct (float_of_string s) eqn:?
       end.
  all: try solve [ cbn; rewrite ?List.app_nil_r; repeat split; auto;
                   intros; discriminate ].
  all: try token_clash.
Qed.

Lemma last_app_default {A : Type} (a b : list A) (d : A) :
  last (a ++ b) d = last b (last a d).
Proof.
  revert a. induction b as [|y b IH] using rev_ind; intros a.
  - now rewrite List.app_nil_r.
  - now rewrite List.app_assoc, !last_last.
Qed.

Lemma scan_lines_app (a b : list string) (st : Scan.locals) :
  scan_lines (a ++ b) st = (st' <- scan_lines a st ;; scan_lines b st').
Proof.
  revert st. induction a as [|line a IH]; intros st; simpl; [reflexivity|].
  destruct (scan_line st line); simpl; auto.
Qed.

Lemma scan_lines_series lines : forall st st',
  scan_lines lines st = Ok st' ->
  Scan.energy st' = (Scan.energy st ++ flat_map energy_of lines)%list /\
  Scan.magnetization st'
  = (Scan.magnetization st ++ flat_map (magnetization_of "total") lines)%list
  /\
  Scan.absmagnetization st'
  = (Scan.absmagnetization st
       ++ flat_map (magnetization_of "absolute") lines)%list /\
  Scan.efermi st'
  = last (map Some (flat_map fermi_of lines)) (Scan.efermi st) /\
  (Scan.jobdone st' = true ->
   Scan.jobdone st = true \/ Exists (fun l => is_end_line l = true) lines) /\
  (Scan.jobdone st = true -> Scan.jobdone st' = true).
Proof.
  induction lines as [|line lines IH]; intros st st' H.
  - injection H as <-. cbn. rewrite !List.app_nil_r. repeat split; auto.
  - cbn [scan_lines] in H. apply bind_ok_inv in H as (st1 & H1 & H2).
    destruct (scan_line_series _ _ _ H1) as (E1 & M1 & A1 & F1 & J1 & K1).
    destruct (IH _ _ H2) as (E2 & M2 & A2 & F2 & J2 & K2).
    cbn [flat_map]. rewrite E2, M2, A2, F2, E1, M1, A1, F1.
    rewrite <- !List.app_assoc, map_app, last_app_default.
    repeat split; auto.
    intros Hj. destruct (J2 Hj) as [Hj1 | Hex]; [|right; now right].
    destruct (J1 Hj1) as [Hj0 | He]; [now left | right; now left].
Qed.

Lemma get_output_info_scan output savecoords o :
  get_output_info output savecoords = Ok o ->
  exists st, scan_lines (readlines output) Scan.init = Ok st /\ o = collect st.
Proof.
  unfold get_output_info. intros H.
  apply bind_ok_inv in H as (st & Hst & H). exists st. split; [exact Hst|].
  destruct savecoords.
  - apply bind_ok_inv in H as (? & _ & H). now injection H.
  - now injection H.
Qed.

(** The series of the [out] object hold one entry for each line of their
    kind, in the order of the log, whatever else the log holds: [energy] for
    the lines that start with [!], [magnetization] and [absmagnetization]
    for the lines [total magnetization] and [absolute magnetization] whose
    value is a number; [efermi] is the value of the last line
    [the Fermi energy is]. *)
Theorem get_output_info_series output savecoords o :
  get_output_info output savecoords = Ok o ->
  Out.energy o = flat_map energy_of (readlines output) /\
  Out.magnetization o
  = flat_map (magnetization_of "total") (readlines output) /\
  Out.absmagnetization o
  = flat_map (magnetization_of "absolute") (readlines output) /\
  Out.efermi o = last (map Some (flat_map fermi_of (readlines output))) None.
Proof.
  intros H. apply get_output_info_scan in H as (st & Hst & ->).
  destruct (scan_lines_series _ _ _ Hst) as (E & M & A & F & _).
  cbn [collect Out.energy Out.magnetization Out.absmagnetization Out.efermi].
  rewrite E, M, A, F. repeat split.
Qed.

(** [jobdone] is set only by a line of five tokens or more whose fourth
    token is [terminated]: a log without such a line never gives an [out]
    object that reports a finished job. *)
Theorem get_output_info_jobdone output savecoords o :
  get_output_info output savecoords = Ok o ->
  Out.jobdone o = true ->
  Exists (fun line => is_end_line line = true) (readlines output).
Proof.
  intros H Hj. apply get_output_info_scan in H as (st & Hst & ->).
  destruct (scan_lines_series _ _ _ Hst) as (_ & _ & _ & _ & J & _).
  destruct (J Hj) as [H0 | Hex]; [discriminate H0 | exact Hex].
Qed.

(** *** Cell vectors need a header, and a lattice parameter *)

Lemma scan_line_cell_frame st line st' :
  scan_line st line = Ok st' ->
  (is_lattice_line line = false -> Scan.a0 st' = Scan.a0 st) /\
  (is_axes_header line = false -> Scan.nextcellpar st = false ->
   Scan.nextcellpar st' = false /\ Scan.i st' = Scan.i st /\
   Scan.v1 st' = Scan.v1 st /\ Scan.v2 st' = Scan.v2 st /\
   Scan.v3 st' = Scan.v3 st).
Proof.
  unfold is_lattice_line, is_axes_header, log_tokens.
  destruct st.
  unfold scan_line, scan_axis, scan_force, to_float, times_a0.
  generalize (split (rstrip line)). intros l. cbv zeta.
  cbn [Scan.nextcellpar Scan.nextcoords Scan.nextforces Scan.i Scan.j Scan.a0
       Scan.natoms].
  repeat break_goal.
  all: intros [= <-]; cbn.
  all: split; [intros; solve [reflexivity | discriminate]|].
  all: intros;
    solve [repeat split; first [assumption | reflexivity] | discriminate].
Qed.

Lemma scan_lines_cell_frame lines : forall st st',
  scan_lines lines st = Ok st' ->
  (Forall (fun l => is_lattice_line l = false) lines ->
   Scan.a0 st' = Scan.a0 st) /\
  (Forall (fun l => is_axes_header l = false) lines ->
   Scan.nextcellpar st = false ->
   Scan.nextcellpar st' = false /\ Scan.i st' = Scan.i st /\
   Scan.v1 st' = Scan.v1 st /\ Scan.v2 st' = Scan.v2 st /\
   Scan.v3 st' = Scan.v3 st).
Proof.
  induction lines as [|line lines IH]; intros st st' H.
  - injection H as <-. repeat split; auto.
  - cbn [scan_lines] in H. apply bind_ok_inv in H as (st1 & H1 & H2).
    destruct (scan_line_cell_frame _ _ _ H1) as (A1 & C1).
    destruct (IH _ _ H2) as (A2 & C2). split.
    + intros F. inversion_clear F as [|? ? Fl Fr].
      now rewrite (A2 Fr), (A1 Fl).
    + intros F Hn. inversion_clear F as [|? ? Fl Fr].
      destruct (C1 Fl Hn) as (N1 & I1 & V1 & V2 & V3).
      destruct (C2 Fr N1) as (N2 & I2 & W1 & W2 & W3).
      repeat split; congruence.
Qed.

(** The cell vectors come from crystal-axes blocks only: a log without a
    header [crystal axes:] leaves [v1], [v2] and [v3] empty, and then the
    call with [savecoords=True] raises [IndexError] in [__write_coords__],
    where the same call without [savecoords] returns. *)
Theorem get_output_info_without_axes output o :
  Forall (fun line => is_axes_header line = false) (readlines output) ->
  get_output_info output false = Ok o ->
  Out.v1 o = [] /\ Out.v2 o = [] /\ Out.v3 o = [] /\
  get_output_info output true = Raise IndexError.
Proof.
  intros F H. unfold get_output_info in *.
  apply bind_ok_inv in H as (st & Hst & H). injection H as <-.
  destruct (scan_lines_cell_frame _ _ _ Hst) as (_ & C).
  destruct (C F eq_refl) as (_ & _ & V1 & V2 & V3).
  cbn [collect Out.v1 Out.v2 Out.v3]. rewrite Hst. cbn [bind].
  repeat split; try assumption.
  unfold write_coords. cbn [snd collect Out.v1]. rewrite V1. reflexivity.
Qed.

(** A crystal-axes block that comes before any line [lattice parameter]
    finds [a0] still [None]: its first row raises [TypeError]. *)
Theorem crystal_axes_without_lattice_parameter
    output savecoords pre header row rest st h0 h1 hrest c1 c2 c3 :
  readlines output = (pre ++ header :: row :: rest)%list ->
  Forall (fun line => is_lattice_line line = false) pre ->
  Forall (fun line => is_axes_header line = false) pre ->
  scan_lines pre Scan.init = Ok st ->
  split (rstrip header) = h0 :: h1 :: hrest ->
  lower h0 = "crystal" -> lower h1 = "axes:" ->
  axis_row row c1 c2 c3 ->
  get_output_info output savecoords = Raise TypeError.
Proof.
  intros Hl Fa Fh Hst Hh H0 H1 Hrow.
  destruct (scan_lines_cell_frame _ _ _ Hst) as (A & C).
  specialize (A Fa). destruct (C Fh eq_refl) as (_ & I & _).
  unfold get_output_info. rewrite Hl, scan_lines_app, Hst. cbn [bind scan_lines].
  rewrite (scan_line_axes_header st header h0 h1 hrest Hh H0 H1). cbn [bind].
  rewrite (scan_line_axis_row _ row c1 c2 c3 Hrow) by (now destruct st).
  destruct st. cbn in A, I. subst. reflexivity.
Qed.

End ScanSeries.

(** * The blocks of the log: positions and forces *)

Lemma log_keyword_false s :
  log_keyword s = false ->
  (s =? "!") = false /\ (lower s =? "the") = false /\
  (lower s =? "lattice") = false /\ (lower s =? "number") = false /\
  (lower s =? "crystal") = false /\ (lower s =? "forces") = false /\
  (lower s =? "atomic_positions") = false.
Proof.
  unfold log_keyword. rewrite !orb_false_iff.
  intros ((((((H0 & H1) & H2) & H3) & H4) & H5) & H6).
  repeat split; try assumption.
  apply String.eqb_neq. intros ->. vm_compute in H0. discriminate H0.
Qed.

Lemma lower_eqb_false s t u :
  lower s = t -> (t =? u) = false -> (lower s =? u) = false.
Proof. now intros ->. Qed.

(** The tests of a line, decided from what is known of its tokens. *)
Ltac scan_tests :=
  repeat first
    [ progress cbn [tok nth length Nat.leb andb negb bind
                    String.eqb Ascii.eqb Bool.eqb]
    | rewrite andb_false_r
    | match goal with
      | H : ?c = false |- context [?c] => rewrite H
      | H : lower ?s = _ |- context [lower ?s] => rewrite H
      end ].

Ltac scan_fields :=
  cbn [Scan.nextcellpar Scan.nextcoords Scan.nextforces Scan.i Scan.j Scan.a0
       Scan.t Scan.x Scan.y Scan.z Scan.fx Scan.fy Scan.fz Scan.v1 Scan.v2
       Scan.v3 Scan.natoms Scan.energy Scan.magnetization
       Scan.absmagnetization Scan.efermi Scan.jobdone
       Scan.set_nextcellpar Scan.set_nextcoords Scan.set_nextforces
       Scan.set_i Scan.set_j Scan.set_a0 Scan.set_t Scan.set_x Scan.set_y
       Scan.set_z Scan.set_fx Scan.set_fy Scan.set_fz Scan.set_v1 Scan.set_v2
       Scan.set_v3 Scan.set_natoms Scan.set_energy Scan.set_magnetization
       Scan.set_absmagnetization Scan.set_efermi Scan.set_jobdone
       in_coords in_forces].

Section ScanBlocks.
Context {FT : FloatText}.

Lemma scan_positions_header st line :
  positions_header line ->
  Scan.nextcellpar st = false -> Scan.nextforces st = false ->
  scan_line st line = Ok (in_coords 0 [] [] [] [] st).
Proof.
  intros (h & rest & Hl & Hh & Hm) Hc Hf.
  destruct st. cbn in Hc, Hf. subst.
  assert (Hb : (h =? "!") = false).
  { apply String.eqb_neq. intros ->. vm_compute in Hh. discriminate Hh. }
  apply String.eqb_neq in Hm. unfold tok in Hm.
  unfold scan_line. fold (log_tokens line). rewrite Hl. cbv zeta.
  scan_fields. scan_tests. reflexivity.
Qed.

Lemma scan_coord_row st line r j ts xs ys zs :
  coord_line line r ->
  Scan.nextcellpar st = false -> Scan.nextforces st = false ->
  scan_line (in_coords j ts xs ys zs st) line =
  Ok (if eq_natoms (j + 1) (Scan.natoms st) then
        Scan.set_nextcoords false
          (in_coords 0 (ts ++ [fst r]) (xs ++ [fst (snd r)])
             (ys ++ [fst (snd (snd r))]) (zs ++ [snd (snd (snd r))]) st)
      else
        in_coords (j + 1) (ts ++ [fst r]) (xs ++ [fst (snd r)])
          (ys ++ [fst (snd (snd r))]) (zs ++ [snd (snd (snd r))]) st).
Proof.
  destruct r as (t & xi & yi & zi). cbn [fst snd].
  intros (sx & sy & sz & rest & Hl & Hk & Hm & Hx & Hy & Hz) Hc Hf.
  cbn [fst snd] in *.
  destruct (log_keyword_false _ Hk) as (K0 & K1 & K2 & K3 & K4 & K5 & K6).
  apply String.eqb_neq in Hm.
  destruct st. cbn in Hc, Hf. subst.
  unfold scan_line. fold (log_tokens line). rewrite Hl. cbv zeta.
  scan_fields. scan_tests.
  unfold item, to_float. cbn [nth_error bind]. rewrite Hx, Hy, Hz.
  cbn [bind]. scan_fields.
  destruct (eq_natoms (j + 1) natoms); reflexivity.
Qed.

Lemma scan_coord_rows lines rows :
  Forall2 coord_line lines rows ->
  forall j ts xs ys zs st,
  Scan.nextcellpar st = false -> Scan.nextforces st = false ->
  (rows <> [] -> Scan.natoms st = Some (j + Z.of_nat (length rows))%Z ->
   scan_lines lines (in_coords j ts xs ys zs st)
   = Ok (Scan.set_nextcoords false
           (in_coords 0 (ts ++ map fst rows)
              (xs ++ map (fun r => fst (snd r)) rows)
              (ys ++ map (fun r => fst (snd (snd r))) rows)
              (zs ++ map (fun r => snd (snd (snd r))) rows) st))) /\
  (Scan.natoms st = None ->
   scan_lines lines (in_coords j ts xs ys zs st)
   = Ok (in_coords (j + Z.of_nat (length rows)) (ts ++ map fst rows)
           (xs ++ map (fun r => fst (snd r)) rows)
           (ys ++ map (fun r => fst (snd (snd r))) rows)
           (zs ++ map (fun r => snd (snd (snd r))) rows) st)).
Proof.
  induction 1 as [|line r lines rows Hr Hrows IH];
    intros j ts xs ys zs st Hc Hf.
  - split; [congruence|]. intros _. cbn [scan_lines map length].
    now rewrite !List.app_nil_r, Z.add_0_r.
  - cbn [scan_lines]. rewrite (scan_coord_row st line r j ts xs ys zs Hr Hc Hf).
    cbn [bind map]. split.
    + intros _ Hn. rewrite Hn. cbn [eq_natoms].
      destruct rows as [|r' rows].
      * inversion Hrows; subst.
        replace (j + 1 =? j + Z.of_nat (length [r]))%Z with true
          by (symmetry; apply Z.eqb_eq; cbn [length]; lia).
        reflexivity.
      * replace (j + 1 =? j + Z.of_nat (length (r :: r' :: rows)))%Z
          with false by (symmetry; apply Z.eqb_neq; cbn [length]; lia).
        destruct (IH (j + 1)%Z (ts ++ [fst r])%list
                    (xs ++ [fst (snd r)])%list
                    (ys ++ [fst (snd (snd r))])%list
                    (zs ++ [snd (snd (snd r))])%list st Hc Hf) as (IH1 & _).
        rewrite IH1; [now rewrite <- !List.app_assoc | discriminate |].
        rewrite Hn. f_equal. cbn [length]. lia.
    + intros Hn. rewrite Hn. cbn [eq_natoms].
      destruct (IH (j + 1)%Z (ts ++ [fst r])%list
                  (xs ++ [fst (snd r)])%list
                  (ys ++ [fst (snd (snd r))])%list
                  (zs ++ [snd (snd (snd r))])%list st Hc Hf) as (_ & IH2).
      rewrite (IH2 Hn), <- !List.app_assoc. do 2 f_equal. cbn [length]. lia.
Qed.

(** An ATOMIC_POSITIONS block of the log replaces the atoms read before: with
    [natoms] rows after its header, the types and the positions are those of
    the rows, in order, and the block is closed; no other attribute of the
    [out] object changes. When no line gave the number of atoms, the block
    stays open after its rows. *)
Theorem atomic_positions_block st header lines rows :
  positions_header header -> Forall2 coord_line lines rows ->
  Scan.nextcellpar st = false -> Scan.nextforces st = false ->
  (rows <> [] -> Scan.natoms st = Some (Z.of_nat (length rows)) ->
   exists st',
     scan_lines (header :: lines) st = Ok st' /\
     Scan.nextcoords st' = false /\
     collect st'
     = Out.set_z (map (fun r => snd (snd (snd r))) rows)
         (Out.set_y (map (fun r => fst (snd (snd r))) rows)
            (Out.set_x (map (fun r => fst (snd r)) rows)
               (Out.set_atom_type (map fst rows) (collect st))))) /\
  (Scan.natoms st = None ->
   exists st',
     scan_lines (header :: lines) st = Ok st' /\
     Scan.nextcoords st' = true /\
     Out.atom_type (collect st') = map fst rows).
Proof.
  intros Hh Hrows Hc Hf.
  destruct (scan_coord_rows lines rows Hrows 0%Z [] [] [] [] st Hc Hf)
    as (R1 & R2).
  cbn [scan_lines]. rewrite (scan_positions_header st header Hh Hc Hf).
  cbn [bind]. split.
  - intros Hne Hn. rewrite (R1 Hne Hn). eexists. split; [reflexivity|].
    destruct st. split; reflexivity.
  - intros Hn. rewrite (R2 Hn). eexists. split; [reflexivity|].
    destruct st. split; reflexivity.
Qed.

(** *** Forces *)

Lemma scan_forces_header st line :
  forces_header line -> Scan.nextcellpar st = false ->
  scan_line st line = Ok (in_forces 0 [] [] [] st).
Proof.
  intros (h0 & h1 & h2 & h3 & h4 & h5 & h6 & rest & Hl & H0 & H1 & H2 & H3) Hc.
  destruct st. cbn in Hc. subst.
  assert (Hb : (h0 =? "!") = false).
  { apply String.eqb_neq. intros ->. vm_compute in H0. discriminate H0. }
  assert (Hm : (h1 =? "magnetization") = false).
  { apply String.eqb_neq. intros ->. vm_compute in H1. discriminate H1. }
  unfold scan_line. fold (log_tokens line). rewrite Hl. cbv zeta.
  scan_fields. scan_tests. reflexivity.
Qed.

Lemma scan_force_row st line f j fxs fys fzs :
  force_line line f -> Scan.nextcellpar st = false ->
  scan_line (in_forces j fxs fys fzs st) line =
  Ok (if eq_natoms (j + 1) (Scan.natoms st) then
        Scan.set_nextforces false
          (in_forces 0 (fxs ++ [force_of (fst f)])
             (fys ++ [force_of (fst (snd f))])
             (fzs ++ [force_of (snd (snd f))]) st)
      else
        in_forces (j + 1) (fxs ++ [force_of (fst f)])
          (fys ++ [force_of (fst (snd f))])
          (fzs ++ [force_of (snd (snd f))]) st).
Proof.
  destruct f as (f1 & f2 & f3). cbn [fst snd].
  intros (l0 & l1 & l2 & l3 & l4 & l5 & s1 & s2 & s3 & rest & Hl & Hk & Hm
          & H1 & H2 & H3) Hc.
  cbn [fst snd] in *.
  destruct (log_keyword_false _ Hk) as (K0 & K1 & K2 & K3 & K4 & K5 & K6).
  apply String.eqb_neq in Hm.
  destruct st. cbn in Hc. subst.
  unfold scan_line. fold (log_tokens line). rewrite Hl. cbv zeta.
  scan_fields. scan_tests.
  unfold item, scan_force, to_float. cbn [nth_error bind].
  rewrite H1, H2, H3. cbn [bind]. scan_fields.
  destruct (eq_natoms (j + 1) natoms); reflexivity.
Qed.

Lemma scan_force_blank st line j fxs fys fzs :
  log_tokens line = [] -> Scan.nextcellpar st = false ->
  scan_line (in_forces j fxs fys fzs st) line
  = Ok (in_forces j fxs fys fzs st).
Proof.
  intros Hl Hc. destruct st. cbn in Hc. subst.
  unfold scan_line. fold (log_tokens line). rewrite Hl. cbv zeta.
  scan_fields. scan_tests. reflexivity.
Qed.

Lemma scan_force_blanks blanks st j fxs fys fzs :
  Forall (fun line => log_tokens line = []) blanks ->
  Scan.nextcellpar st = false ->
  scan_lines blanks (in_forces j fxs fys fzs st)
  = Ok (in_forces j fxs fys fzs st).
Proof.
  intros Hb Hc. induction Hb as [|line blanks Hl _ IH]; [reflexivity|].
  cbn [scan_lines]. rewrite scan_force_blank by assumption. exact IH.
Qed.

Lemma scan_force_rows lines rows :
  Forall2 force_line lines rows ->
  forall j fxs fys fzs st,
  Scan.nextcellpar st = false ->
  rows <> [] -> Scan.natoms st = Some (j + Z.of_nat (length rows))%Z ->
  scan_lines lines (in_forces j fxs fys fzs st)
  = Ok (Scan.set_nextforces false
          (in_forces 0 (fxs ++ map (fun f => force_of (fst f)) rows)
             (fys ++ map (fun f => force_of (fst (snd f))) rows)
             (fzs ++ map (fun f => force_of (snd (snd f))) rows) st)).
Proof.
  induction 1 as [|line f lines rows Hr Hrows IH];
    intros j fxs fys fzs st Hc Hne Hn; [congruence|].
  cbn [scan_lines]. rewrite (scan_force_row st line f j fxs fys fzs Hr Hc).
  cbn [bind map]. rewrite Hn. cbn [eq_natoms].
  destruct rows as [|f' rows].
  - inversion Hrows; subst.
    replace (j + 1 =? j + Z.of_nat (length [f]))%Z with true
      by (symmetry; apply Z.eqb_eq; cbn [length]; lia).
    reflexivity.
  - replace (j + 1 =? j + Z.of_nat (length (f :: f' :: rows)))%Z
      with false by (symmetry; apply Z.eqb_neq; cbn [length]; lia).
    rewrite IH; [now rewrite <- !List.app_assoc | exact Hc | discriminate |].
    rewrite Hn. f_equal. cbn [length]. lia.
Qed.

(** A block of forces replaces the forces read before: after the header
    [Forces acting on atoms], empty lines are skipped, and [natoms] rows
    give [fx], [fy] and [fz], each [float(token)*ry2ev/bohr2angs] of the
    tokens 6 to 8 of its row; no other attribute of the [out] object
    changes. *)
Theorem forces_block st header blanks lines rows :
  forces_header header ->
  Forall (fun line => log_tokens line = []) blanks ->
  Forall2 force_line lines rows ->
  Scan.nextcellpar st = false ->
  rows <> [] -> Scan.natoms st = Some (Z.of_nat (length rows)) ->
  exists st',
    scan_lines (header :: blanks ++ lines) st = Ok st' /\
    Scan.nextforces st' = false /\
    collect st'
    = Out.set_fz (map (fun f => force_of (snd (snd f))) rows)
        (Out.set_fy (map (fun f => force_of (fst (snd f))) rows)
           (Out.set_fx (map (fun f => force_of (fst f)) rows) (collect st))).
Proof.
  intros Hh Hb Hrows Hc Hne Hn.
  cbn [scan_lines]. rewrite (scan_forces_header st header Hh Hc). cbn [bind].
  rewrite scan_lines_app, (scan_force_blanks blanks st) by assumption.
  cbn [bind].
  rewrite (scan_force_rows lines rows Hrows 0%Z [] [] [] st Hc Hne Hn).
  eexists. split; [reflexivity|]. destruct st. split; reflexivity.
Qed.

End ScanBlocks.

(** * [build_input]: where it returns, and calling it again *)

Lemma for_each_ok_at idx body s t i :
  for_each idx body s = Ok t -> In i idx ->
  exists s0 s1, body i s0 = Ok s1.
Proof.
  revert s. induction idx as [|j idx IH]; intros s H Hi; [destruct Hi|].
  cbn [for_each] in H. apply bind_ok_inv in H as (s' & Hb & H).
  destruct Hi as [-> | Hi]; [eauto | eapply IH; eauto].
Qed.

(** A loop over [range(n)] that ends has every index inside the lists its
    body reads. *)
Lemma for_range_bound n body s t len :
  for_range n body s = Ok t ->
  (forall i s0 s1, body i s0 = Ok s1 -> (i < len)%nat) ->
  (n <= len)%nat.
Proof.
  intros H Hb. destruct n as [|n]; [lia|].
  destruct (for_each_ok_at _ _ _ _ n H) as (s0 & s1 & E).
  { apply in_seq. lia. }
  apply Hb in E. lia.
Qed.

Ltac items H :=
  repeat match type of H with
  | bind (item ?l ?i) _ = Ok _ =>
      let a := fresh "a" in
      let E := fresh "E" in
      apply bind_ok_inv in H as (a & E & H);
      apply item_ok_lt in E
  end.

Section BuildDomain.
Context {FT : FloatText}.

Lemma emit_species_bounds self i s0 s1 :
  emit_species self i s0 = Ok s1 ->
  (i < length (Calc.atomic_mass self))%nat /\
  (i < length (Calc.pseudopotential self))%nat.
Proof. unfold emit_species. intros H. items H. auto. Qed.

Lemma emit_vector_bounds v s0 s1 :
  emit_vector v s0 = Ok s1 -> (3 <= length v)%nat.
Proof. unfold emit_vector. intros H. items H. lia. Qed.

Lemma emit_atom_bounds self i s0 s1 :
  emit_atom self i s0 = Ok s1 ->
  (i < length (Calc.x self))%nat /\ (i < length (Calc.y self))%nat /\
  (i < length (Calc.z self))%nat /\
  (Calc.if_pos1 self <> [] ->
   (i < length (Calc.if_pos1 self))%nat /\
   (i < length (Calc.if_pos2 self))%nat /\
   (i < length (Calc.if_pos3 self))%nat).
Proof.
  unfold emit_atom.
  destruct (length (Calc.if_pos1 self) =? 0)%nat eqn:E0; intros H; items H.
  - apply Nat.eqb_eq, length_zero_iff_nil in E0.
    repeat split; auto; congruence.
  - repeat split; auto.
Qed.

Lemma emit_kpoint_bounds self i s0 s1 :
  emit_kpoint self i s0 = Ok s1 ->
  (i < length (Calc.kx self))%nat /\ (i < length (Calc.ky self))%nat /\
  (i < length (Calc.kz self))%nat.
Proof. unfold emit_kpoint. intros H. items H. auto. Qed.

Lemma build_text_serializable self text :
  build_text self = Ok text -> serializable self.
Proof.
  unfold build_text, getitem, int. cbv zeta. intros H.
  destruct (dict_get (Calc.control self) "calculation") as [c|] eqn:Ec;
    [|discriminate H].
  cbn [bind] in H. apply bind_ok_inv in H as (s1 & Hsp & H).
  destruct (dict_get (Calc.system self) "ibrav") as [sib|] eqn:Eib;
    [|discriminate H].
  cbn [bind] in H.
  destruct (py_int sib) as [n|] eqn:En; [|discriminate H].
  cbn [bind] in H. apply bind_ok_inv in H as (s2 & Hcell & H).
  apply bind_ok_inv in H as (s3 & Hat & H).
  unfold serializable. rewrite Ec, Eib.
  split; [discriminate|].
  split; [eapply for_range_bound; [exact Hsp|];
          intros i s0 s1' E; now apply emit_species_bounds in E|].
  split; [eapply for_range_bound; [exact Hsp|];
          intros i s0 s1' E; now apply emit_species_bounds in E|].
  split.
  { exists sib, n. split; [reflexivity|]. split; [exact En|]. intros ->.
    cbn [Z.eqb] in Hcell.
    apply bind_ok_inv in Hcell as (t1 & H1 & Hcell).
    apply bind_ok_inv in Hcell as (t2 & H2 & H3).
    apply emit_vector_bounds in H1, H2, H3. auto. }
  split; [eapply for_range_bound; [exact Hat|];
          intros i s0 s1' E; now apply emit_atom_bounds in E|].
  split; [eapply for_range_bound; [exact Hat|];
          intros i s0 s1' E; now apply emit_atom_bounds in E|].
  split; [eapply for_range_bound; [exact Hat|];
          intros i s0 s1' E; now apply emit_atom_bounds in E|].
  split.
  { destruct (Calc.if_pos1 self) as [|p ps] eqn:Ep; [now left | right].
    rewrite <- Ep.
    assert (Hne : Calc.if_pos1 self <> []) by (rewrite Ep; discriminate).
    repeat split; (eapply for_range_bound; [exact Hat|]);
      intros i s0 s1' E; apply emit_atom_bounds in E;
      destruct E as (_ & _ & _ & E); now destruct (E Hne) as (? & ? & ?). }
  destruct (Calc.k_points_type self =? "gamma") eqn:Eg.
  { left. now apply String.eqb_eq. }
  destruct (Calc.k_points_type self =? "automatic") eqn:Ea.
  { right; left. now apply String.eqb_eq. }
  right; right. cbn [negb] in H.
  repeat split; (eapply for_range_bound; [exact H|]);
    intros i s0 s1' E; now apply emit_kpoint_bounds in E.
Qed.

Lemma serializable_before self :
  serializable (fst (build_input self)) -> serializable self.
Proof.
  unfold serializable, build_input. simpl.
  rewrite !dict_get_set_other by discriminate. tauto.
Qed.

(** [build_input] returns a text exactly for the objects that hold
    [control.calculation], an integer [system.ibrav], and lists long enough
    for the loops that index them: on every other object it raises. *)
Theorem build_input_returns_iff (self : Calc.calc) :
  (exists text, snd (build_input self) = Ok text) <-> serializable self.
Proof.
  split.
  - intros (text & H). apply serializable_before.
    change (snd (build_input self))
      with (build_text (fst (build_input self))) in H.
    now apply build_text_serializable in H.
  - intros H. apply serializable_after in H.
    now apply build_text_total in H.
Qed.

Lemma build_input_counted self :
  dict_get (Calc.system self) "nat"
  = Some (str_int (Z.of_nat (length (Calc.atom_type self)))) ->
  dict_get (Calc.system self) "ntyp"
  = Some (str_int (Z.of_nat (length (Calc.atomic_species self)))) ->
  build_input self = (self, build_text self).
Proof.
  intros Hn Ht. unfold build_input. cbv zeta.
  rewrite (dict_set_same_value _ _ _ Hn), set_system_same.
  rewrite (dict_set_same_value _ _ _ Ht), set_system_same.
  reflexivity.
Qed.

(** Calling [build_input] again changes nothing more: the second call
    leaves the object as the first call left it, and returns the same text
    or raises the same exception. *)
Theorem build_input_again (self : Calc.calc) :
  build_input (fst (build_input self)) = build_input self.
Proof.
  rewrite build_input_counted.
  - reflexivity.
  - unfold build_input. simpl.
    rewrite dict_get_set_other by discriminate. apply dict_get_set_same.
  - unfold build_input. simpl. apply dict_get_set_same.
Qed.

Lemma species_loop_total self s :
  (length (Calc.atomic_species self) <= length (Calc.atomic_mass self))%nat ->
  (length (Calc.atomic_species self)
     <= length (Calc.pseudopotential self))%nat ->
  exists s',
    for_range (length (Calc.atomic_species self)) (emit_species self) s
    = Ok s'.
Proof.
  intros Hm Hp. apply for_each_total. intros i s0 Hi. apply in_seq in Hi.
  apply emit_species_total; lia.
Qed.

Lemma build_text_ibrav self c :
  dict_get (Calc.control self) "calculation" = Some c ->
  (length (Calc.atomic_species self) <= length (Calc.atomic_mass self))%nat ->
  (length (Calc.atomic_species self)
     <= length (Calc.pseudopotential self))%nat ->
  (dict_get (Calc.system self) "ibrav" = None ->
   build_text self = Raise KeyError) /\
  (forall s, dict_get (Calc.system self) "ibrav" = Some s ->
   py_int s = None -> build_text self = Raise ValueError).
Proof.
  intros Hc Hm Hp. unfold build_text, getitem, int. cbv zeta. rewrite Hc.
  cbn [bind].
  match goal with |- context [for_range ?n ?b ?s] =>
    destruct (species_loop_total self s Hm Hp) as [s1 E1] end.
  rewrite E1. cbn [bind]. split.
  - intros ->. reflexivity.
  - intros s Hs Hn. rewrite Hs. cbn [bind]. rewrite Hn. reflexivity.
Qed.

(** Once the species are written, [build_input] reads [system.ibrav] as an
    integer: when the key is absent it raises [KeyError], and when its text
    is no integer it raises [ValueError]. *)
Theorem build_input_ibrav_errors (self : Calc.calc) (c : string) :
  dict_get (Calc.control self) "calculation" = Some c ->
  (length (Calc.atomic_species self) <= length (Calc.atomic_mass self))%nat ->
  (length (Calc.atomic_species self)
     <= length (Calc.pseudopotential self))%nat ->
  (dict_get (Calc.system self) "ibrav" = None ->
   snd (build_input self) = Raise KeyError) /\
  (forall s, dict_get (Calc.system self) "ibrav" = Some s ->
   py_int s = None -> snd (build_input self) = Raise ValueError).
Proof.
  intros Hc Hm Hp.
  destruct (build_text_ibrav (fst (build_input self)) c Hc Hm Hp) as (K & V).
  assert (E : dict_get (Calc.system (fst (build_input self))) "ibrav"
              = dict_get (Calc.system self) "ibrav").
  { unfold build_input. simpl. now rewrite !dict_get_set_other by discriminate. }
  rewrite E in K, V. split; [exact K | exact V].
Qed.

End BuildDomain.

(** * [read_input]: the list of k-points, and the lines it passes over *)

#[local] Arguments py_int : simpl never.
#[local] Arguments str_int : simpl never.

Lemma add_kpoints_cons r rows self :
  add_kpoints rows (add_kpoints [r] self) = add_kpoints (r :: rows) self.
Proof.
  destruct self. unfold add_kpoints. cbn. now rewrite <- !app_assoc.
Qed.

Lemma k_points_type_add_kpoints rows self :
  Calc.k_points_type (add_kpoints rows self) = Calc.k_points_type self.
Proof. reflexivity. Qed.

Ltac same_list_state :=
  f_equal; apply locals_ext; unfold in_list; flags;
  unfold add_kpoints; cbn [map fst snd]; reflexivity.

Section PointListRead.
Context {FT : FloatText}.

Lemma read_list_header_tokens header h u rest nk self :
  split header = h :: u :: rest -> lower h = "k_points" -> u <> "gamma" ->
  read_line (idle nk self) header
  = Ok (Rd.set_iskpoints true (idle nk (Calc.set_k_points_type u self))).
Proof.
  intros Hl Hh Hg. apply String.eqb_neq in Hg.
  unfold read_line. rewrite Hl.
  cbv zeta. cbn [item nth_error bind]. rewrite Hh.
  eval_eqb. flags. rewrite Hg. cbn [negb bind]. same_list_state.
Qed.

Lemma read_list_header u nk self :
  is_token u = true -> u <> "gamma" ->
  read_line (idle nk self) (("K_POINTS " ++ u) ++ NL)
  = Ok (Rd.set_iskpoints true (idle nk (Calc.set_k_points_type u self))).
Proof.
  intros Hu Hg.
  apply (read_list_header_tokens _ "K_POINTS" u []); [|reflexivity|exact Hg].
  change ("K_POINTS " ++ u) with ("K_POINTS" ++ " " ++ u).
  rewrite (split_header "K_POINTS" u eq_refl (is_token_no_space _ Hu)).
  replace (u =? "") with false
    by (symmetry; apply String.eqb_neq; now apply is_token_nonempty).
  reflexivity.
Qed.

Lemma read_list_count count c rest n nk self :
  split count = c :: rest -> is_keyword c = false -> py_int c = Some n ->
  Calc.k_points_type self <> "automatic" ->
  read_line (Rd.set_iskpoints true (idle nk self)) count
  = Ok (in_list 1 n self).
Proof.
  intros Hl Hkw Hn Ha. apply String.eqb_neq in Ha.
  unfold read_line. rewrite Hl.
  cbv zeta. cbn [item nth_error bind].
  not_keyword Hkw.
  repeat match goal with
         | Hx : (_ =? _) = false |- _ => rewrite Hx; clear Hx
         end.
  flags. rewrite Ha. cbn [Z.eqb]. unfold int. rewrite Hn. cbn [bind].
  same_list_state.
Qed.

Lemma read_list_row line r j n self :
  kpoint_row line r -> Calc.k_points_type self <> "automatic" -> j <> 0%Z ->
  read_line (in_list j n self) line
  = Ok (if (n <? j + 1)%Z then idle (Some n) (add_kpoints [r] self)
        else in_list (j + 1) n (add_kpoints [r] self)).
Proof.
  destruct r as (a & b & c & w).
  intros (t0 & t1 & t2 & t3 & more & Hl & Hkw & Ha & Hb & Hc & Hw) Hk Hj.
  cbn [fst snd] in Ha, Hb, Hc, Hw.
  apply String.eqb_neq in Hk. apply Z.eqb_neq in Hj.
  unfold read_line. rewrite Hl.
  cbv zeta. cbn [item nth_error bind].
  not_keyword Hkw.
  repeat match goal with
         | Hx : (_ =? _)%string = false |- _ => rewrite Hx; clear Hx
         end.
  unfold in_list. flags. rewrite Hk, Hj.
  unfold to_float. rewrite Ha, Hb, Hc, Hw. cbn [bind].
  destruct (n <? j + 1)%Z; same_list_state.
Qed.

Lemma read_list_rows lines rows :
  Forall2 kpoint_row lines rows ->
  forall j n self,
  rows <> [] -> Calc.k_points_type self <> "automatic" ->
  (1 <= j)%Z -> Z.of_nat (length rows) = Z.max 1 (n - j + 1) ->
  read_lines lines (in_list j n self)
  = Ok (idle (Some n) (add_kpoints rows self)).
Proof.
  induction 1 as [|line r lines rows Hr Hrest IH]; intros j n self Hne Hk Hj Hn;
    [congruence|].
  cbn [read_lines].
  rewrite (read_list_row line r j n self Hr Hk) by lia.
  cbn [bind].
  destruct Hrest as [|line' r' lines' rows' Hr' Hrest'].
  - replace (n <? j + 1)%Z with true
      by (symmetry; apply Z.ltb_lt; cbn [length] in Hn; lia).
    reflexivity.
  - replace (n <? j + 1)%Z with false
      by (symmetry; apply Z.ltb_ge; cbn [length] in Hn; lia).
    rewrite IH; [now rewrite add_kpoints_cons | discriminate
                | now rewrite k_points_type_add_kpoints | lia
                | cbn [length] in Hn |- *; lia].
Qed.

Lemma plain_kpoint r : kpoint_ok r -> plain (kpoint_line r) = true.
Proof.
  destruct r as (a & b & c & w). intros (Ha & Hb & Hc & Hw).
  cbn [fst snd] in Ha, Hb, Hc, Hw. unfold kpoint_line.
  rewrite !plain_app, !andb_true_iff.
  repeat split; first [reflexivity | now apply plain_float].
Qed.

(** A K_POINTS card with a list of points, wherever it stands in the file
    after lines that leave no section open: a header line whose first
    token is [k_points] in any letter case and whose second token [u] is
    neither [gamma] nor [automatic]; a line whose first token is no header
    and is read by [int] as [n]; then [max 1 n] lines of four tokens or
    more, the first no header and the first four read by [float]. The type
    becomes [u], the four numbers of each line are appended to [kx], [ky],
    [kz] and [wk] in the order of the lines, further tokens are not read,
    and the lines after the card are read with no section open. So a count
    of zero or less closes the card after one line. *)
Theorem read_input_point_list text self pre header count lines post
    nk self' h u hrest c crest n rows :
  file_lines text = (pre ++ header :: count :: lines ++ post)%list ->
  read_lines pre (Rd.init self) = Ok (idle nk self') ->
  split header = h :: u :: hrest -> lower h = "k_points" ->
  u <> "gamma" -> u <> "automatic" ->
  split count = c :: crest -> is_keyword c = false -> py_int c = Some n ->
  Forall2 kpoint_row lines rows ->
  Z.of_nat (length rows) = Z.max 1 n ->
  read_input text self
  = (st <- read_lines post
             (idle (Some n)
                (add_kpoints rows (Calc.set_k_points_type u self'))) ;;
     Ok (Rd.self st)).
Proof.
  intros Hf Hpre Hh Hk Hg Ha Hc Hkw Hn Hrows Hlen.
  rewrite read_input_lines, Hf, read_lines_app, Hpre.
  cbn [bind read_lines].
  rewrite (read_list_header_tokens header h u hrest nk self' Hh Hk Hg).
  cbn [bind].
  rewrite (read_list_count count c crest n nk _ Hc Hkw Hn) by exact Ha.
  cbn [bind]. rewrite read_lines_app.
  rewrite (read_list_rows lines rows Hrows 1%Z n);
    [reflexivity | | exact Ha | lia | lia].
  intros ->. cbn [length] in Hlen. lia.
Qed.

(** *** Lines that are passed over *)

Lemma read_line_passed nk self line l0 rest :
  split line = l0 :: rest -> is_keyword l0 = false ->
  read_line (idle nk self) line = Ok (idle nk self).
Proof.
  intros Hl Hkw. unfold read_line. rewrite Hl.
  cbv zeta. cbn [item nth_error bind].
  not_keyword Hkw.
  repeat match goal with
         | Hx : (_ =? _)%string = false |- _ => rewrite Hx; clear Hx
         end.
  flags. reflexivity.
Qed.

(** Outside the namelists and the cards, a line whose first token is no
    header is passed over without a message: a file made of such lines is
    read without an exception and leaves the object as it was. *)
Theorem read_input_passes_over text self :
  Forall (fun line => exists l0 rest,
            split line = l0 :: rest /\ is_keyword l0 = false)
    (file_lines text) ->
  read_input text self = Ok self.
Proof.
  intros H. rewrite read_input_lines.
  change (Rd.init self) with (idle None self).
  induction H as [|line lines (l0 & rest & Hl & Hkw) _ IH]; [reflexivity|].
  cbn [read_lines]. rewrite (read_line_passed _ _ _ _ _ Hl Hkw). exact IH.
Qed.

End PointListRead.

(** * The deck of a list of points does not come back *)

#[local] Arguments py_int : simpl never.
#[local] Arguments str_int : simpl never.

Lemma split_from_first cur s :
  cur <> "" -> exists t rest, split_from cur s = (cur ++ t) :: rest.
Proof.
  revert cur. induction s as [|c s IH]; intros cur Hne; cbn [split_from].
  - destruct cur; [congruence|]. exists "", []. now rewrite append_nil_r.
  - destruct (is_space c).
    + destruct cur; [congruence|]. exists "", (split_from "" s).
      now rewrite append_nil_r.
    + destruct (IH (cur ++ String c "")) as (t & rest & E).
      { destruct cur; discriminate. }
      exists (String c t), rest. rewrite E. f_equal.
      now rewrite append_assoc.
Qed.

Lemma split_bracket s :
  exists t rest, split (String "[" s) = String "[" t :: rest.
Proof.
  unfold split. cbn [split_from].
  change (is_space "[") with false. cbn [append].
  destruct (split_from_first (String "[" "") s) as (t & rest & E);
    [discriminate|].
  exists t, rest. exact E.
Qed.

Lemma py_int_bracket t : py_int (String "[" t) = None.
Proof.
  unfold py_int, int_strip. cbn [int_rstrip].
  destruct (int_rstrip t); reflexivity.
Qed.

Lemma is_keyword_bracket t : is_keyword (String "[" t) = false.
Proof. reflexivity. Qed.

Lemma plain_concat sep l :
  plain sep = true -> Forall (fun s => plain s = true) l ->
  plain (String.concat sep l) = true.
Proof.
  intros Hs. induction 1 as [|x l Hx Hl IH]; [reflexivity|].
  cbn [String.concat]. destruct l as [|y l]; [exact Hx|].
  rewrite !plain_app, Hx, Hs. exact IH.
Qed.

Section PointListDeck.
Context {FT : FloatText}.

Lemma plain_float_list l :
  Forall float_ok l -> plain (str_float_list l) = true.
Proof.
  intros Hl. unfold str_float_list.
  rewrite !plain_app, plain_concat; [reflexivity | reflexivity |].
  apply Forall_map. eapply Forall_impl; [|exact Hl]. apply plain_float.
Qed.

(** The line [str(self.wk)] read where the number of points is expected. *)
Lemma read_list_line_bad l nk self :
  Calc.k_points_type self <> "automatic" ->
  read_line (Rd.set_iskpoints true (idle nk self)) (str_float_list l ++ NL)
  = Raise ValueError.
Proof.
  intros Ha. apply String.eqb_neq in Ha.
  unfold read_line, str_float_list. cbn [append].
  destruct (split_bracket
              ((String.concat ", " (map str_float l) ++ "]") ++ NL))
    as (t & rest & ->).
  cbv zeta. cbn [item nth_error bind].
  pose proof (is_keyword_bracket t) as Hkw. not_keyword Hkw.
  repeat match goal with
         | Hx : (_ =? _)%string = false |- _ => rewrite Hx; clear Hx
         end.
  flags. rewrite Ha. cbn [Z.eqb]. unfold int. rewrite py_int_bracket.
  reflexivity.
Qed.

Lemma kpoint_rows_length m :
  length (Calc.kx m) = length (Calc.wk m) ->
  length (Calc.ky m) = length (Calc.wk m) ->
  length (Calc.kz m) = length (Calc.wk m) ->
  length (kpoint_rows m) = length (Calc.wk m).
Proof.
  intros Hx Hy Hz. unfold kpoint_rows. rewrite !length_combine. lia.
Qed.

Lemma emit_kpoint_line m i row s :
  nth_error (with_nl (map kpoint_line (kpoint_rows m))) i = Some row ->
  emit_kpoint m i s = Ok (s ++ row).
Proof.
  unfold with_nl, kpoint_rows. rewrite !nth_error_map.
  destruct (nth_error _ i) as [[a [b [c w]]]|] eqn:E; [|discriminate].
  intros [= <-].
  apply nth_error_combine in E as [Ha E].
  apply nth_error_combine in E as [Hb E].
  apply nth_error_combine in E as [Hc Hw].
  unfold emit_kpoint.
  rewrite (item_some _ _ _ Ha), (item_some _ _ _ Hb), (item_some _ _ _ Hc),
    (item_some _ _ _ Hw).
  cbn [bind kpoint_line]. norm_append. reflexivity.
Qed.

(** The text of a deck sampled on a list of points. *)
Lemma build_text_list_bodies m c s n :
  list_deck_ok m ->
  dict_get (Calc.control m) "calculation" = Some c ->
  dict_get (Calc.system m) "ibrav" = Some s -> py_int s = Some n ->
  build_text m = Ok (text_of_lines (deck_list_bodies m c n)).
Proof.
  intros (Hok & Hu & Hg & Ha & Lx & Ly & Lz & _) Hc Hs Hn.
  assert (Hlw : length (Calc.atomic_mass m)
                = length (Calc.atomic_species m))
    by exact (proj1 (proj2 (ok_species _ Hok))).
  assert (Hlp : length (Calc.pseudopotential m)
                = length (Calc.atomic_species m))
    by exact (proj1 (proj2 (proj2 (ok_species _ Hok)))).
  assert (Hal : length (atom_lines m) = length (Calc.atom_type m))
    by exact (atom_lines_length _ Hok).
  assert (Hv0 : n = 0%Z ->
                length (Calc.v1 m) = 3%nat /\ length (Calc.v2 m) = 3%nat /\
                length (Calc.v3 m) = 3%nat).
  { destruct (ok_ibrav _ Hok) as (s' & n' & Hs' & Hn' & Hv & _).
    change (dict_get (Calc.system m) "ibrav" = Some s') in Hs'.
    rewrite Hs in Hs'. injection Hs' as <-.
    rewrite Hn in Hn'. injection Hn' as <-. exact Hv. }
  apply String.eqb_neq in Hg, Ha.
  unfold build_text, getitem, int. rewrite Hc, Hs. cbn [bind]. rewrite Hn.
  cbn [bind]. rewrite !emit_namelist_lines.
  rewrite (for_range_rows (with_nl (map species_line (species_rows m)))
             (emit_species m)).
  2:{ unfold with_nl. now rewrite !length_map, species_rows_length. }
  2:{ intros i row s0. apply emit_species_line. }
  cbn [bind].
  unfold text_of_lines, deck_list_bodies, deck_prefix, namelist_lines, is_vc.
  assert (Hatoms :
    forall s0, for_range (length (Calc.atom_type m)) (emit_atom m) s0
               = Ok (s0 ++ String.concat "" (with_nl (atom_lines m)))).
  { apply for_range_rows.
    - unfold with_nl. now rewrite length_map.
    - intros i row s0. apply emit_atom_line. }
  assert (Hpoints :
    forall s0, for_range (length (Calc.wk m)) (emit_kpoint m) s0
               = Ok (s0 ++ String.concat ""
                             (with_nl (map kpoint_line (kpoint_rows m))))).
  { apply for_range_rows.
    - unfold with_nl. now rewrite !length_map, kpoint_rows_length.
    - intros i row s0. apply emit_kpoint_line. }
  rewrite Hg, Ha. cbn [negb].
  destruct (n =? 0)%Z eqn:E0.
  - apply Z.eqb_eq in E0. destruct (Hv0 E0) as (L1 & L2 & L3).
    rewrite (emit_vector_line _ _ L1). cbn [bind].
    rewrite (emit_vector_line _ _ L2). cbn [bind].
    rewrite (emit_vector_line _ _ L3). cbn [bind].
    rewrite Hatoms. cbn [bind]. rewrite Hpoints.
    destruct ((c =? "'vc-relax'") || (c =? "'vc-md'")); f_equal; deck_text.
  - cbn [bind]. rewrite Hatoms. cbn [bind]. rewrite Hpoints.
    destruct ((c =? "'vc-relax'") || (c =? "'vc-md'")); f_equal; deck_text.
Qed.

(** Reading the lines before the K_POINTS card ends between two
    sections. *)
Lemma read_deck_prefix m c s n :
  deck_ok m ->
  dict_get (Calc.control m) "calculation" = Some c ->
  dict_get (Calc.system m) "ibrav" = Some s -> py_int s = Some n ->
  exists s1,
    read_lines (with_nl (deck_prefix m c n)) (Rd.init Calc.init)
    = Ok (idle None s1).
Proof.
  intros Hm Hc Hs Hn.
  destruct (ok_control m Hm) as [_ Fc]. destruct (ok_system m Hm) as [_ Fs].
  destruct (ok_electrons m Hm) as [_ Fe]. destruct (ok_ions m Hm) as [_ Fi].
  destruct (ok_cell m Hm) as [_ Fl].
  destruct (ok_calculation m Hm) as (c' & Hc' & Hvc).
  rewrite Hc in Hc'. injection Hc' as <-.
  destruct (ok_ibrav m Hm) as (s' & n' & Hs' & Hn' & H0 & H1).
  rewrite Hs in Hs'. injection Hs' as <-.
  rewrite Hn in Hn'. injection Hn' as <-.
  destruct (ok_vectors m Hm) as (F1 & F2 & F3).
  destruct (ok_units m Hm) as (Up & Uc).
  destruct (ok_species m Hm) as (Hne & _).
  change (Rd.init Calc.init) with (idle None Calc.init).
  unfold deck_prefix.
  rewrite !with_nl_app.
  rewrite read_lines_app, read_control_namelist by exact Fc. cbn [bind].
  rewrite read_lines_app, read_system_namelist by exact Fs. cbn [bind].
  rewrite read_lines_app, read_electrons_namelist by exact Fe. cbn [bind].
  rewrite read_lines_app, read_ions_namelist by exact Fi. cbn [bind].
  rewrite read_lines_app, read_cell_namelist_if by assumption. cbn [bind].
  match goal with
  | |- context [read_lines _ (idle None ?s0)] =>
      change s0 with (reread_namelists m)
  end.
  rewrite read_lines_app, read_species_card;
    [ cbn [bind]
    | intros E; apply (f_equal (@length _)) in E;
      rewrite species_rows_count in E by exact Hm;
      destruct (Calc.atomic_species m); [now apply Hne | discriminate]
    | now apply species_rows_ok
    | rewrite reread_namelists_system, species_rows_count by exact Hm;
      exact (ok_ntyp m Hm) ].
  rewrite read_lines_app, (read_cell_card n);
    [ cbn [bind] | exact Uc | reflexivity | exact H0
    | intros Hne0; destruct (H1 Hne0) as (E1 & E2 & E3 & E4);
      now rewrite E1, E2, E3, E4
    | exact F1 | exact F2 | exact F3 ].
  rewrite read_positions_card;
    [ eexists; reflexivity | exact Hm | reflexivity
    | change (dict_get (Calc.system (reread_namelists m)) "nat"
              = Some (str_int (Z.of_nat (length (Calc.atom_type m)))));
      rewrite reread_namelists_system by exact Hm; exact (ok_nat m Hm) ].
Qed.

Lemma deck_bodies_prefix m c n :
  deck_bodies m c n
  = (deck_prefix m c n
     ++ ("K_POINTS " ++ Calc.k_points_type m)%string
          :: (if Calc.k_points_type m =? "automatic" then [grid_line m]
              else []))%list.
Proof.
  unfold deck_bodies, deck_prefix.
  repeat first [rewrite <- List.app_assoc | rewrite <- List.app_comm_cons].
  reflexivity.
Qed.

Lemma plain_deck_prefix m c n :
  deck_ok m -> Forall (fun b => plain b = true) (deck_prefix m c n).
Proof.
  intros Hm. pose proof (plain_deck m c n Hm) as H.
  rewrite deck_bodies_prefix in H.
  now apply Forall_app in H as [H _].
Qed.

Lemma list_deck_parts m :
  list_deck_ok m ->
  exists c s n,
    dict_get (Calc.control m) "calculation" = Some c /\
    dict_get (Calc.system m) "ibrav" = Some s /\ py_int s = Some n.
Proof.
  intros (Hok & _).
  destruct (ok_calculation _ Hok) as (c & Hc & _).
  destruct (ok_ibrav _ Hok) as (s & n & Hs & Hn & _).
  now exists c, s, n.
Qed.

Lemma plain_deck_list_bodies m c n :
  list_deck_ok m -> Forall (fun b => plain b = true) (deck_list_bodies m c n).
Proof.
  intros (Hok & Hu & Hg & Ha & _ & _ & _ & Fx & Fy & Fz & Fw).
  unfold deck_list_bodies. apply Forall_app. split.
  - exact (plain_deck_prefix _ c n Hok).
  - constructor.
    + rewrite plain_app, (plain_token _ Hu). reflexivity.
    + constructor; [now apply plain_float_list|].
      apply Forall_map. unfold kpoint_rows.
      pose proof (Forall_combine float_ok
                    (fun r => float_ok (fst r) /\ float_ok (fst (snd r))
                              /\ float_ok (snd (snd r)))
                    (Calc.kx m)
                    (combine (Calc.ky m)
                       (combine (Calc.kz m) (Calc.wk m))) Fx) as Hall.
      eapply Forall_impl; [|apply Hall].
      * intros r Hr. apply plain_kpoint. exact Hr.
      * apply (Forall_combine float_ok
                 (fun r => float_ok (fst r) /\ float_ok (snd r)));
          [exact Fy|].
        now apply (Forall_combine float_ok float_ok).
Qed.

(** What [build_input] returns for a deck sampled on a list of points. *)
Lemma build_input_list_deck m c s n :
  list_deck_ok m ->
  dict_get (Calc.control m) "calculation" = Some c ->
  dict_get (Calc.system m) "ibrav" = Some s -> py_int s = Some n ->
  build_input m = (m, Ok (text_of_lines (deck_list_bodies m c n))).
Proof.
  intros Hlist Hc Hs Hn. pose proof Hlist as (Hok & _).
  rewrite build_input_counted;
    [ now rewrite (build_text_list_bodies m c s n)
    | exact (ok_nat _ Hok) | exact (ok_ntyp _ Hok) ].
Qed.

(** Reading that text back: the line after the K_POINTS header is no
    integer. *)
Lemma read_list_deck m c s n :
  list_deck_ok m ->
  dict_get (Calc.control m) "calculation" = Some c ->
  dict_get (Calc.system m) "ibrav" = Some s -> py_int s = Some n ->
  read_input (text_of_lines (deck_list_bodies m c n)) Calc.init
  = Raise ValueError.
Proof.
  intros Hlist Hc Hs Hn.
  pose proof Hlist as (Hok & Hu & Hg & Ha & _).
  rewrite read_input_lines, file_lines_text
    by now apply plain_deck_list_bodies.
  unfold deck_list_bodies. rewrite with_nl_app, read_lines_app.
  destruct (read_deck_prefix (at_gamma m) c s n Hok Hc Hs Hn)
    as (s1 & E1).
  change (deck_prefix (at_gamma m) c n) with (deck_prefix m c n) in E1.
  rewrite E1. cbn [bind]. unfold with_nl. cbn [map read_lines].
  rewrite (read_list_header _ None s1 Hu Hg). cbn [bind].
  rewrite read_list_line_bad by exact Ha. reflexivity.
Qed.

(** For a deck sampled on a list of points, [build_input] writes the list
    [str(self.wk)] on the line where [read_input] reads the number of
    points with [int]: the text is returned, and reading it back raises
    [ValueError]. *)
Theorem build_input_point_list_not_read (m : Calc.calc) :
  list_deck_ok m ->
  exists text,
    build_input m = (m, Ok text) /\
    In (str_float_list (Calc.wk m) ++ NL) (file_lines text) /\
    read_input text Calc.init = Raise ValueError.
Proof.
  intros Hlist.
  destruct (list_deck_parts m Hlist) as (c & s & n & Hc & Hs & Hn).
  exists (text_of_lines (deck_list_bodies m c n)).
  split; [|split].
  - now apply (build_input_list_deck m c s n).
  - rewrite file_lines_text by now apply plain_deck_list_bodies.
    unfold deck_list_bodies, with_nl. rewrite map_app. apply in_or_app.
    right. cbn [map]. right. now left.
  - now apply (read_list_deck m c s n).
Qed.

End PointListDeck.

(** * [read_input] only adds to the object *)

Lemma grows_refl {A : Type} (a : list A) : grows a a.
Proof. exists []. now rewrite List.app_nil_r. Qed.

Lemma grows_one {A : Type} (a : list A) (s : list A) : grows a (a ++ s).
Proof. now exists s. Qed.

Lemma grows_trans {A : Type} (a b c : list A) :
  grows a b -> grows b c -> grows a c.
Proof.
  intros (s & ->) (t & ->). exists (s ++ t)%list. now rewrite List.app_assoc.
Qed.

Lemma lists_grow_refl c : lists_grow c c.
Proof. unfold lists_grow. repeat split; apply grows_refl. Qed.

Lemma lists_grow_trans c1 c2 c3 :
  lists_grow c1 c2 -> lists_grow c2 c3 -> lists_grow c1 c3.
Proof.
  unfold lists_grow. intros H1 H2.
  repeat match goal with
         | H : _ /\ _ |- _ => destruct H
         end.
  repeat split; eapply grows_trans; eassumption.
Qed.

Section OnlyAdds.
Context {FT : FloatText}.

Lemma read_line_grows a line a1 :
  read_line a line = Ok a1 -> lists_grow (Rd.self a) (Rd.self a1).
Proof.
  intros H. destruct a as [f1 f2 f3 f4 f5 f6 f7 f8 f9 j nk s]. destruct s.
  unfold read_line, read_vector in H. cbv zeta in H.
  unfold Rd.upd in H. cbn in H.
  repeat break H.
  all: cbn in H; injection H as <-; unfold lists_grow; cbn.
  all: repeat match goal with |- _ /\ _ => split end.
  all: first [apply grows_refl | apply grows_one].
Qed.

Lemma read_lines_grows lines : forall a af,
  read_lines lines a = Ok af -> lists_grow (Rd.self a) (Rd.self af).
Proof.
  induction lines as [|line lines IH]; intros a af H.
  - injection H as <-. apply lists_grow_refl.
  - cbn [read_lines] in H. apply bind_ok_inv in H as (a1 & H1 & H2).
    eapply lists_grow_trans; [eapply read_line_grows | eapply IH]; eassumption.
Qed.

(** [read_input] only adds to the object: when it returns, every list
    attribute is the one before the call with entries appended, and every
    key of the five namelists is still there. *)
Theorem read_input_only_adds text self after :
  read_input text self = Ok after ->
  lists_grow self after /\ dicts_incl self after.
Proof.
  rewrite read_input_lines. intros H.
  apply bind_ok_inv in H as (st & Hst & H). injection H as <-. split.
  - exact (read_lines_grows _ _ _ Hst).
  - exact (proj1 (read_lines_dicts _ _ _ Hst)).
Qed.

End OnlyAdds.

(** * The deck through a file, and what the text leaves out *)

Section DeckFile.
Context {FT : FloatText}.

Lemma read_input_deck m c s n :
  deck_ok m ->
  dict_get (Calc.control m) "calculation" = Some c ->
  dict_get (Calc.system m) "ibrav" = Some s -> py_int s = Some n ->
  read_input (text_of_lines (deck_bodies m c n)) Calc.init = Ok m.
Proof.
  intros Hm Hc Hs Hn.
  rewrite read_input_lines, file_lines_text by now apply plain_deck.
  destruct (read_deck m c s n Hm Hc Hs Hn) as (st & -> & Hst).
  cbn [bind]. now rewrite Hst, reread_eq.
Qed.

(** The text of a well-formed deck, line by line: the four namelists, the
    CELL namelist for a variable-cell calculation only, the species, the
    cell vectors when [ibrav] is 0 only, the positions, with the movement
    flags when there are some, and the K_POINTS card, with the grid on its
    own line for the automatic type. *)
Theorem build_input_text_lines m c s n :
  deck_ok m ->
  dict_get (Calc.control m) "calculation" = Some c ->
  dict_get (Calc.system m) "ibrav" = Some s -> py_int s = Some n ->
  snd (build_input m) = Ok (text_of_lines (deck_bodies m c n)) /\
  file_lines (text_of_lines (deck_bodies m c n))
  = with_nl (deck_bodies m c n).
Proof.
  intros Hm Hc Hs Hn. split.
  - now rewrite (build_input_deck m c s n).
  - apply file_lines_text. now apply plain_deck.
Qed.

(** With [saveinp=True] the text is written under [inpfile] and no other
    file changes; [read_input(inpfile)] on a newly constructed object then
    gives back a well-formed deck. A file that is not there leaves the
    object as it was, without an exception. *)
Theorem build_input_file_read_back m inpfile fs :
  deck_ok m ->
  exists text,
    build_input_file true inpfile m fs
    = (write_input inpfile text fs, (m, Ok text)) /\
    build_input_file false inpfile m fs = (fs, (m, Ok text)) /\
    read_input_file inpfile Calc.init (write_input inpfile text fs) = Ok m /\
    (forall other, other <> inpfile ->
       dict_get (write_input inpfile text fs) other = dict_get fs other) /\
    (forall self, dict_get fs inpfile = None ->
       read_input_file inpfile self fs = Ok self).
Proof.
  intros Hm.
  destruct (ok_calculation m Hm) as (c & Hc & _).
  destruct (ok_ibrav m Hm) as (s & n & Hs & Hn & _).
  exists (text_of_lines (deck_bodies m c n)).
  unfold build_input_file, read_input_file, write_input.
  rewrite (build_input_deck m c s n Hm Hc Hs Hn), dict_get_set_same.
  repeat match goal with |- _ /\ _ => split end.
  - reflexivity.
  - reflexivity.
  - now apply (read_input_deck m c s n).
  - intros other Hne. now apply dict_get_set_other.
  - intros self ->. reflexivity.
Qed.

Lemma build_text_cell_unused m d c :
  dict_get (Calc.control m) "calculation" = Some c -> is_vc c = false ->
  build_text (Calc.set_cell d m) = build_text m.
Proof.
  intros Hc Hv. destruct m. cbn [Calc.control] in Hc.
  unfold is_vc in Hv.
  unfold build_text, getitem.
  cbn [Calc.control Calc.set_cell Calc.system Calc.electrons Calc.ions
       Calc.atomic_species Calc.atom_type Calc.cell_parameters_units
       Calc.atomic_positions_units Calc.k_points_type Calc.v1 Calc.v2
       Calc.v3 Calc.nk1 Calc.nk2 Calc.nk3 Calc.sk1 Calc.sk2 Calc.sk3
       Calc.wk].
  rewrite Hc. cbn [bind]. rewrite Hv. reflexivity.
Qed.

(** The [cell] namelist of a deck that is not a variable-cell calculation
    is not written: what comes back is the deck with an empty [cell]. *)
Theorem build_input_drops_cell m c :
  deck_ok (Calc.set_cell [] m) ->
  dict_get (Calc.control m) "calculation" = Some c -> is_vc c = false ->
  exists text,
    build_input m = (m, Ok text) /\
    read_input text Calc.init = Ok (Calc.set_cell [] m).
Proof.
  intros Hm Hc Hv.
  destruct (ok_ibrav _ Hm) as (s & n & Hs & Hn & _).
  exists (text_of_lines (deck_bodies (Calc.set_cell [] m) c n)). split.
  - rewrite build_input_counted;
      [ | exact (ok_nat _ Hm) | exact (ok_ntyp _ Hm) ].
    rewrite <- (build_text_cell_unused m [] c Hc Hv).
    now rewrite (build_text_bodies (Calc.set_cell [] m) c s n).
  - now apply (read_input_deck (Calc.set_cell [] m) c s n).
Qed.

End DeckFile.

(** * Examples *)

(** The lines of a closed text, computed. *)
Ltac eval_lines :=
  repeat match goal with
  | |- context [readlines ?t] =>
      let v := eval vm_compute in (readlines t) in
      change (readlines t) with v
  | |- context [file_lines ?t] =>
      let v := eval vm_compute in (file_lines t) in
      change (file_lines t) with v
  end.

Ltac closed_conj :=
  repeat match goal with |- _ /\ _ => split end;
  first [ vm_compute; reflexivity | discriminate ].

(** The series of [log_scf]: the value that is no number is left out. *)
Lemma get_output_info_series_witness :
  exists o,
    get_output_info (FT := DecFloat.table) log_scf false = Ok o /\
    Out.energy o = [(-1) * ry2ev; (-2) * ry2ev]%float /\
    Out.magnetization o = [2%float] /\ Out.absmagnetization o = [] /\
    Out.efermi o = Some 6%float.
Proof.
  destruct (get_output_info (FT := DecFloat.table) log_scf false)
    as [o|e] eqn:E; [|vm_compute in E; discriminate E].
  destruct (get_output_info_series (FT := DecFloat.table) _ _ _ E)
    as (HE & HM & HA & HF).
  exists o. split; [reflexivity|]. rewrite HE, HM, HA, HF. closed_conj.
Defined.

Lemma get_output_info_jobdone_witness :
  Exists (fun line => is_end_line line = true) (readlines log_scf).
Proof.
  destruct (get_output_info (FT := DecFloat.table) log_scf false)
    as [o|e] eqn:E; [|vm_compute in E; discriminate E].
  apply (get_output_info_jobdone (FT := DecFloat.table) _ _ _ E).
  vm_compute in E. injection E as <-. reflexivity.
Defined.

Lemma get_output_info_without_axes_witness :
  exists o,
    get_output_info (FT := DecFloat.table) log_scf false = Ok o /\
    Out.v1 o = [] /\ Out.v2 o = [] /\ Out.v3 o = [] /\
    get_output_info (FT := DecFloat.table) log_scf true = Raise IndexError.
Proof.
  destruct (get_output_info (FT := DecFloat.table) log_scf false)
    as [o|e] eqn:E; [|vm_compute in E; discriminate E].
  exists o. split; [reflexivity|].
  apply (get_output_info_without_axes (FT := DecFloat.table) _ _);
    [|exact E].
  eval_lines.
  repeat (apply Forall_cons; [vm_compute; reflexivity|]). apply Forall_nil.
Defined.

Lemma crystal_axes_without_lattice_parameter_witness :
  get_output_info (FT := DecFloat.table) log_axes_first false
  = Raise TypeError.
Proof.
  apply (crystal_axes_without_lattice_parameter (FT := DecFloat.table)
           log_axes_first false []
           ("     crystal axes: (cart. coord. in units of alat)" ++ NL)
           ("               a(1) = (   1.000000   0.000000   0.000000 )  "
              ++ NL)
           ["     lattice parameter (alat)  =       2.0000  a.u." ++ NL]
           Scan.init "crystal" "axes:"
           ["(cart."; "coord."; "in"; "units"; "of"; "alat)"]
           1%float 0%float 0%float).
  - vm_compute. reflexivity.
  - apply Forall_nil.
  - apply Forall_nil.
  - reflexivity.
  - vm_compute. reflexivity.
  - reflexivity.
  - reflexivity.
  - exists "a(1)", "(", "1.000000", "0.000000", "0.000000", [")"].
    closed_conj.
Defined.

Lemma atomic_positions_block_witness :
  exists st',
    scan_lines (FT := DecFloat.table)
      ["ATOMIC_POSITIONS (angstrom)" ++ NL;
       "H        0.000000   0.000000   0.000000" ++ NL;
       "H        0.000000   0.000000   1.000000" ++ NL]
      (Scan.set_natoms (Some 2%Z) Scan.init) = Ok st' /\
    Scan.nextcoords st' = false /\
    collect st'
    = Out.set_z [0%float; 1%float]
        (Out.set_y [0%float; 0%float]
           (Out.set_x [0%float; 0%float]
              (Out.set_atom_type ["H"; "H"] Out.init))).
Proof.
  destruct (atomic_positions_block (FT := DecFloat.table)
              (Scan.set_natoms (Some 2%Z) Scan.init)
              ("ATOMIC_POSITIONS (angstrom)" ++ NL)
              ["H        0.000000   0.000000   0.000000" ++ NL;
               "H        0.000000   0.000000   1.000000" ++ NL]
              [("H", (0%float, (0%float, 0%float)));
               ("H", (0%float, (0%float, 1%float)))])
    as (H & _).
  - exists "ATOMIC_POSITIONS", ["(angstrom)"]. closed_conj.
  - apply Forall2_cons; [|apply Forall2_cons; [|apply Forall2_nil]].
    + exists "0.000000", "0.000000", "0.000000", []. closed_conj.
    + exists "0.000000", "0.000000", "1.000000", []. closed_conj.
  - reflexivity.
  - reflexivity.
  - apply H; [discriminate | reflexivity].
Defined.

Lemma forces_block_witness :
  exists st',
    scan_lines (FT := DecFloat.table)
      (("     Forces acting on atoms (cartesian axes, Ry/au):" ++ NL)
         :: [NL]
         ++ ["     atom    1 type  1   force =     0.0    0.0    1.0" ++ NL])
      (Scan.set_natoms (Some 1%Z) Scan.init) = Ok st' /\
    Scan.nextforces st' = false /\
    collect st'
    = Out.set_fz [force_of 1]
        (Out.set_fy [force_of 0] (Out.set_fx [force_of 0] Out.init)).
Proof.
  apply (forces_block (FT := DecFloat.table)
           (Scan.set_natoms (Some 1%Z) Scan.init)
           ("     Forces acting on atoms (cartesian axes, Ry/au):" ++ NL)
           [NL]
           ["     atom    1 type  1   force =     0.0    0.0    1.0" ++ NL]
           [(0%float, (0%float, 1%float))]).
  - exists "Forces", "acting", "on", "atoms", "(cartesian", "axes,", "Ry/au):",
      []. closed_conj.
  - apply Forall_cons; [vm_compute; reflexivity | apply Forall_nil].
  - apply Forall2_cons; [|apply Forall2_nil].
    exists "atom", "1", "type", "1", "force", "=", "0.0", "0.0", "1.0", [].
    closed_conj.
  - reflexivity.
  - discriminate.
  - reflexivity.
Defined.

Lemma build_input_ibrav_errors_witness :
  snd (build_input (FT := DecFloat.table)
         (Calc.set_control [("calculation", "'scf'")] Calc.init))
  = Raise KeyError /\
  snd (build_input (FT := DecFloat.table)
         (Calc.set_system [("ibrav", "cubic")]
            (Calc.set_control [("calculation", "'scf'")] Calc.init)))
  = Raise ValueError.
Proof.
  split.
  - destruct (build_input_ibrav_errors (FT := DecFloat.table)
                (Calc.set_control [("calculation", "'scf'")] Calc.init)
                "'scf'") as (K & _);
      [reflexivity | apply le_n | apply le_n |].
    apply K. reflexivity.
  - destruct (build_input_ibrav_errors (FT := DecFloat.table)
                (Calc.set_system [("ibrav", "cubic")]
                   (Calc.set_control [("calculation", "'scf'")] Calc.init))
                "'scf'") as (_ & V);
      [reflexivity | apply le_n | apply le_n |].
    apply (V "cubic"); vm_compute; reflexivity.
Defined.

Lemma read_input_point_list_witness :
  read_input (FT := DecFloat.table) deck_bands_text Calc.init
  = Ok (add_kpoints
          [(0%float, (0%float, (0%float, 1%float)));
           (0.5%float, (0%float, (0%float, 1%float)))]
          (Calc.set_k_points_type "crystal_b"
             (Calc.set_control [("calculation", "'bands'")] Calc.init))).
Proof.
  refine (read_input_point_list (FT := DecFloat.table)
            deck_bands_text Calc.init
            ["&control" ++ NL; "calculation = 'bands'," ++ NL; "/" ++ NL]
            ("k_points crystal_b" ++ NL) ("2" ++ NL)
            ["0.0 0.0 0.0 1.0" ++ NL; "0.5 0.0 0.0 1.0 ! X" ++ NL] []
            None (Calc.set_control [("calculation", "'bands'")] Calc.init)
            "k_points" "crystal_b" [] "2" [] 2%Z
            [(0%float, (0%float, (0%float, 1%float)));
             (0.5%float, (0%float, (0%float, 1%float)))]
            _ _ _ _ _ _ _ _ _ _ _).
  - vm_compute; reflexivity.
  - vm_compute; reflexivity.
  - vm_compute; reflexivity.
  - reflexivity.
  - discriminate.
  - discriminate.
  - vm_compute; reflexivity.
  - reflexivity.
  - vm_compute; reflexivity.
  - apply Forall2_cons; [|apply Forall2_cons; [|apply Forall2_nil]].
    + exists "0.0", "0.0", "0.0", "1.0", []. closed_conj.
    + exists "0.5", "0.0", "0.0", "1.0", ["!"; "X"]. closed_conj.
  - reflexivity.
Defined.

Lemma read_input_passes_over_witness :
  read_input (FT := DecFloat.table)
    (text_of_lines ["# H2 molecule"; "title of the run"]) deck_gamma
  = Ok deck_gamma.
Proof.
  apply (read_input_passes_over (FT := DecFloat.table)).
  eval_lines.
  apply Forall_cons; [|apply Forall_cons; [|apply Forall_nil]].
  - exists "#", ["H2"; "molecule"]. closed_conj.
  - exists "title", ["of"; "the"; "run"]. closed_conj.
Defined.

Lemma read_input_only_adds_witness :
  exists after,
    read_input (FT := DecFloat.table) deck_full_text deck_gamma = Ok after /\
    lists_grow deck_gamma after /\ dicts_incl deck_gamma after.
Proof.
  destruct (read_input (FT := DecFloat.table) deck_full_text deck_gamma)
    as [after|e] eqn:E; [|vm_compute in E; discriminate E].
  exists after. split; [reflexivity|].
  exact (read_input_only_adds (FT := DecFloat.table) _ _ _ E).
Defined.

Lemma build_input_text_lines_witness :
  snd (build_input (FT := DecFloat.table) deck_full)
  = Ok (text_of_lines
          (deck_bodies (FT := DecFloat.table) deck_full "'vc-relax'" 0)) /\
  file_lines
    (text_of_lines
       (deck_bodies (FT := DecFloat.table) deck_full "'vc-relax'" 0))
  = with_nl (deck_bodies (FT := DecFloat.table) deck_full "'vc-relax'" 0).
Proof.
  apply (build_input_text_lines (FT := DecFloat.table) deck_full
           "'vc-relax'" "0" 0%Z deck_full_ok).
  - reflexivity.
  - reflexivity.
  - vm_compute. reflexivity.
Defined.

Lemma build_input_file_read_back_witness :
  exists text,
    build_input_file (FT := DecFloat.table) true "pw.in" deck_full
      [("old.in", "&CONTROL")]
    = (write_input "pw.in" text [("old.in", "&CONTROL")],
       (deck_full, Ok text)) /\
    build_input_file (FT := DecFloat.table) false "pw.in" deck_full
      [("old.in", "&CONTROL")]
    = ([("old.in", "&CONTROL")], (deck_full, Ok text)) /\
    read_input_file (FT := DecFloat.table) "pw.in" Calc.init
      (write_input "pw.in" text [("old.in", "&CONTROL")]) = Ok deck_full /\
    (forall other, other <> "pw.in" ->
       dict_get (write_input "pw.in" text [("old.in", "&CONTROL")]) other
       = dict_get [("old.in", "&CONTROL")] other) /\
    (forall self, dict_get [("old.in", "&CONTROL")] "pw.in" = None ->
       read_input_file (FT := DecFloat.table) "pw.in" self
         [("old.in", "&CONTROL")] = Ok self).
Proof.
  exact (build_input_file_read_back (FT := DecFloat.table) deck_full "pw.in"
           [("old.in", "&CONTROL")] deck_full_ok).
Defined.

(** [deck_gamma] is a well-formed deck. *)
Lemma deck_gamma_ok : deck_ok (FT := DecFloat.table) deck_gamma.
Proof.
  constructor.
  - closed_namelist.
  - closed_namelist.
  - closed_namelist.
  - closed_namelist.
  - closed_namelist.
  - exists "'scf'". split; reflexivity.
  - vm_compute. reflexivity.
  - vm_compute. reflexivity.
  - exists "1", 1%Z.
    split; [reflexivity|]. split; [vm_compute; reflexivity|]. split.
    + discriminate.
    + intros _. repeat split.
  - split; [|split]; closed_forall.
  - split; [discriminate|]. split; [reflexivity|]. split; [reflexivity|].
    split; [|split]; closed_forall.
  - split; [discriminate|]. split; [reflexivity|]. split; [reflexivity|].
    split; [reflexivity|]. split; [|split; [|split]]; closed_forall.
  - left. repeat split.
  - split; vm_compute; reflexivity.
  - repeat split.
  - left. repeat split.
Qed.

Lemma build_input_drops_cell_witness :
  exists text,
    build_input (FT := DecFloat.table) deck_scf_cell
    = (deck_scf_cell, Ok text) /\
    read_input (FT := DecFloat.table) text Calc.init
    = Ok (Calc.set_cell [] deck_scf_cell).
Proof.
  apply (build_input_drops_cell (FT := DecFloat.table) deck_scf_cell "'scf'").
  - replace (Calc.set_cell [] deck_scf_cell) with deck_gamma
      by (vm_compute; reflexivity).
    exact deck_gamma_ok.
  - reflexivity.
  - reflexivity.
Defined.

Lemma deck_tpiba_ok : list_deck_ok (FT := DecFloat.table) deck_tpiba.
Proof.
  split.
  { replace (at_gamma deck_tpiba) with deck_gamma
      by (vm_compute; reflexivity).
    exact deck_gamma_ok. }
  split; [reflexivity|]. split; [discriminate|]. split; [discriminate|].
  split; [reflexivity|]. split; [reflexivity|]. split; [reflexivity|].
  split; [|split; [|split]]; closed_forall.
Qed.

Lemma build_input_point_list_not_read_witness :
  exists text,
    build_input (FT := DecFloat.table) deck_tpiba = (deck_tpiba, Ok text) /\
    In (str_float_list (FT := DecFloat.table) (Calc.wk deck_tpiba) ++ NL)
      (file_lines text) /\
    read_input (FT := DecFloat.table) text Calc.init = Raise ValueError.
Proof.
  exact (build_input_point_list_not_read (FT := DecFloat.table) deck_tpiba
           deck_tpiba_ok).
Defined.

(** * The round trip and the kinds of sampling *)

Section SamplingVariants.
Context {FT : FloatText}.


End SamplingVariants.



